(** * Mass-mailing service of the giveaway bot: model and verified properties

    Shallow embedding of [src/bot/services/mailing.py]
    ([send_mass_message], [_send_media_message], [_update_error_summary],
    [send_to_channel]).

    Modelling conventions:
    - Python [int] counters are [nat], user ids and error codes are [Z];
    - Python [float] seconds are exact rationals [Q]: nothing is rounded, and
      [1.0 / rps] is defined for every [rps] but zero (no [OverflowError] for
      an [int] beyond the range of a float);
    - [dict[str, int]] is a [gmap string nat];
    - the coroutine runs on a virtual clock which advances only in
      [asyncio.sleep]; calls of the bot are instantaneous on that clock;
    - [asyncio.sleep] always returns: a task that is cancelled does so while
      it awaits a call of the bot, which then raises [CancelledError];
      cancellation in the middle of a sleep is not modelled;
    - exceptions are values of [Exn]; [try]/[except] is [try_except];
    - every call of the bot, every sleep and every log record is written to
      an event trace, in program order. *)

From stdpp Require Import base gmap strings list pretty.
From Stdlib Require Import QArith Lia.
From Stdlib Require Import Ascii.
Close Scope Q_scope.
Open Scope string_scope.
Open Scope list_scope.

(** ** Data model *)

(** [aiogram.types.InlineKeyboardMarkup]: opaque for the mailing service. *)
Definition InlineKeyboardMarkup : Type := string.

(** [@dataclass MessageContent] *)
Record MessageContent : Type := {
  text : option string;
  media_file_id : option string;
  media_type : option string;
  reply_markup : option InlineKeyboardMarkup
}.

(** [@dataclass MailingResult] *)
Record MailingResult : Type := {
  total_recipients : nat;
  sent_count : nat;
  failed_count : nat;
  skipped_count : nat;
  duration_seconds : Q;
  error_summary : gmap string nat
}.

(** [class RateLimits(BaseSettings)] of [bot/config/settings.py], with its
    defaults.  The mailing service reads none of these fields: its callers
    pass [rps] as a literal. *)
Record RateLimits : Type := {
  broadcast_rps : Z;
  announce_rps : Z;
  burst : Z;
  max_retries : Z
}.

Definition default_rate_limits : RateLimits :=
  {| broadcast_rps := 20; announce_rps := 20; burst := 5; max_retries := 5 |}.

(** Truth value of an [str | None] in a Python condition: [None] and the
    empty string are false. *)
Definition truthy (s : option string) : bool :=
  match s with
  | Some s => negb (String.eqb s "")
  | None => false
  end.

(** [x or None] for an [str | None]. *)
Definition or_None (s : option string) : option string :=
  if truthy s then s else None.

(** ** Exceptions

    The classes the handlers of the service tell apart.  In aiogram
    [TelegramRetryAfter] and [TelegramForbiddenError] are subclasses of
    [TelegramAPIError], which is an [Exception]; [CancelledError] is a
    [BaseException] only. *)
Inductive Exn : Type :=
| TelegramRetryAfter (retry_after : Q)
| TelegramForbiddenError
| TelegramAPIError (error_code : option Z)   (* [None]: no attribute [error_code] *)
| ValueError (message : string)
| ZeroDivisionError
| OtherException (detail : string)
| CancelledError.

(** [isinstance(e, Exception)] *)
Definition is_Exception (e : Exn) : bool :=
  match e with
  | CancelledError => false
  | _ => true
  end.

(** ** The bot: the calls the service makes and what they answer *)

Inductive Call : Type :=
| send_message (chat_id : Z) (text : string) (reply_markup : option InlineKeyboardMarkup)
| send_photo (chat_id : Z) (photo : string) (caption : option string)
    (reply_markup : option InlineKeyboardMarkup)
| send_video (chat_id : Z) (video : string) (caption : option string)
    (reply_markup : option InlineKeyboardMarkup)
| send_animation (chat_id : Z) (animation : string) (caption : option string)
    (reply_markup : option InlineKeyboardMarkup)
| send_document (chat_id : Z) (document : string) (caption : option string)
    (reply_markup : option InlineKeyboardMarkup).

Definition chat_of (c : Call) : Z :=
  match c with
  | send_message u _ _ | send_photo u _ _ _ | send_video u _ _ _
  | send_animation u _ _ _ | send_document u _ _ _ => u
  end.

Definition is_send_message (c : Call) : bool :=
  match c with
  | send_message _ _ _ => true
  | _ => false
  end.

(** What an awaited call of the bot does: it returns, or it raises. *)
Inductive Outcome : Type :=
| Sent
| Failed (e : Exn).

(** The outcomes the specification names: success, or one of the signals
    RetryAfter, Forbidden, ApiError, Unexpected (any other [Exception]). *)
Definition success_or_signal (o : Outcome) : bool :=
  match o with
  | Sent => true
  | Failed e => is_Exception e
  end.

(** ** Logging *)

Inductive Level : Type := DEBUG | INFO | WARNING | ERROR.

(** One constructor per [logger] call of the module; the message text is
    left out, the values it formats are kept. *)
Inductive LogRecord : Type :=
| log_start (recipients : nat) (rps : Z)
| log_empty_content (user_id : Z)
| log_retry_after (user_id : Z) (retry_after : Q)
| log_retry_error (user_id : Z) (retry_error : Exn)
| log_blocked (user_id : Z)
| log_api_error (user_id : Z) (e : Exn)
| log_unexpected (user_id : Z) (e : Exn)
| log_progress (idx total sent failed : nat)
| log_finished (sent failed skipped : nat) (duration : Q)
| log_channel_empty
| log_channel_sent (channel_id : Z)
| log_channel_error (channel_id : Z) (e : Exn).

Definition level (r : LogRecord) : Level :=
  match r with
  | log_start _ _ | log_progress _ _ _ _ | log_finished _ _ _ _
  | log_channel_sent _ => INFO
  | log_empty_content _ | log_retry_after _ _ | log_api_error _ _ => WARNING
  | log_retry_error _ _ | log_unexpected _ _ | log_channel_empty
  | log_channel_error _ _ => ERROR
  | log_blocked _ => DEBUG
  end.

(** ** Events and the virtual clock *)

Inductive Event : Type :=
| EvCall (at_time : Q) (c : Call) (o : Outcome)
| EvSleep (seconds : Q)
| EvLog (r : LogRecord).

(** Time [asyncio.sleep d] takes: nothing for [d <= 0]. *)
Definition sleep_time (d : Q) : Q :=
  if Qle_bool d 0 then 0%Q else d.

(** ** The coroutine monad: state, exceptions and a trace *)

Inductive Res (A : Type) : Type :=
| Ok (a : A)
| Raise (e : Exn).
Arguments Ok {A} a.
Arguments Raise {A} e.

Section Mailing.

(** The state of the bot and of the platform behind it. *)
Context {T : Type}.

Record World : Type := {
  bot : T;
  clock : Q
}.

(** The transport: the answer of the bot to a call, and its next state. *)
Variable transport : T -> Call -> Outcome * T.

Definition M (A : Type) : Type := World -> Res A * World * list Event.

Definition ret {A : Type} (a : A) : M A :=
  fun w => (Ok a, w, []).

Definition bind {A B : Type} (m : M A) (k : A -> M B) : M B :=
  fun w =>
    match m w with
    | (Ok a, w1, tr1) => let '(r, w2, tr2) := k a w1 in (r, w2, tr1 ++ tr2)
    | (Raise e, w1, tr1) => (Raise e, w1, tr1)
    end.

Definition raise {A : Type} (e : Exn) : M A :=
  fun w => (Raise e, w, []).

(** [try: m  except ...: h e]; a handler re-raises what no clause catches. *)
Definition try_except {A : Type} (m : M A) (h : Exn -> M A) : M A :=
  fun w =>
    match m w with
    | (Ok a, w1, tr1) => (Ok a, w1, tr1)
    | (Raise e, w1, tr1) => let '(r, w2, tr2) := h e w1 in (r, w2, tr1 ++ tr2)
    end.

Notation "x <- m ;; k" := (bind m (fun x => k))
  (at level 100, m at next level, right associativity).
Notation "m ;;; k" := (bind m (fun _ => k))
  (at level 100, right associativity).

(** [await bot.<call>] *)
Definition await_bot (c : Call) : M unit :=
  fun w =>
    let '(o, b) := transport (bot w) c in
    (match o with Sent => Ok tt | Failed e => Raise e end,
     {| bot := b; clock := clock w |},
     [EvCall (clock w) c o]).

(** [await asyncio.sleep(d)], in a task that is not cancelled while it
    sleeps. *)
Definition sleep (d : Q) : M unit :=
  fun w => (Ok tt, {| bot := bot w; clock := (clock w + sleep_time d)%Q |}, [EvSleep d]).

(** [datetime.now()] *)
Definition now : M Q :=
  fun w => (Ok (clock w), w, []).

Definition log (r : LogRecord) : M unit :=
  fun w => (Ok tt, w, [EvLog r]).

(** ** [_send_media_message] *)

Definition _send_media_message (user_id : Z) (content : MessageContent) : M unit :=
  if negb (truthy (media_file_id content)) || negb (truthy (media_type content)) then
    raise (ValueError "media_file_id и media_type обязательны")
  else
    let caption := or_None (text content) in
    let file_id := default "" (media_file_id content) in
    let kind := default "" (media_type content) in
    if String.eqb kind "photo" then
      await_bot (send_photo user_id file_id caption (reply_markup content))
    else if String.eqb kind "video" then
      await_bot (send_video user_id file_id caption (reply_markup content))
    else if String.eqb kind "animation" then
      await_bot (send_animation user_id file_id caption (reply_markup content))
    else if String.eqb kind "document" then
      await_bot (send_document user_id file_id caption (reply_markup content))
    else
      raise (ValueError ("Неподдерживаемый тип медиа: " +:+ kind)).

(** ** [_update_error_summary] *)

Definition _update_error_summary (summary : gmap string nat) (error_type : string)
    : gmap string nat :=
  <[error_type := default 0 (summary !! error_type) + 1]> summary.

(** ** [send_mass_message] *)

(** The counters the loop updates: the local variables [sent_count],
    [failed_count], [skipped_count] and the dictionary [error_summary]. *)
Record Locals : Type := {
  sent : nat;
  failed : nat;
  skipped : nat;
  errors : gmap string nat
}.

Definition count_sent (l : Locals) : Locals :=
  {| sent := sent l + 1; failed := failed l; skipped := skipped l; errors := errors l |}.

Definition count_skipped (l : Locals) : Locals :=
  {| sent := sent l; failed := failed l; skipped := skipped l + 1; errors := errors l |}.

(** [failed_count += 1; _update_error_summary(error_summary, error_type)] *)
Definition count_failed (error_type : string) (l : Locals) : Locals :=
  {| sent := sent l; failed := failed l + 1; skipped := skipped l;
     errors := _update_error_summary (errors l) error_type |}.

(** How the [try] statement of the loop body is left: to the progress log
    below it, or by [continue]. *)
Inductive Flow : Type := Fallthrough | Continue.

(** The key of the [except TelegramAPIError] clause. *)
Definition api_error_key (error_code : option Z) : string :=
  match error_code with
  | Some code => "api_error_" +:+ pretty code
  | None => "api_error"
  end.

(** The body of the [try]: lines 68 to 81. *)
Definition first_attempt (total : nat) (delay : Q) (content : MessageContent)
    (idx : nat) (user_id : Z) (l : Locals) : M (Flow * Locals) :=
  let sent_then_pace :=
    (if (idx <? total)%nat then sleep delay else ret tt) ;;;
    ret (Fallthrough, count_sent l) in
  if truthy (media_file_id content) && truthy (media_type content) then
    _send_media_message user_id content ;;; sent_then_pace
  else if truthy (text content) then
    await_bot (send_message user_id (default "" (text content)) (reply_markup content)) ;;;
    sent_then_pace
  else
    log (log_empty_content user_id) ;;;
    ret (Continue, count_skipped l).

(** The body of the inner [try]: lines 89 to 93. *)
Definition second_attempt (content : MessageContent) (user_id : Z) (l : Locals)
    : M Locals :=
  (if truthy (media_file_id content) && truthy (media_type content) then
     _send_media_message user_id content
   else if truthy (text content) then
     await_bot (send_message user_id (default "" (text content)) (reply_markup content))
   else ret tt) ;;;
  ret (count_sent l).

(** The [except] clauses of the loop body, in their order: lines 83 to 115. *)
Definition on_exception (content : MessageContent) (user_id : Z) (l : Locals)
    (e : Exn) : M Locals :=
  match e with
  | TelegramRetryAfter retry_after =>
      log (log_retry_after user_id retry_after) ;;;
      sleep retry_after ;;;
      try_except (second_attempt content user_id l)
        (fun retry_error =>
           if is_Exception retry_error then
             log (log_retry_error user_id retry_error) ;;;
             ret (count_failed "retry_failed" l)
           else raise retry_error)
  | TelegramForbiddenError =>
      log (log_blocked user_id) ;;;
      ret (count_failed "blocked" l)
  | TelegramAPIError error_code =>
      log (log_api_error user_id e) ;;;
      ret (count_failed (api_error_key error_code) l)
  | _ =>
      if is_Exception e then
        log (log_unexpected user_id e) ;;;
        ret (count_failed "unexpected" l)
      else raise e
  end.

(** One iteration of [for idx, user_id in enumerate(recipients, 1)]. *)
Definition loop_body (total : nat) (delay : Q) (content : MessageContent)
    (idx : nat) (user_id : Z) (l : Locals) : M Locals :=
  r <- try_except (first_attempt total delay content idx user_id l)
         (fun e => l' <- on_exception content user_id l e ;; ret (Fallthrough, l')) ;;
  match r with
  | (Continue, l') => ret l'
  | (Fallthrough, l') =>
      (if (idx mod 100 =? 0)%nat then log (log_progress idx total (sent l') (failed l'))
       else ret tt) ;;;
      ret l'
  end.

Fixpoint for_each (total : nat) (delay : Q) (content : MessageContent)
    (idx : nat) (recipients : list Z) (l : Locals) : M Locals :=
  match recipients with
  | [] => ret l
  | user_id :: rest =>
      l' <- loop_body total delay content idx user_id l ;;
      for_each total delay content (S idx) rest l'
  end.

Definition no_counts : Locals :=
  {| sent := 0; failed := 0; skipped := 0; errors := ∅ |}.

Definition send_mass_message (recipients : list Z) (content : MessageContent)
    (rps : Z) : M MailingResult :=
  start_time <- now ;;
  (if (rps =? 0)%Z then raise ZeroDivisionError else ret tt) ;;;
  let delay := (1 / inject_Z rps)%Q in
  log (log_start (length recipients) rps) ;;;
  l <- for_each (length recipients) delay content 1 recipients no_counts ;;
  end_time <- now ;;
  let duration := (end_time - start_time)%Q in
  log (log_finished (sent l) (failed l) (skipped l) duration) ;;;
  ret {| total_recipients := length recipients;
         sent_count := sent l;
         failed_count := failed l;
         skipped_count := skipped l;
         duration_seconds := duration;
         error_summary := errors l |}.

(** ** [send_to_channel] *)

Definition send_to_channel (channel_id : Z) (content : MessageContent) : M bool :=
  try_except
    (if truthy (media_file_id content) && truthy (media_type content) then
       _send_media_message channel_id content ;;;
       log (log_channel_sent channel_id) ;;;
       ret true
     else if truthy (text content) then
       await_bot (send_message channel_id (default "" (text content)) (reply_markup content)) ;;;
       log (log_channel_sent channel_id) ;;;
       ret true
     else
       log log_channel_empty ;;;
       ret false)
    (fun e =>
       if is_Exception e then
         log (log_channel_error channel_id e) ;;;
         ret false
       else raise e).

End Mailing.

Arguments World : clear implicits.
Arguments M : clear implicits.

(** ** The dispatch rule, as a function of the content

    What one send attempt does for a recipient, read off the [if]/[elif]
    chain the three send sites share: a call of the bot, a [ValueError]
    raised before any call, or nothing to send. *)

Inductive Decision : Type :=
| DCall (c : Call)
| DInvalid (e : Exn)
| DSkip.

Definition supported_kind (kind : string) : bool :=
  String.eqb kind "photo" || String.eqb kind "video" ||
  String.eqb kind "animation" || String.eqb kind "document".

Definition has_text (content : MessageContent) : bool := truthy (text content).
Definition has_media (content : MessageContent) : bool := truthy (media_file_id content).
Definition has_kind (content : MessageContent) : bool := truthy (media_type content).

Definition media_call (user_id : Z) (content : MessageContent) : Decision :=
  let caption := or_None (text content) in
  let file_id := default "" (media_file_id content) in
  let kind := default "" (media_type content) in
  if String.eqb kind "photo" then
    DCall (send_photo user_id file_id caption (reply_markup content))
  else if String.eqb kind "video" then
    DCall (send_video user_id file_id caption (reply_markup content))
  else if String.eqb kind "animation" then
    DCall (send_animation user_id file_id caption (reply_markup content))
  else if String.eqb kind "document" then
    DCall (send_document user_id file_id caption (reply_markup content))
  else DInvalid (ValueError ("Неподдерживаемый тип медиа: " +:+ kind)).

Definition dispatch_rule (user_id : Z) (content : MessageContent) : Decision :=
  if has_media content && has_kind content then media_call user_id content
  else if has_text content then
    DCall (send_message user_id (default "" (text content)) (reply_markup content))
  else DSkip.

(** The progress record at the end of an iteration. *)
Definition progress (idx total : nat) (l : Locals) : list Event :=
  if (idx mod 100 =? 0)%nat then [EvLog (log_progress idx total (sent l) (failed l))]
  else [].

(** The rate-limit pause after a send that succeeded at once. *)
Definition pace (total : nat) (delay : Q) (idx : nat) : list Event :=
  if (idx <? total)%nat then [EvSleep delay] else [].

Definition paced_clock (total : nat) (delay : Q) (idx : nat) (t : Q) : Q :=
  if (idx <? total)%nat then (t + sleep_time delay)%Q else t.

Definition calls (tr : list Event) : list (Q * Call * Outcome) :=
  omap (fun ev => match ev with EvCall t c o => Some (t, c, o) | _ => None end) tr.

Definition sleeps (tr : list Event) : list Q :=
  omap (fun ev => match ev with EvSleep d => Some d | _ => None end) tr.

(** Key and log record of a first attempt that fails without a retry. *)
Definition failure_key (e : Exn) : string :=
  match e with
  | TelegramForbiddenError => "blocked"
  | TelegramAPIError error_code => api_error_key error_code
  | _ => "unexpected"
  end.

Definition failure_log (user_id : Z) (e : Exn) : LogRecord :=
  match e with
  | TelegramForbiddenError => log_blocked user_id
  | TelegramAPIError _ => log_api_error user_id e
  | _ => log_unexpected user_id e
  end.

Definition is_retry_after (e : Exn) : bool :=
  match e with
  | TelegramRetryAfter _ => true
  | _ => false
  end.

(** The six ways an iteration of the loop ends when the transport answers
    with success or a signal: the counters, the world and the trace it
    leaves, from counters [l] and world [w]. *)
Section Iteration_cases.

Context {T : Type}.
Variable transport : T -> Call -> Outcome * T.
Variables (total : nat) (delay : Q) (content : MessageContent).
Variables (idx : nat) (user_id : Z) (l : Locals) (w : World T).

Inductive Iteration : Locals -> World T -> list Event -> Prop :=
| It_skip :
    dispatch_rule user_id content = DSkip ->
    Iteration (count_skipped l) w [EvLog (log_empty_content user_id)]
| It_invalid (e : Exn) :
    dispatch_rule user_id content = DInvalid e ->
    Iteration (count_failed "unexpected" l) w
      (EvLog (log_unexpected user_id e) ::
       progress idx total (count_failed "unexpected" l))
| It_sent (c : Call) (b : T) :
    dispatch_rule user_id content = DCall c ->
    transport (bot w) c = (Sent, b) ->
    Iteration (count_sent l)
      {| bot := b; clock := paced_clock total delay idx (clock w) |}
      (EvCall (clock w) c Sent :: pace total delay idx ++
       progress idx total (count_sent l))
| It_failed (c : Call) (e : Exn) (b : T) :
    dispatch_rule user_id content = DCall c ->
    transport (bot w) c = (Failed e, b) ->
    is_Exception e = true ->
    is_retry_after e = false ->
    Iteration (count_failed (failure_key e) l)
      {| bot := b; clock := clock w |}
      ([EvCall (clock w) c (Failed e); EvLog (failure_log user_id e)] ++
       progress idx total (count_failed (failure_key e) l))
| It_retry_sent (c : Call) (s : Q) (b1 b2 : T) :
    dispatch_rule user_id content = DCall c ->
    transport (bot w) c = (Failed (TelegramRetryAfter s), b1) ->
    transport b1 c = (Sent, b2) ->
    Iteration (count_sent l)
      {| bot := b2; clock := (clock w + sleep_time s)%Q |}
      ([EvCall (clock w) c (Failed (TelegramRetryAfter s));
        EvLog (log_retry_after user_id s);
        EvSleep s;
        EvCall (clock w + sleep_time s)%Q c Sent] ++
       progress idx total (count_sent l))
| It_retry_failed (c : Call) (s : Q) (e2 : Exn) (b1 b2 : T) :
    dispatch_rule user_id content = DCall c ->
    transport (bot w) c = (Failed (TelegramRetryAfter s), b1) ->
    transport b1 c = (Failed e2, b2) ->
    is_Exception e2 = true ->
    Iteration (count_failed "retry_failed" l)
      {| bot := b2; clock := (clock w + sleep_time s)%Q |}
      ([EvCall (clock w) c (Failed (TelegramRetryAfter s));
        EvLog (log_retry_after user_id s);
        EvSleep s;
        EvCall (clock w + sleep_time s)%Q c (Failed e2);
        EvLog (log_retry_error user_id e2)] ++
       progress idx total (count_failed "retry_failed" l)).

End Iteration_cases.

(** The loop over [recipients], when the transport answers with success or
    a signal: one iteration for every entry of the list, in list order and
    numbered from [idx], each from the counters and the world the one
    before it left; the trace is theirs, one after the other. *)
Section Loop_cases.

Context {T : Type}.
Variable transport : T -> Call -> Outcome * T.
Variables (total : nat) (delay : Q) (content : MessageContent).

Inductive Iterations :
    nat -> list Z -> Locals -> World T -> Locals -> World T -> list Event -> Prop :=
| Its_done (idx : nat) (l : Locals) (w : World T) :
    Iterations idx [] l w l w []
| Its_next (idx : nat) (user_id : Z) (rest : list Z) (l l1 l2 : Locals)
    (w w1 w2 : World T) (tr1 tr2 : list Event) :
    Iteration transport total delay content idx user_id l w l1 w1 tr1 ->
    Iterations (S idx) rest l1 w1 l2 w2 tr2 ->
    Iterations idx (user_id :: rest) l w l2 w2 (tr1 ++ tr2).

End Loop_cases.

(** ** Results and counters *)

(** The [MailingResult] the function builds from its counters. *)
Definition result_of (recipients : list Z) (l : Locals) (duration : Q) : MailingResult :=
  {| total_recipients := length recipients;
     sent_count := sent l;
     failed_count := failed l;
     skipped_count := skipped l;
     duration_seconds := duration;
     error_summary := errors l |}.

(** The number of recipients the counters account for. *)
Definition processed (l : Locals) : nat := sent l + failed l + skipped l.

(** ** Kinds of content *)

(** Media is attached with a kind that is none of the four supported ones. *)
Definition unsupported_media (content : MessageContent) : bool :=
  has_media content && has_kind content &&
  negb (supported_kind (default "" (media_type content))).

(** The message of the [ValueError] for such a content. *)
Definition unsupported_message (content : MessageContent) : string :=
  "Неподдерживаемый тип медиа: " +:+ default "" (media_type content).

(** The content is not empty for the dispatch rule: it selects a call. *)
Definition sends (content : MessageContent) : bool :=
  if has_media content && has_kind content
  then supported_kind (default "" (media_type content))
  else has_text content.

(** The content with its media taken away. *)
Definition without_media (content : MessageContent) : MessageContent :=
  {| text := text content; media_file_id := None; media_type := None;
     reply_markup := reply_markup content |}.

(** ** Observations on a trace *)

(** The chats called, in the order of the calls. *)
Definition recipients_called (tr : list Event) : list Z :=
  map (fun x => chat_of (snd (fst x))) (calls tr).

(** The calls one iteration of the broadcast makes for a recipient: the
    call of the dispatch rule, and once more after RetryAfter. *)
Definition iteration_calls {T : Type} (transport : T -> Call -> Outcome * T)
    (user_id : Z) (content : MessageContent) (w : World T) : list (Q * Call * Outcome) :=
  match dispatch_rule user_id content with
  | DCall c =>
      let '(o, b) := transport (bot w) c in
      (clock w, c, o) ::
      match o with
      | Failed (TelegramRetryAfter s) =>
          [((clock w + sleep_time s)%Q, c, fst (transport b c))]
      | _ => []
      end
  | _ => []
  end.

(** A dispatch, as the trace shows it: when it was made, what was called,
    how it ended, and whether it is the retry that follows the record
    [log_retry_after]. *)
Record Attempt : Type := {
  at_time : Q;
  call : Call;
  outcome : Outcome;
  is_retry : bool
}.

Fixpoint attempts (retrying : bool) (tr : list Event) : list Attempt :=
  match tr with
  | [] => []
  | EvCall t c o :: tr' =>
      {| at_time := t; call := c; outcome := o; is_retry := retrying |} ::
      attempts false tr'
  | EvLog (log_retry_after _ _) :: tr' => attempts true tr'
  | _ :: tr' => attempts retrying tr'
  end.

(** The property claimed of the limiter: from dispatch [B + 1] on, every
    dispatch is at least [1 / R] after the one before it. *)
Definition rate_limited (R : Z) (B : nat) (ds : list Attempt) : Prop :=
  forall (i : nat) (a1 a2 : Attempt),
    B <= S i -> ds !! i = Some a1 -> ds !! S i = Some a2 ->
    (at_time a1 + 1 / inject_Z R <= at_time a2)%Q.

(** What the loop does: a gap after every dispatch that is delivered at the
    first attempt. *)
Fixpoint spaced (gap : Q) (ds : list Attempt) : Prop :=
  match ds with
  | a1 :: (a2 :: _) as rest =>
      (is_retry a1 = false -> outcome a1 = Sent -> (at_time a1 + gap <= at_time a2)%Q) /\
      spaced gap rest
  | _ => True
  end.

(** ** Concrete contents, worlds and transports *)

(** [MessageContent(text=t)] *)
Definition text_only (t : string) : MessageContent :=
  {| text := Some t; media_file_id := None; media_type := None; reply_markup := None |}.

(** [MessageContent()] *)
Definition no_content : MessageContent :=
  {| text := None; media_file_id := None; media_type := None; reply_markup := None |}.

(** A sticker: media of a kind [_send_media_message] does not know. *)
Definition sticker : MessageContent :=
  {| text := Some "hi"; media_file_id := Some "CAACAgIAAxkBAAIB";
     media_type := Some "sticker"; reply_markup := None |}.

(** A photo whose kind was lost. *)
Definition untyped_photo : MessageContent :=
  {| text := Some "hi"; media_file_id := Some "AgACAgIAAxkBAAIC";
     media_type := None; reply_markup := None |}.

(** A document whose kind was lost, with no text. *)
Definition untyped_document : MessageContent :=
  {| text := None; media_file_id := Some "BQACAgIAAxkBAAIE";
     media_type := None; reply_markup := None |}.

(** The world with the bot in state [b] and the clock at zero. *)
Definition midnight {T : Type} (b : T) : World T := {| bot := b; clock := 0%Q |}.

(** Every call is delivered. *)
Definition always_sent (s : unit) (c : Call) : Outcome * unit := (Sent, s).

(** Counts its calls: throttles the very first one for three seconds, and
    finds recipient 2 to have blocked the bot. *)
Definition flaky (n : nat) (c : Call) : Outcome * nat :=
  (if (n =? 0)%nat then Failed (TelegramRetryAfter 3%Q)
   else if (chat_of c =? 2)%Z then Failed TelegramForbiddenError
   else Sent,
   S n).

(** Counts its calls: throttles the first one for a second, answers the
    second one with API error 400, delivers the rest. *)
Definition throttled_then_400 (n : nat) (c : Call) : Outcome * nat :=
  (match n with
   | 0 => Failed (TelegramRetryAfter 1%Q)
   | 1 => Failed (TelegramAPIError (Some 400%Z))
   | _ => Sent
   end,
   S n).

(** Refuses every call to chat [x], delivers the others. *)
Definition blocked_by (x : Z) (s : unit) (c : Call) : Outcome * unit :=
  (if (chat_of c =? x)%Z then Failed TelegramForbiddenError else Sent, s).

(** ** Runs that are cut short, and further observations *)

(** The two ways an iteration is left by an exception: the transport
    raises something that is no [Exception], at the first attempt or at the
    retry; no [except] clause catches it. *)
Section Abort_cases.

Context {T : Type}.
Variable transport : T -> Call -> Outcome * T.
Variables (content : MessageContent) (user_id : Z) (w : World T).

Inductive Abort : Exn -> World T -> list Event -> Prop :=
| Ab_first (c : Call) (e : Exn) (b : T) :
    dispatch_rule user_id content = DCall c ->
    transport (bot w) c = (Failed e, b) ->
    is_Exception e = false ->
    Abort e {| bot := b; clock := clock w |} [EvCall (clock w) c (Failed e)]
| Ab_retry (c : Call) (s : Q) (e2 : Exn) (b1 b2 : T) :
    dispatch_rule user_id content = DCall c ->
    transport (bot w) c = (Failed (TelegramRetryAfter s), b1) ->
    transport b1 c = (Failed e2, b2) ->
    is_Exception e2 = false ->
    Abort e2 {| bot := b2; clock := (clock w + sleep_time s)%Q |}
      [EvCall (clock w) c (Failed (TelegramRetryAfter s));
       EvLog (log_retry_after user_id s);
       EvSleep s;
       EvCall (clock w + sleep_time s)%Q c (Failed e2)].

End Abort_cases.

(** The sum of the counts of an error summary. *)
Definition total_errors (summary : gmap string nat) : nat :=
  map_fold (fun _ n acc => n + acc) 0 summary.

Definition is_sent (o : Outcome) : bool :=
  match o with
  | Sent => true
  | Failed _ => false
  end.

(** The number of calls of a trace that were delivered. *)
Definition delivered (tr : list Event) : nat :=
  length (List.filter (fun x => is_sent (snd x)) (calls tr)).

(** The chats of the first attempts of a trace, in order. *)
Definition first_attempt_chats (tr : list Event) : list Z :=
  map (fun a => chat_of (call a))
    (List.filter (fun a => negb (is_retry a)) (attempts false tr)).

(** The calls of the first attempts of a trace, in order. *)
Definition first_attempt_calls (tr : list Event) : list Call :=
  map call (List.filter (fun a => negb (is_retry a)) (attempts false tr)).

(** The indices at which a progress record was logged. *)
Definition progress_marks (tr : list Event) : list nat :=
  omap (fun ev => match ev with
                  | EvLog (log_progress idx _ _ _) => Some idx
                  | _ => None
                  end) tr.

(** The content is empty for the dispatch rule: neither media with a kind
    nor text. *)
Definition nothing_to_send (content : MessageContent) : bool :=
  negb (has_media content && has_kind content) && negb (has_text content).

(** Counts its calls and cancels the task at call number [k] (from 0). *)
Definition cancelled_at (k : nat) (n : nat) (c : Call) : Outcome * nat :=
  (if (n =? k)%nat then Failed CancelledError else Sent, S n).

(** The event is a call of the bot that raised something that is no
    [Exception]: the task was cancelled while it awaited the call. *)
Definition is_cancelled_call (ev : Event) : bool :=
  match ev with
  | EvCall _ _ (Failed e) => negb (is_Exception e)
  | _ => false
  end.

(** What a call carries. *)
Definition kind_of (c : Call) : option string :=
  match c with
  | send_message _ _ _ => None
  | send_photo _ _ _ _ => Some "photo"
  | send_video _ _ _ _ => Some "video"
  | send_animation _ _ _ _ => Some "animation"
  | send_document _ _ _ _ => Some "document"
  end.

Definition file_of (c : Call) : option string :=
  match c with
  | send_message _ _ _ => None
  | send_photo _ f _ _ | send_video _ f _ _ | send_animation _ f _ _
  | send_document _ f _ _ => Some f
  end.

Definition caption_of (c : Call) : option string :=
  match c with
  | send_message _ _ _ => None
  | send_photo _ _ t _ | send_video _ _ t _ | send_animation _ _ t _
  | send_document _ _ t _ => t
  end.

Definition markup_of (c : Call) : option InlineKeyboardMarkup :=
  match c with
  | send_message _ _ m | send_photo _ _ _ m | send_video _ _ _ m
  | send_animation _ _ _ m | send_document _ _ _ m => m
  end.

(** The exceptions of aiogram the loop has clauses for. *)
Definition is_telegram_error (e : Exn) : bool :=
  match e with
  | TelegramRetryAfter _ | TelegramForbiddenError | TelegramAPIError _ => true
  | _ => false
  end.

(** A video with a caption and one without. *)
Definition video (caption : option string) : MessageContent :=
  {| text := caption; media_file_id := Some "BAACAgIAAxkBAAID";
     media_type := Some "video"; reply_markup := Some "join" |}.

(** Answers every call with a network fault. *)
Definition offline (s : unit) (c : Call) : Outcome * unit :=
  (Failed (OtherException "ClientConnectorError"), s).

(** ** The callers of the mailing service and what they read

    [Settings.get_admin_ids] and [Settings.is_admin] of
    [bot/config/settings.py], [format_winner_list] of
    [bot/services/giveaway_service.py], and the blocks of the handlers
    [publish_results] ([bot/handlers/admin/winners.py]) and
    [handle_manual_announce] ([bot/handlers/admin/announce.py]) that deliver
    a content and count what was sent. *)

(** [s.split(sep)] for a separator of one character. *)
Fixpoint split (sep : Ascii.ascii) (s : string) : list string :=
  match s with
  | EmptyString => [EmptyString]
  | String a s' =>
      if Ascii.eqb a sep then EmptyString :: split sep s'
      else match split sep s' with
           | field :: fields => String a field :: fields
           | [] => [String a EmptyString]
           end
  end.

Definition comma : Ascii.ascii := ","%char.
Definition newline : Ascii.ascii := "010"%char.

Section Settings.

(** The builtins [str.strip] and [int], which returns the number or raises
    [ValueError]. *)
Variable strip : string -> string.
Variable int : string -> Res Z.

(** [[int(id.strip()) for id in fields if id.strip()]], evaluated from left
    to right. *)
Fixpoint parse_ids (fields : list string) : Res (list Z) :=
  match fields with
  | [] => Ok []
  | id :: rest =>
      if negb (String.eqb (strip id) "") then
        match int (strip id) with
        | Ok n =>
            match parse_ids rest with
            | Ok ns => Ok (n :: ns)
            | Raise e => Raise e
            end
        | Raise e => Raise e
        end
      else parse_ids rest
  end.

(** [Settings.get_admin_ids], from the field [admin_ids]. *)
Definition get_admin_ids (admin_ids : string) : Res (list Z) :=
  parse_ids (split comma admin_ids).

(** [Settings.is_admin] *)
Definition is_admin (admin_ids : string) (user_id : Z) : Res bool :=
  match get_admin_ids admin_ids with
  | Ok ids => Ok (existsb (Z.eqb user_id) ids)
  | Raise e => Raise e
  end.

End Settings.


(** The fields of [bot.db.models.Winner] that [format_winner_list] reads. *)
Record Winner : Type := {
  user_id : Z;
  username_snapshot : option string
}.

(** One pass of the loop of [format_winner_list]: the line of a winner. *)
Definition winner_line (idx : nat) (winner : Winner) : string :=
  let username :=
    if truthy (username_snapshot winner)
    then "@" +:+ default "" (username_snapshot winner)
    else "ID: " +:+ pretty (user_id winner) in
  pretty idx +:+ ". " +:+ username.

(** [lines], built by [for idx, winner in enumerate(winners, idx)]. *)
Fixpoint winner_lines (idx : nat) (winners : list Winner) : list string :=
  match winners with
  | [] => []
  | winner :: rest => winner_line idx winner :: winner_lines (S idx) rest
  end.

(** [format_winner_list] *)
Definition format_winner_list (winners : list Winner) : string :=
  match winners with
  | [] => "No winners"
  | _ => String.concat (String newline "") (winner_lines 1 winners)
  end.

(** Whether the character [a] occurs in [s]. *)
Fixpoint has_char (a : Ascii.ascii) (s : string) : bool :=
  match s with
  | EmptyString => false
  | String b s' => Ascii.eqb b a || has_char a s'
  end.

Section Handlers.

Context {T : Type}.
Variable transport : T -> Call -> Outcome * T.

Notation "x <- m ;; k" := (bind m (fun x => k))
  (at level 100, m at next level, right associativity).
Notation "m ;;; k" := (bind m (fun _ => k))
  (at level 100, right associativity).

(** [publish_results], lines 178 to 201: the results go to the target the
    admin chose; [admin_ids] and [user_ids] are the lists that
    [settings.get_admin_ids()] and [user_repo.get_all_user_ids(session)]
    returned.  The value is [sent_count]. *)
Definition publish_results_deliver (target : string) (channel_id : Z)
    (admin_ids user_ids : list Z) (result_text : string) : M T nat :=
  let content := text_only result_text in
  if String.eqb target "channel" then
    success <- send_to_channel transport channel_id content ;;
    ret (if success : bool then 1 else 0)
  else if String.eqb target "admins" then
    result <- send_mass_message transport admin_ids content 10 ;;
    ret (sent_count result)
  else if String.eqb target "users" then
    result <- send_mass_message transport user_ids content 20 ;;
    ret (sent_count result)
  else if String.eqb target "everywhere" then
    send_to_channel transport channel_id content ;;;
    result <- send_mass_message transport user_ids content 20 ;;
    ret (sent_count result + 1)
  else ret 0.

(** [handle_manual_announce], lines 119 to 131 (the same block closes
    [handle_announce_target] of the giveaway wizard, lines 300 to 317): the announce goes to the
    channel, to the users, or to both.  The value is [sent_count]. *)
Definition announce_deliver (target : string) (channel_id : Z) (user_ids : list Z)
    (content : MessageContent) : M T nat :=
  n <- (if String.eqb target "channel" || String.eqb target "everywhere" then
          success <- send_to_channel transport channel_id content ;;
          ret (if success : bool then 0 + 1 else 0)
        else ret 0) ;;
  if String.eqb target "users" || String.eqb target "everywhere" then
    result <- send_mass_message transport user_ids content 20 ;;
    ret (n + sent_count result)
  else ret n.

End Handlers.

(** Whether the channel post of [send_to_channel] went through. *)
Definition channel_delivered {T : Type} (transport : T -> Call -> Outcome * T)
    (channel_id : Z) (content : MessageContent) (w : World T) : bool :=
  match fst (fst (send_to_channel transport channel_id content w)) with
  | Ok true => true
  | _ => false
  end.

(** Stand-ins for the builtins, on plain decimal fields: [strip] drops
    nothing, and [int] reads the ids 1 to 3. *)
Definition no_strip (s : string) : string := s.

Definition small_int (s : string) : Res Z :=
  if String.eqb s "1" then Ok 1%Z
  else if String.eqb s "2" then Ok 2%Z
  else if String.eqb s "3" then Ok 3%Z
  else Raise (ValueError ("invalid literal for int() with base 10: " +:+ s)).


(** The keys the loop can write into the error summary. *)
Definition known_key (k : string) : Prop :=
  k = "blocked" \/ k = "retry_failed" \/ k = "unexpected" \/
  exists error_code, k = api_error_key error_code.

(** * Facts about the model *)

Lemma media_call_cases (user_id : Z) (content : MessageContent) :
  (exists c, media_call user_id content = DCall c) \/
  (exists m, media_call user_id content = DInvalid (ValueError m)).
Proof.
  unfold media_call. repeat (case String.eqb; [left; eexists; reflexivity|]).
  right. eexists. reflexivity.
Qed.

Section Mailing_facts.

Context {T : Type}.
Variable transport : T -> Call -> Outcome * T.

Lemma send_media_run (user_id : Z) (content : MessageContent) (w : World T) :
  has_media content && has_kind content = true ->
  _send_media_message transport user_id content w =
  match media_call user_id content with
  | DCall c => await_bot transport c w
  | DInvalid e => (Raise e, w, [])
  | DSkip => (Ok tt, w, [])
  end.
Proof.
  unfold has_media, has_kind, _send_media_message, media_call. intros G.
  apply andb_prop in G as [-> ->]. cbn [negb orb].
  repeat (case String.eqb; [reflexivity|]). reflexivity.
Qed.

Lemma first_attempt_run (total : nat) (delay : Q) (content : MessageContent)
    (idx : nat) (user_id : Z) (l : Locals) (w : World T) :
  first_attempt transport total delay content idx user_id l w =
  match dispatch_rule user_id content with
  | DCall c =>
      match transport (bot w) c with
      | (Sent, b) =>
          (Ok (Fallthrough, count_sent l),
           {| bot := b; clock := paced_clock total delay idx (clock w) |},
           EvCall (clock w) c Sent :: pace total delay idx)
      | (Failed e, b) =>
          (Raise e, {| bot := b; clock := clock w |}, [EvCall (clock w) c (Failed e)])
      end
  | DInvalid e => (Raise e, w, [])
  | DSkip => (Ok (Continue, count_skipped l), w, [EvLog (log_empty_content user_id)])
  end.
Proof.
  unfold first_attempt, dispatch_rule.
  fold (has_media content) (has_kind content) (has_text content).
  destruct (has_media content && has_kind content) eqn:G.
  - unfold bind at 1. rewrite send_media_run by exact G.
    destruct (media_call_cases user_id content) as [[c ->]|[e ->]]; [|reflexivity].
    unfold await_bot, paced_clock, pace.
    destruct (transport (bot w) c) as [[|e] b]; [|reflexivity].
    unfold bind, sleep, ret. destruct (idx <? total)%nat; reflexivity.
  - destruct (has_text content); [|reflexivity].
    unfold bind at 1. unfold await_bot, paced_clock, pace.
    destruct (transport (bot w) _) as [[|e] b]; [|reflexivity].
    unfold bind, sleep, ret. destruct (idx <? total)%nat; reflexivity.
Qed.

Lemma second_attempt_run (content : MessageContent) (user_id : Z) (l : Locals)
    (w : World T) :
  second_attempt transport content user_id l w =
  match dispatch_rule user_id content with
  | DCall c =>
      match transport (bot w) c with
      | (Sent, b) =>
          (Ok (count_sent l), {| bot := b; clock := clock w |}, [EvCall (clock w) c Sent])
      | (Failed e, b) =>
          (Raise e, {| bot := b; clock := clock w |}, [EvCall (clock w) c (Failed e)])
      end
  | DInvalid e => (Raise e, w, [])
  | DSkip => (Ok (count_sent l), w, [])
  end.
Proof.
  unfold second_attempt, dispatch_rule.
  fold (has_media content) (has_kind content) (has_text content).
  destruct (has_media content && has_kind content) eqn:G.
  - unfold bind. rewrite send_media_run by exact G.
    destruct (media_call_cases user_id content) as [[c ->]|[e ->]]; [|reflexivity].
    unfold await_bot. destruct (transport (bot w) c) as [[|e] b]; reflexivity.
  - destruct (has_text content); [|reflexivity].
    unfold bind, await_bot. destruct (transport (bot w) _) as [[|e] b]; reflexivity.
Qed.

(** *** One iteration, case by case *)

Section Iteration.

Variables (total : nat) (delay : Q) (content : MessageContent).
Variables (idx : nat) (user_id : Z) (l : Locals) (w : World T).

Let body := loop_body transport total delay content idx user_id l w.

Lemma loop_body_skip :
  dispatch_rule user_id content = DSkip ->
  body = (Ok (count_skipped l), w, [EvLog (log_empty_content user_id)]).
Proof.
  intros D. unfold body, loop_body, bind, try_except.
  rewrite first_attempt_run, D. reflexivity.
Qed.

Lemma loop_body_invalid (e : Exn) :
  dispatch_rule user_id content = DInvalid e ->
  body = (Ok (count_failed "unexpected" l), w,
          EvLog (log_unexpected user_id e) :: progress idx total (count_failed "unexpected" l)).
Proof.
  intros D. unfold body, loop_body, bind, try_except.
  rewrite first_attempt_run, D.
  assert (exists m, e = ValueError m) as [m ->].
  { unfold dispatch_rule in D. destruct (has_media content && has_kind content).
    - destruct (media_call_cases user_id content) as [[c E]|[m E]]; rewrite E in D.
      + discriminate.
      + injection D as <-. eauto.
    - destruct (has_text content); discriminate. }
  unfold progress. destruct (idx mod 100 =? 0)%nat; reflexivity.
Qed.

Lemma loop_body_sent (c : Call) (b : T) :
  dispatch_rule user_id content = DCall c ->
  transport (bot w) c = (Sent, b) ->
  body = (Ok (count_sent l),
          {| bot := b; clock := paced_clock total delay idx (clock w) |},
          EvCall (clock w) c Sent :: pace total delay idx ++
          progress idx total (count_sent l)).
Proof.
  intros D E. unfold body, loop_body, bind, try_except.
  rewrite first_attempt_run, D, E.
  unfold progress. destruct (idx mod 100 =? 0)%nat; reflexivity.
Qed.

Lemma loop_body_failed (c : Call) (e : Exn) (b : T) :
  dispatch_rule user_id content = DCall c ->
  transport (bot w) c = (Failed e, b) ->
  is_Exception e = true ->
  is_retry_after e = false ->
  body = (Ok (count_failed (failure_key e) l),
          {| bot := b; clock := clock w |},
          [EvCall (clock w) c (Failed e); EvLog (failure_log user_id e)] ++
          progress idx total (count_failed (failure_key e) l)).
Proof.
  intros D E Hexc Hretry. unfold body, loop_body, bind, try_except.
  rewrite first_attempt_run, D, E.
  unfold progress.
  destruct e; try discriminate;
    destruct (idx mod 100 =? 0)%nat; reflexivity.
Qed.

Lemma loop_body_retry_sent (c : Call) (s : Q) (b1 b2 : T) :
  dispatch_rule user_id content = DCall c ->
  transport (bot w) c = (Failed (TelegramRetryAfter s), b1) ->
  transport b1 c = (Sent, b2) ->
  body = (Ok (count_sent l),
          {| bot := b2; clock := (clock w + sleep_time s)%Q |},
          [EvCall (clock w) c (Failed (TelegramRetryAfter s));
           EvLog (log_retry_after user_id s);
           EvSleep s;
           EvCall (clock w + sleep_time s)%Q c Sent] ++
          progress idx total (count_sent l)).
Proof.
  intros D E1 E2. unfold body, loop_body. unfold bind at 1. unfold try_except at 1.
  rewrite first_attempt_run, D, E1.
  unfold on_exception. unfold bind at 1. unfold bind at 1. unfold bind at 1.
  unfold log at 1. unfold bind at 1. unfold sleep at 1. unfold try_except.
  rewrite second_attempt_run, D. cbn [bot clock]. rewrite E2.
  unfold progress. destruct (idx mod 100 =? 0)%nat; reflexivity.
Qed.

Lemma loop_body_retry_failed (c : Call) (s : Q) (e2 : Exn) (b1 b2 : T) :
  dispatch_rule user_id content = DCall c ->
  transport (bot w) c = (Failed (TelegramRetryAfter s), b1) ->
  transport b1 c = (Failed e2, b2) ->
  is_Exception e2 = true ->
  body = (Ok (count_failed "retry_failed" l),
          {| bot := b2; clock := (clock w + sleep_time s)%Q |},
          [EvCall (clock w) c (Failed (TelegramRetryAfter s));
           EvLog (log_retry_after user_id s);
           EvSleep s;
           EvCall (clock w + sleep_time s)%Q c (Failed e2);
           EvLog (log_retry_error user_id e2)] ++
          progress idx total (count_failed "retry_failed" l)).
Proof.
  intros D E1 E2 Hexc. unfold body, loop_body. unfold bind at 1. unfold try_except at 1.
  rewrite first_attempt_run, D, E1.
  unfold on_exception. unfold bind at 1. unfold bind at 1. unfold bind at 1.
  unfold log at 1. unfold bind at 1. unfold sleep at 1. unfold try_except.
  rewrite second_attempt_run, D. cbn [bot clock]. rewrite E2, Hexc.
  unfold progress. destruct (idx mod 100 =? 0)%nat; reflexivity.
Qed.

End Iteration.

(** *** The loop and the whole run *)

Lemma for_each_cons (total : nat) (delay : Q) (content : MessageContent) (idx : nat)
    (user_id : Z) (rest : list Z) (l : Locals) (w : World T) :
  for_each transport total delay content idx (user_id :: rest) l w =
  match loop_body transport total delay content idx user_id l w with
  | (Ok l1, w1, tr1) =>
      let '(r, w2, tr2) := for_each transport total delay content (S idx) rest l1 w1 in
      (r, w2, tr1 ++ tr2)
  | (Raise e, w1, tr1) => (Raise e, w1, tr1)
  end.
Proof. reflexivity. Qed.

Lemma send_mass_message_run (recipients : list Z) (content : MessageContent)
    (rps : Z) (w : World T) :
  rps <> 0%Z ->
  send_mass_message transport recipients content rps w =
  match for_each transport (length recipients) (1 / inject_Z rps)%Q content 1
          recipients no_counts w with
  | (Ok l, w', tr) =>
      (Ok (result_of recipients l (clock w' - clock w)%Q), w',
       EvLog (log_start (length recipients) rps) :: tr ++
       [EvLog (log_finished (sent l) (failed l) (skipped l) (clock w' - clock w)%Q)])
  | (Raise e, w', tr) => (Raise e, w', EvLog (log_start (length recipients) rps) :: tr)
  end.
Proof.
  intros Hrps. apply Z.eqb_neq in Hrps.
  unfold send_mass_message, bind, now, log, ret. rewrite Hrps. cbn.
  destruct (for_each _ _ _ _ _ _ _ _) as [[[l|e] w'] tr]; reflexivity.
Qed.

Lemma send_mass_message_zero_rps (recipients : list Z) (content : MessageContent)
    (w : World T) :
  send_mass_message transport recipients content 0 w = (Raise ZeroDivisionError, w, []).
Proof. reflexivity. Qed.

(** From here on the transport answers every call with success or with an
    [Exception]: then every iteration returns, in one of the six ways of
    [Iteration], and adds one to exactly one counter. *)
Hypothesis transport_signals :
  forall (s : T) (c : Call), success_or_signal (fst (transport s c)) = true.

Lemma loop_body_iteration (total : nat) (delay : Q) (content : MessageContent)
    (idx : nat) (user_id : Z) (l : Locals) (w : World T) :
  exists l' w' tr,
    loop_body transport total delay content idx user_id l w = (Ok l', w', tr) /\
    Iteration transport total delay content idx user_id l w l' w' tr.
Proof.
  destruct (dispatch_rule user_id content) as [c|e|] eqn:D.
  - destruct (transport (bot w) c) as [[|e] b] eqn:E.
    + do 3 eexists. split; [eapply loop_body_sent|eapply It_sent]; eassumption.
    + pose proof (transport_signals (bot w) c) as He. rewrite E in He. cbn in He.
      destruct (is_retry_after e) eqn:R.
      * destruct e; try discriminate.
        destruct (transport b c) as [[|e2] b2] eqn:E2.
        -- do 3 eexists.
           split; [eapply loop_body_retry_sent|eapply It_retry_sent]; eassumption.
        -- pose proof (transport_signals b c) as He2. rewrite E2 in He2. cbn in He2.
           do 3 eexists.
           split; [eapply loop_body_retry_failed|eapply It_retry_failed]; eassumption.
      * do 3 eexists. split; [eapply loop_body_failed|eapply It_failed]; eassumption.
  - do 3 eexists. split; [eapply loop_body_invalid|eapply It_invalid]; eassumption.
  - do 3 eexists. split; [eapply loop_body_skip|eapply It_skip]; eassumption.
Qed.

Lemma loop_body_returns (total : nat) (delay : Q) (content : MessageContent)
    (idx : nat) (user_id : Z) (l : Locals) (w : World T) :
  exists l' w' tr,
    loop_body transport total delay content idx user_id l w = (Ok l', w', tr) /\
    processed l' = S (processed l).
Proof.
  destruct (loop_body_iteration total delay content idx user_id l w)
    as (l' & w' & tr & E & It).
  exists l', w', tr. split; [exact E|].
  destruct It; unfold processed; cbn; lia.
Qed.

Lemma for_each_returns (total : nat) (delay : Q) (content : MessageContent)
    (recipients : list Z) :
  forall (idx : nat) (l : Locals) (w : World T),
  exists l' w' tr,
    for_each transport total delay content idx recipients l w = (Ok l', w', tr) /\
    processed l' = processed l + length recipients.
Proof.
  induction recipients as [|user_id rest IH]; intros idx l w.
  - exists l, w, []. split; [reflexivity|]. cbn. lia.
  - rewrite for_each_cons.
    destruct (loop_body_returns total delay content idx user_id l w)
      as (l1 & w1 & tr1 & -> & H1).
    destruct (IH (S idx) l1 w1) as (l2 & w2 & tr2 & -> & H2).
    do 3 eexists. split; [reflexivity|]. cbn [length]. lia.
Qed.

End Mailing_facts.

(** ** Contents and what the dispatch rule makes of them *)

Lemma media_call_supported (user_id : Z) (content : MessageContent) :
  supported_kind (default "" (media_type content)) = true ->
  exists c, media_call user_id content = DCall c /\ chat_of c = user_id /\
            is_send_message c = false.
Proof.
  unfold supported_kind, media_call.
  repeat (case String.eqb; [intros _; eexists; repeat split|]).
  discriminate.
Qed.

Lemma media_call_unsupported (user_id : Z) (content : MessageContent) :
  supported_kind (default "" (media_type content)) = false ->
  media_call user_id content =
  DInvalid (ValueError ("Неподдерживаемый тип медиа: " +:+ default "" (media_type content))).
Proof.
  unfold supported_kind, media_call.
  repeat (case String.eqb; [discriminate|]). reflexivity.
Qed.

Lemma dispatch_rule_empty (user_id : Z) (content : MessageContent) :
  has_text content = false -> has_media content = false ->
  dispatch_rule user_id content = DSkip.
Proof. unfold dispatch_rule. intros -> ->. reflexivity. Qed.

Lemma dispatch_rule_text (user_id : Z) (content : MessageContent) :
  has_text content = true -> unsupported_media content = false ->
  exists c, dispatch_rule user_id content = DCall c /\ chat_of c = user_id.
Proof.
  unfold dispatch_rule, unsupported_media. intros Ht Hm.
  destruct (has_media content && has_kind content).
  - cbn in Hm. apply negb_false_iff in Hm.
    destruct (media_call_supported user_id content Hm) as (c & -> & Hc & _). eauto.
  - rewrite Ht. eauto.
Qed.

Lemma dispatch_rule_unsupported (user_id : Z) (content : MessageContent) :
  unsupported_media content = true ->
  dispatch_rule user_id content =
  DInvalid (ValueError ("Неподдерживаемый тип медиа: " +:+ default "" (media_type content))).
Proof.
  unfold dispatch_rule, unsupported_media. intros H.
  apply andb_prop in H as [-> H]. apply negb_true_iff in H.
  apply media_call_unsupported, H.
Qed.

(** ** Runs in which every iteration takes the same path *)

Section Uniform_runs.

Context {T : Type}.
Variable transport : T -> Call -> Outcome * T.
Variables (total : nat) (delay : Q) (content : MessageContent).

Lemma for_each_all_skipped (recipients : list Z) :
  (forall u, dispatch_rule u content = DSkip) ->
  forall (idx : nat) (l : Locals) (w : World T),
  exists l',
    for_each transport total delay content idx recipients l w =
      (Ok l', w, map (fun u => EvLog (log_empty_content u)) recipients) /\
    sent l' = sent l /\ failed l' = failed l /\
    skipped l' = skipped l + length recipients /\ errors l' = errors l.
Proof.
  intros D. induction recipients as [|u rest IH]; intros idx l w.
  - exists l. cbn. repeat split; lia.
  - rewrite for_each_cons, (loop_body_skip transport) by apply D.
    destruct (IH (S idx) (count_skipped l) w) as (l' & -> & Hs & Hf & Hk & He).
    exists l'. cbn in *. repeat split; try assumption; lia.
Qed.

Lemma for_each_all_sent (recipients : list Z) :
  (forall u, exists c, dispatch_rule u content = DCall c) ->
  (forall s c, fst (transport s c) = Sent) ->
  forall (idx : nat) (l : Locals) (w : World T),
  exists l' w' tr,
    for_each transport total delay content idx recipients l w = (Ok l', w', tr) /\
    sent l' = sent l + length recipients /\ failed l' = failed l /\
    skipped l' = skipped l /\ errors l' = errors l.
Proof.
  intros D Hsent. induction recipients as [|u rest IH]; intros idx l w.
  - exists l, w, []. cbn. repeat split; lia.
  - destruct (D u) as [c Dc].
    destruct (transport (bot w) c) as [o b] eqn:E.
    pose proof (Hsent (bot w) c) as Ho. rewrite E in Ho. cbn in Ho. subst o.
    rewrite for_each_cons, (loop_body_sent transport _ _ _ _ _ _ _ c b) by assumption.
    destruct (IH (S idx) (count_sent l)
                {| bot := b; clock := paced_clock total delay idx (clock w) |})
      as (l' & w' & tr & -> & Hs & Hf & Hk & He).
    do 3 eexists. split; [reflexivity|]. cbn in *. repeat split; try assumption; lia.
Qed.

End Uniform_runs.

Lemma dispatch_rule_sends (user_id : Z) (content : MessageContent) :
  sends content = true ->
  exists c, dispatch_rule user_id content = DCall c /\ chat_of c = user_id.
Proof.
  unfold sends, dispatch_rule. destruct (has_media content && has_kind content).
  - intros H. destruct (media_call_supported user_id content H) as (c & -> & Hc & _).
    eauto.
  - intros ->. eauto.
Qed.

Lemma calls_app (tr1 tr2 : list Event) : calls (tr1 ++ tr2) = calls tr1 ++ calls tr2.
Proof. apply omap_app. Qed.

Lemma calls_log (r : LogRecord) (tr : list Event) : calls (EvLog r :: tr) = calls tr.
Proof. reflexivity. Qed.

Lemma calls_pace (total : nat) (delay : Q) (idx : nat) : calls (pace total delay idx) = [].
Proof. unfold pace. destruct (idx <? total)%nat; reflexivity. Qed.

Lemma calls_progress (idx total : nat) (l : Locals) : calls (progress idx total l) = [].
Proof. unfold progress. destruct (idx mod 100 =? 0)%nat; reflexivity. Qed.

Lemma sleeps_app (tr1 tr2 : list Event) : sleeps (tr1 ++ tr2) = sleeps tr1 ++ sleeps tr2.
Proof. apply omap_app. Qed.

Lemma sleeps_progress (idx total : nat) (l : Locals) : sleeps (progress idx total l) = [].
Proof. unfold progress. destruct (idx mod 100 =? 0)%nat; reflexivity. Qed.

Section One_blocked.

Context {T : Type}.
Variable transport : T -> Call -> Outcome * T.
Variables (total : nat) (delay : Q) (content : MessageContent) (x : Z).

Hypothesis content_sends : sends content = true.
Hypothesis x_blocked :
  forall s c, chat_of c = x -> fst (transport s c) = Failed TelegramForbiddenError.
Hypothesis others_sent :
  forall s c, chat_of c <> x -> fst (transport s c) = Sent.

Lemma for_each_one_blocked (recipients : list Z) :
  forall (idx : nat) (l : Locals) (w : World T),
  exists l' w' tr,
    for_each transport total delay content idx recipients l w = (Ok l', w', tr) /\
    sent l' + count_occ Z.eq_dec recipients x = sent l + length recipients /\
    failed l' = failed l + count_occ Z.eq_dec recipients x /\
    skipped l' = skipped l /\
    default 0 (errors l' !! "blocked") =
      default 0 (errors l !! "blocked") + count_occ Z.eq_dec recipients x /\
    (forall k, k <> "blocked" -> errors l' !! k = errors l !! k) /\
    recipients_called tr = recipients.
Proof.
  induction recipients as [|u rest IH]; intros idx l w.
  - exists l, w, []. cbn. repeat split; lia.
  - destruct (dispatch_rule_sends u content content_sends) as (c & D & Hc).
    rewrite for_each_cons. cbn [count_occ length].
    destruct (transport (bot w) c) as [o b] eqn:E.
    destruct (Z.eq_dec u x) as [Hx|Hx].
    + pose proof (x_blocked (bot w) c) as Ho. rewrite E in Ho. cbn in Ho.
      rewrite Ho in E by congruence.
      rewrite (loop_body_failed transport _ _ _ _ _ _ _ c _ b D E) by reflexivity.
      cbn [failure_key failure_log].
      destruct (IH (S idx) (count_failed "blocked" l) {| bot := b; clock := clock w |})
        as (l' & w' & tr & -> & Hs & Hf & Hk & Hb & Ho' & Hcalls).
      do 3 eexists. split; [reflexivity|].
      cbn [sent failed skipped errors count_failed] in *.
      unfold _update_error_summary in *.
      rewrite lookup_insert_eq in Hb. simpl in Hb.
      repeat split; try lia.
      * intros k Hk'. rewrite Ho' by exact Hk'. apply lookup_insert_ne. congruence.
      * unfold recipients_called in *. rewrite !calls_app, calls_progress.
        cbn. rewrite Hc, Hx. f_equal. exact Hcalls.
    + pose proof (others_sent (bot w) c) as Ho. rewrite E in Ho. cbn in Ho.
      rewrite Ho in E by congruence.
      rewrite (loop_body_sent transport _ _ _ _ _ _ _ c b D E).
      destruct (IH (S idx) (count_sent l)
                  {| bot := b; clock := paced_clock total delay idx (clock w) |})
        as (l' & w' & tr & -> & Hs & Hf & Hk & Hb & Ho' & Hcalls).
      do 3 eexists. split; [reflexivity|].
      cbn [sent failed skipped errors count_sent] in *.
      repeat split; try lia; try assumption.
      unfold recipients_called in *.
      change (EvCall (clock w) c Sent :: pace total delay idx ++
              progress idx total (count_sent l))
        with ([EvCall (clock w) c Sent] ++ pace total delay idx ++
              progress idx total (count_sent l)).
      rewrite !calls_app, calls_pace, calls_progress.
      cbn. rewrite Hc. f_equal. exact Hcalls.
Qed.

End One_blocked.

Section Unsupported_kind.

Context {T : Type}.
Variable transport : T -> Call -> Outcome * T.
Variables (total : nat) (delay : Q) (content : MessageContent).

Hypothesis content_unsupported : unsupported_media content = true.

Lemma for_each_unsupported (recipients : list Z) :
  forall (idx : nat) (l : Locals) (w : World T),
  exists l' tr,
    for_each transport total delay content idx recipients l w = (Ok l', w, tr) /\
    sent l' = sent l /\
    failed l' = failed l + length recipients /\
    skipped l' = skipped l /\
    default 0 (errors l' !! "unexpected") =
      default 0 (errors l !! "unexpected") + length recipients /\
    (forall k, k <> "unexpected" -> errors l' !! k = errors l !! k) /\
    calls tr = [] /\ sleeps tr = [] /\
    (forall u, u ∈ recipients ->
       EvLog (log_unexpected u (ValueError (unsupported_message content))) ∈ tr).
Proof.
  induction recipients as [|u rest IH]; intros idx l w.
  - exists l, []. cbn. repeat split; try lia. intros u Hu. inversion Hu.
  - rewrite for_each_cons.
    rewrite (loop_body_invalid transport _ _ _ _ _ _ _ _
               (dispatch_rule_unsupported u content content_unsupported)).
    destruct (IH (S idx) (count_failed "unexpected" l) w)
      as (l' & tr & -> & Hs & Hf & Hk & Hu & Ho & Hcalls & Hsleeps & Hlog).
    do 2 eexists. split; [reflexivity|].
    cbn [sent failed skipped errors count_failed length] in *.
    unfold _update_error_summary in *.
    rewrite lookup_insert_eq in Hu. simpl in Hu.
    repeat split; try lia.
    + intros k Hk'. rewrite Ho by exact Hk'. apply lookup_insert_ne. congruence.
    + rewrite calls_app, calls_log, calls_progress. exact Hcalls.
    + rewrite sleeps_app. change (sleeps (EvLog ?r :: ?t)) with (sleeps t).
      rewrite sleeps_progress. exact Hsleeps.
    + intros v Hv. apply elem_of_app. apply elem_of_cons in Hv as [->|Hv].
      * left. apply elem_of_cons. left. reflexivity.
      * right. apply Hlog, Hv.
Qed.

End Unsupported_kind.

Section Channel.

Context {T : Type}.
Variable transport : T -> Call -> Outcome * T.

Lemma Iteration_calls (total : nat) (delay : Q) (content : MessageContent)
    (idx : nat) (user_id : Z) (l : Locals) (w : World T)
    (l' : Locals) (w' : World T) (tr : list Event) :
  Iteration transport total delay content idx user_id l w l' w' tr ->
  calls tr = iteration_calls transport user_id content w.
Proof.
  unfold iteration_calls.
  destruct 1 as [D|e D|c b D E|c e b D E He Hr|c s b1 b2 D E1 E2|c s e2 b1 b2 D E1 E2 He];
    rewrite D; try rewrite E; try rewrite E1; try rewrite E2;
    rewrite ?calls_log; rewrite ?calls_app, ?calls_progress; try reflexivity.
  - change (calls (EvCall ?t ?c ?o :: ?tr)) with ((t, c, o) :: calls tr).
    rewrite calls_app, calls_pace, calls_progress. reflexivity.
  - destruct e; try discriminate; reflexivity.
Qed.

Lemma send_to_channel_run (channel_id : Z) (content : MessageContent) (w : World T) :
  send_to_channel transport channel_id content w =
  match dispatch_rule channel_id content with
  | DCall c =>
      match transport (bot w) c with
      | (Sent, b) =>
          (Ok true, {| bot := b; clock := clock w |},
           [EvCall (clock w) c Sent; EvLog (log_channel_sent channel_id)])
      | (Failed e, b) =>
          if is_Exception e then
            (Ok false, {| bot := b; clock := clock w |},
             [EvCall (clock w) c (Failed e); EvLog (log_channel_error channel_id e)])
          else
            (Raise e, {| bot := b; clock := clock w |}, [EvCall (clock w) c (Failed e)])
      end
  | DInvalid e => (Ok false, w, [EvLog (log_channel_error channel_id e)])
  | DSkip => (Ok false, w, [EvLog log_channel_empty])
  end.
Proof.
  unfold send_to_channel, try_except, dispatch_rule.
  fold (has_media content) (has_kind content) (has_text content).
  destruct (has_media content && has_kind content) eqn:G.
  - unfold bind at 1. rewrite send_media_run by exact G.
    destruct (media_call_cases channel_id content) as [[c ->]|[m ->]]; [|reflexivity].
    unfold await_bot. destruct (transport (bot w) c) as [[|e] b]; [reflexivity|].
    destruct (is_Exception e); reflexivity.
  - destruct (has_text content); [|reflexivity].
    unfold bind at 1. unfold await_bot.
    destruct (transport (bot w) _) as [[|e] b]; [reflexivity|].
    destruct (is_Exception e); reflexivity.
Qed.

End Channel.

(** ** A content whose media has no kind *)

Section No_kind.

Context {T : Type}.
Variable transport : T -> Call -> Outcome * T.
Variable content : MessageContent.

Hypothesis kind_absent : has_kind content = false.

Lemma first_attempt_no_kind (total : nat) (delay : Q) (idx : nat) (user_id : Z)
    (l : Locals) (w : World T) :
  first_attempt transport total delay content idx user_id l w =
  first_attempt transport total delay (without_media content) idx user_id l w.
Proof.
  unfold first_attempt. fold (has_kind content). rewrite kind_absent, andb_false_r.
  reflexivity.
Qed.

Lemma second_attempt_no_kind (user_id : Z) (l : Locals) (w : World T) :
  second_attempt transport content user_id l w =
  second_attempt transport (without_media content) user_id l w.
Proof.
  unfold second_attempt. fold (has_kind content). rewrite kind_absent, andb_false_r.
  reflexivity.
Qed.

Lemma on_exception_no_kind (user_id : Z) (l : Locals) (e : Exn) (w : World T) :
  on_exception transport content user_id l e w =
  on_exception transport (without_media content) user_id l e w.
Proof.
  destruct e; try reflexivity.
  unfold on_exception, bind, try_except.
  destruct (log _ w) as [[[[]|e] w1] tr1]; [|reflexivity].
  destruct (sleep _ w1) as [[[[]|e] w2] tr2]; [|reflexivity].
  rewrite second_attempt_no_kind. reflexivity.
Qed.

Lemma loop_body_no_kind (total : nat) (delay : Q) (idx : nat) (user_id : Z)
    (l : Locals) (w : World T) :
  loop_body transport total delay content idx user_id l w =
  loop_body transport total delay (without_media content) idx user_id l w.
Proof.
  unfold loop_body, bind, try_except.
  rewrite first_attempt_no_kind.
  destruct (first_attempt _ _ _ _ _ _ _ _) as [[[r|e] w1] tr1]; [reflexivity|].
  rewrite on_exception_no_kind. reflexivity.
Qed.

Lemma for_each_no_kind (total : nat) (delay : Q) (recipients : list Z) :
  forall (idx : nat) (l : Locals) (w : World T),
  for_each transport total delay content idx recipients l w =
  for_each transport total delay (without_media content) idx recipients l w.
Proof.
  induction recipients as [|u rest IH]; intros idx l w; [reflexivity|].
  rewrite !for_each_cons, loop_body_no_kind.
  destruct (loop_body _ _ _ _ _ _ _ _) as [[[l1|e] w1] tr1]; [|reflexivity].
  rewrite IH. reflexivity.
Qed.

Lemma send_mass_message_no_kind (recipients : list Z) (rps : Z) (w : World T) :
  send_mass_message transport recipients content rps w =
  send_mass_message transport recipients (without_media content) rps w.
Proof.
  destruct (Z.eq_dec rps 0) as [->|Hrps]; [reflexivity|].
  rewrite !send_mass_message_run by exact Hrps.
  rewrite for_each_no_kind. reflexivity.
Qed.

End No_kind.

(** ** Which calls a run can make, whatever the transport answers *)

Section Calls_of_a_run.

Context {T : Type}.
Variable transport : T -> Call -> Outcome * T.
Variables (total : nat) (delay : Q) (content : MessageContent).
Variable P : Z -> Call -> Prop.

Hypothesis dispatch_P : forall u c, dispatch_rule u content = DCall c -> P u c.

Let made_for (u : Z) (x : Q * Call * Outcome) : Prop := P u (snd (fst x)).

Lemma loop_body_calls (idx : nat) (user_id : Z) (l : Locals) (w : World T) :
  Forall (made_for user_id)
    (calls (snd (loop_body transport total delay content idx user_id l w))).
Proof.
  unfold loop_body, bind, try_except. rewrite first_attempt_run.
  pose proof (dispatch_P user_id) as HP.
  destruct (dispatch_rule user_id content) as [c|e|] eqn:D.
  - specialize (HP c eq_refl).
    destruct (transport (bot w) c) as [[|e] b] eqn:E.
    + unfold pace, log, ret.
      destruct (idx mod 100 =? 0)%nat, (idx <? total)%nat; cbn;
        repeat constructor; exact HP.
    + unfold on_exception, bind, try_except, log, sleep, ret, raise.
      destruct e; cbn [is_Exception];
        try (destruct (idx mod 100 =? 0)%nat; cbn; repeat constructor; exact HP).
      rewrite second_attempt_run, D. cbn [bot clock].
      destruct (transport b c) as [[|e2] b2].
      * destruct (idx mod 100 =? 0)%nat; cbn; repeat constructor; exact HP.
      * destruct (is_Exception e2);
          [destruct (idx mod 100 =? 0)%nat|]; cbn; repeat constructor; exact HP.
  - unfold on_exception, bind, log, ret, raise.
    destruct e; cbn [is_Exception];
      [unfold try_except, sleep; rewrite second_attempt_run, D; cbn [is_Exception]|..];
      destruct (idx mod 100 =? 0)%nat; cbn; repeat constructor.
  - cbn. constructor.
Qed.

Lemma for_each_calls (recipients : list Z) :
  forall (idx : nat) (l : Locals) (w : World T),
  Forall (fun x => exists u, u ∈ recipients /\ made_for u x)
    (calls (snd (for_each transport total delay content idx recipients l w))).
Proof.
  induction recipients as [|u rest IH]; intros idx l w; [constructor|].
  rewrite for_each_cons.
  pose proof (loop_body_calls idx u l w) as Hbody.
  destruct (loop_body _ _ _ _ _ _ _ _) as [[[l1|e] w1] tr1]; cbn [snd] in Hbody.
  - specialize (IH (S idx) l1 w1).
    destruct (for_each _ _ _ _ _ _ _ _) as [[r w2] tr2]. cbn [snd] in *.
    rewrite calls_app. apply Forall_app. split.
    + eapply Forall_impl; [exact Hbody|]. intros x Hx. exists u. split; [left|exact Hx].
    + eapply Forall_impl; [exact IH|]. intros x (v & Hv & Hx). exists v.
      split; [right; exact Hv|exact Hx].
  - cbn [snd]. eapply Forall_impl; [exact Hbody|]. intros x Hx. exists u.
    split; [left|exact Hx].
Qed.

End Calls_of_a_run.

Lemma dispatch_rule_no_kind (user_id : Z) (content : MessageContent) :
  has_kind content = false ->
  dispatch_rule user_id content =
  if has_text content
  then DCall (send_message user_id (default "" (text content)) (reply_markup content))
  else DSkip.
Proof. unfold dispatch_rule. intros ->. rewrite andb_false_r. reflexivity. Qed.

Lemma send_mass_message_calls {T : Type} (transport : T -> Call -> Outcome * T)
    (recipients : list Z) (content : MessageContent) (rps : Z) (w : World T) :
  rps <> 0%Z ->
  calls (snd (send_mass_message transport recipients content rps w)) =
  calls (snd (for_each transport (length recipients) (1 / inject_Z rps)%Q content 1
                recipients no_counts w)).
Proof.
  intros Hrps. rewrite send_mass_message_run by exact Hrps.
  destruct (for_each _ _ _ _ _ _ _ _) as [[[l|e] w'] tr]; cbn [snd].
  - rewrite calls_log, calls_app. cbn. apply app_nil_r.
  - apply calls_log.
Qed.

(** ** Pacing *)

Lemma spaced_lookup (gap : Q) (ds : list Attempt) :
  spaced gap ds ->
  forall (i : nat) (a1 a2 : Attempt),
    ds !! i = Some a1 -> ds !! S i = Some a2 ->
    is_retry a1 = false -> outcome a1 = Sent ->
    (at_time a1 + gap <= at_time a2)%Q.
Proof.
  induction ds as [|a ds IH]; intros Hsp i a1 a2 H1 H2; [discriminate|].
  destruct ds as [|b ds]; [destruct i; discriminate|].
  destruct Hsp as [Hhead Htail]. destruct i as [|i].
  - cbn in H1, H2. injection H1 as <-. injection H2 as <-. exact Hhead.
  - apply (IH Htail i a1 a2); assumption.
Qed.

Lemma sleep_time_nonneg (d : Q) : (0 <= sleep_time d)%Q.
Proof.
  unfold sleep_time. destruct (Qle_bool d 0) eqn:E.
  - apply Qle_refl.
  - apply Qlt_le_weak, Qnot_le_lt. intros H. apply Qle_bool_iff in H. congruence.
Qed.

Lemma sleep_time_pos (d : Q) : (0 < d)%Q -> sleep_time d = d.
Proof.
  intros H. unfold sleep_time. destruct (Qle_bool d 0) eqn:E; [|reflexivity].
  apply Qle_bool_iff in E. exfalso. exact (Qlt_not_le _ _ H E).
Qed.

Lemma clock_after_sleep (t d : Q) : (t <= t + sleep_time d)%Q.
Proof.
  rewrite <- (Qplus_0_r t) at 1. apply Qplus_le_compat; [apply Qle_refl|].
  apply sleep_time_nonneg.
Qed.

Lemma delay_pos (rps : Z) : (0 < rps)%Z -> (0 < 1 / inject_Z rps)%Q.
Proof.
  intros H. apply Qlt_shift_div_l.
  - change 0%Q with (inject_Z 0). rewrite <- Zlt_Qlt. exact H.
  - rewrite Qmult_0_l. reflexivity.
Qed.

Lemma attempts_pace (total : nat) (delay : Q) (idx : nat) (b : bool) (tr : list Event) :
  attempts b (pace total delay idx ++ tr) = attempts b tr.
Proof. unfold pace. destruct (idx <? total)%nat; reflexivity. Qed.

Lemma attempts_progress (idx total : nat) (l : Locals) (b : bool) (tr : list Event) :
  attempts b (progress idx total l ++ tr) = attempts b tr.
Proof. unfold progress. destruct (idx mod 100 =? 0)%nat; reflexivity. Qed.

Section Paced_runs.

Context {T : Type}.
Variable transport : T -> Call -> Outcome * T.
Variables (total : nat) (delay : Q) (content : MessageContent).

Hypothesis transport_signals :
  forall (s : T) (c : Call), success_or_signal (fst (transport s c)) = true.
Hypothesis delay_positive : (0 < delay)%Q.

Lemma paced_clock_after (idx : nat) (t : Q) : (t <= paced_clock total delay idx t)%Q.
Proof.
  unfold paced_clock. destruct (idx <? total)%nat.
  - apply clock_after_sleep.
  - apply Qle_refl.
Qed.

Lemma for_each_paced (recipients : list Z) :
  forall (idx : nat) (l : Locals) (w : World T),
  idx + length recipients = S total ->
  exists l' w' tr,
    for_each transport total delay content idx recipients l w = (Ok l', w', tr) /\
    spaced delay (attempts false tr) /\
    Forall (fun a => (clock w <= at_time a)%Q) (attempts false tr) /\
    (forall a, head (attempts false tr) = Some a -> at_time a = clock w).
Proof.
  induction recipients as [|u rest IH]; intros idx l w Hidx.
  - exists l, w, []. cbn. repeat split; [constructor|discriminate].
  - destruct (loop_body_iteration transport transport_signals total delay content
                idx u l w) as (l1 & w1 & tr1 & E1 & It).
    destruct (IH (S idx) l1 w1) as (l2 & w2 & tr2 & E2 & Hsp & Hge & Hhd);
      [cbn in Hidx; lia|].
    assert (Hrest : attempts false tr2 <> [] -> (idx <? total)%nat = true).
    { intros Hne. apply Nat.ltb_lt. destruct rest as [|v rest'].
      - cbn in E2. injection E2 as _ _ <-. contradiction.
      - cbn in Hidx. lia. }
    rewrite for_each_cons, E1, E2. exists l2, w2, (tr1 ++ tr2).
    split; [reflexivity|].
    destruct It as [D|e D|c b D E|c e b D E He Hr|c s b1 b2 D E Er|c s e2 b1 b2 D E Er He];
      cbn [clock] in *.
    + (* skipped *)
      cbn. auto.
    + (* ValueError *)
      cbn [app attempts]. rewrite attempts_progress. auto.
    + (* delivered at once *)
      cbn [app attempts]. rewrite <- app_assoc, attempts_pace, attempts_progress.
      split; [|split].
      * destruct (attempts false tr2) as [|a2 ds] eqn:Ha; [exact I|].
        split; [|exact Hsp]. intros _ _. cbn [at_time].
        apply Forall_inv in Hge. unfold paced_clock in Hge.
        rewrite Hrest, (sleep_time_pos delay delay_positive) in Hge by discriminate.
        exact Hge.
      * constructor; [apply Qle_refl|].
        eapply Forall_impl; [exact Hge|]. intros a Ha. cbn beta in Ha.
        eapply Qle_trans; [apply paced_clock_after|exact Ha].
      * intros a Ha. cbn in Ha. injection Ha as <-. reflexivity.
    + (* failed, no retry *)
      assert (Hatt :
        attempts false
          (([EvCall (clock w) c (Failed e); EvLog (failure_log u e)] ++
            progress idx total (count_failed (failure_key e) l)) ++ tr2) =
        {| at_time := clock w; call := c; outcome := Failed e; is_retry := false |} ::
        attempts false tr2).
      { destruct e; try discriminate; cbn [app attempts failure_log];
          rewrite attempts_progress; reflexivity. }
      rewrite Hatt.
      split; [|split].
      * destruct (attempts false tr2) as [|a2 ds] eqn:Ha; [exact I|].
        split; [|exact Hsp]. intros _ Ho. discriminate Ho.
      * constructor; [apply Qle_refl|exact Hge].
      * intros a Ha. cbn in Ha. injection Ha as <-. reflexivity.
    + (* retry delivered *)
      cbn [app attempts]. rewrite attempts_progress.
      split; [|split].
      * split; [intros _ Ho; discriminate Ho|].
        destruct (attempts false tr2) as [|a2 ds] eqn:Ha; [exact I|].
        split; [|exact Hsp]. intros Hre. discriminate Hre.
      * constructor; [apply Qle_refl|]. constructor; [apply clock_after_sleep|].
        eapply Forall_impl; [exact Hge|]. intros a Ha. cbn beta in Ha.
        eapply Qle_trans; [apply clock_after_sleep|exact Ha].
      * intros a Ha. cbn in Ha. injection Ha as <-. reflexivity.
    + (* retry failed *)
      cbn [app attempts]. rewrite attempts_progress.
      split; [|split].
      * split; [intros _ Ho; discriminate Ho|].
        destruct (attempts false tr2) as [|a2 ds] eqn:Ha; [exact I|].
        split; [|exact Hsp]. intros Hre. discriminate Hre.
      * constructor; [apply Qle_refl|]. constructor; [apply clock_after_sleep|].
        eapply Forall_impl; [exact Hge|]. intros a Ha. cbn beta in Ha.
        eapply Qle_trans; [apply clock_after_sleep|exact Ha].
      * intros a Ha. cbn in Ha. injection Ha as <-. reflexivity.
Qed.

End Paced_runs.

Lemma attempts_finished (r : LogRecord) (tr : list Event) :
  forall b, attempts b (tr ++ [EvLog r]) = attempts b tr.
Proof.
  induction tr as [|ev tr IH]; intros b.
  - destruct r; reflexivity.
  - destruct ev as [t c o|d|r']; cbn [app attempts]; rewrite ?IH; reflexivity.
Qed.

(** * Further facts about the model *)

(** ** Every way an iteration can end, whatever the transport answers *)

Section Any_transport.

Context {T : Type}.
Variable transport : T -> Call -> Outcome * T.
Variables (total : nat) (delay : Q) (content : MessageContent).

Lemma loop_body_abort_first (idx : nat) (user_id : Z) (l : Locals) (w : World T)
    (c : Call) (e : Exn) (b : T) :
  dispatch_rule user_id content = DCall c ->
  transport (bot w) c = (Failed e, b) ->
  is_Exception e = false ->
  loop_body transport total delay content idx user_id l w =
  (Raise e, {| bot := b; clock := clock w |}, [EvCall (clock w) c (Failed e)]).
Proof.
  intros D E He. unfold loop_body, bind, try_except.
  rewrite first_attempt_run, D, E. destruct e; try discriminate. reflexivity.
Qed.

Lemma loop_body_abort_retry (idx : nat) (user_id : Z) (l : Locals) (w : World T)
    (c : Call) (s : Q) (e2 : Exn) (b1 b2 : T) :
  dispatch_rule user_id content = DCall c ->
  transport (bot w) c = (Failed (TelegramRetryAfter s), b1) ->
  transport b1 c = (Failed e2, b2) ->
  is_Exception e2 = false ->
  loop_body transport total delay content idx user_id l w =
  (Raise e2, {| bot := b2; clock := (clock w + sleep_time s)%Q |},
   [EvCall (clock w) c (Failed (TelegramRetryAfter s));
    EvLog (log_retry_after user_id s);
    EvSleep s;
    EvCall (clock w + sleep_time s)%Q c (Failed e2)]).
Proof.
  intros D E1 E2 He. unfold loop_body. unfold bind at 1. unfold try_except at 1.
  rewrite first_attempt_run, D, E1.
  unfold on_exception. unfold bind at 1. unfold bind at 1. unfold bind at 1.
  unfold log at 1. unfold bind at 1. unfold sleep at 1. unfold try_except.
  rewrite second_attempt_run, D. cbn [bot clock]. rewrite E2, He. reflexivity.
Qed.

Lemma loop_body_cases (idx : nat) (user_id : Z) (l : Locals) (w : World T) :
  match loop_body transport total delay content idx user_id l w with
  | (Ok l', w', tr) => Iteration transport total delay content idx user_id l w l' w' tr
  | (Raise e, w', tr) => Abort transport content user_id w e w' tr
  end.
Proof.
  destruct (dispatch_rule user_id content) as [c|e|] eqn:D.
  - destruct (transport (bot w) c) as [[|e] b] eqn:E.
    + rewrite (loop_body_sent transport _ _ _ _ _ _ _ c b D E).
      apply It_sent; assumption.
    + destruct (is_retry_after e) eqn:R.
      * destruct e; try discriminate.
        destruct (transport b c) as [[|e2] b2] eqn:E2.
        -- rewrite (loop_body_retry_sent transport _ _ _ _ _ _ _ c _ b b2 D E E2).
           eapply It_retry_sent; eassumption.
        -- destruct (is_Exception e2) eqn:He2.
           ++ rewrite (loop_body_retry_failed transport _ _ _ _ _ _ _ c _ e2 b b2 D E E2 He2).
              eapply It_retry_failed; eassumption.
           ++ rewrite (loop_body_abort_retry _ _ _ _ c _ e2 b b2 D E E2 He2).
              eapply Ab_retry; eassumption.
      * destruct (is_Exception e) eqn:He.
        -- rewrite (loop_body_failed transport _ _ _ _ _ _ _ c e b D E He R).
           apply It_failed; assumption.
        -- rewrite (loop_body_abort_first _ _ _ _ c e b D E He).
           apply Ab_first; assumption.
  - rewrite (loop_body_invalid transport _ _ _ _ _ _ _ e D). apply It_invalid, D.
  - rewrite (loop_body_skip transport _ _ _ _ _ _ _ D). apply It_skip, D.
Qed.

End Any_transport.

(** ** The loop, one iteration at a time, whatever the transport answers *)

Section Any_run.

Context {T : Type}.
Variable transport : T -> Call -> Outcome * T.
Variables (total : nat) (delay : Q) (content : MessageContent).

Lemma for_each_Ok_inv (idx : nat) (u : Z) (rest : list Z) (l : Locals) (w : World T)
    (l' : Locals) (w' : World T) (tr : list Event) :
  for_each transport total delay content idx (u :: rest) l w = (Ok l', w', tr) ->
  exists l1 w1 tr1 tr2,
    Iteration transport total delay content idx u l w l1 w1 tr1 /\
    for_each transport total delay content (S idx) rest l1 w1 = (Ok l', w', tr2) /\
    tr = tr1 ++ tr2.
Proof.
  rewrite for_each_cons. pose proof (loop_body_cases transport total delay content idx u l w) as H.
  destruct (loop_body _ _ _ _ _ _ _ _) as [[[l1|e] w1] tr1]; [|discriminate].
  destruct (for_each _ _ _ _ _ _ _ _) as [[r w2] tr2] eqn:E2.
  intros [= -> -> <-]. exists l1, w1, tr1, tr2. auto.
Qed.

Lemma for_each_Raise_inv (idx : nat) (u : Z) (rest : list Z) (l : Locals) (w : World T)
    (e : Exn) (w' : World T) (tr : list Event) :
  for_each transport total delay content idx (u :: rest) l w = (Raise e, w', tr) ->
  Abort transport content u w e w' tr \/
  exists l1 w1 tr1 tr2,
    Iteration transport total delay content idx u l w l1 w1 tr1 /\
    for_each transport total delay content (S idx) rest l1 w1 = (Raise e, w', tr2) /\
    tr = tr1 ++ tr2.
Proof.
  rewrite for_each_cons. pose proof (loop_body_cases transport total delay content idx u l w) as H.
  destruct (loop_body _ _ _ _ _ _ _ _) as [[[l1|e1] w1] tr1].
  - destruct (for_each _ _ _ _ _ _ _ _) as [[r w2] tr2] eqn:E2.
    intros [= -> -> <-]. right. exists l1, w1, tr1, tr2. auto.
  - intros [= -> -> ->]. left. exact H.
Qed.

End Any_run.

(** ** The error summary *)

Lemma total_errors_update (summary : gmap string nat) (error_type : string) :
  total_errors (_update_error_summary summary error_type) = S (total_errors summary).
Proof.
  unfold total_errors, _update_error_summary.
  assert (Hcomm : forall (m : gmap string nat) (j1 j2 : string) (z1 z2 y : nat),
            j1 <> j2 -> m !! j1 = Some z1 -> m !! j2 = Some z2 ->
            z1 + (z2 + y) = z2 + (z1 + y)) by (intros; lia).
  destruct (summary !! error_type) as [n|] eqn:E.
  - rewrite <- insert_delete_eq.
    rewrite map_fold_insert_L; [|apply Hcomm|apply lookup_delete_eq].
    rewrite (map_fold_delete_L _ _ error_type n summary); [|apply Hcomm|exact E].
    cbn. lia.
  - rewrite map_fold_insert_L; [|apply Hcomm|exact E]. cbn. lia.
Qed.

Lemma total_errors_empty : total_errors ∅ = 0.
Proof. apply map_fold_empty. Qed.

Lemma calls_call (t : Q) (c : Call) (o : Outcome) (tr : list Event) :
  calls (EvCall t c o :: tr) = (t, c, o) :: calls tr.
Proof. reflexivity. Qed.

Lemma calls_sleep (d : Q) (tr : list Event) : calls (EvSleep d :: tr) = calls tr.
Proof. reflexivity. Qed.

Lemma delivered_app (tr1 tr2 : list Event) :
  delivered (tr1 ++ tr2) = delivered tr1 + delivered tr2.
Proof. unfold delivered. rewrite calls_app, List.filter_app, length_app. reflexivity. Qed.

Lemma delivered_progress (idx total : nat) (l : Locals) : delivered (progress idx total l) = 0.
Proof. unfold delivered. rewrite calls_progress. reflexivity. Qed.

Lemma delivered_pace (total : nat) (delay : Q) (idx : nat) : delivered (pace total delay idx) = 0.
Proof. unfold delivered. rewrite calls_pace. reflexivity. Qed.

Section Counting.

Context {T : Type}.
Variable transport : T -> Call -> Outcome * T.
Variables (total : nat) (delay : Q) (content : MessageContent).

Lemma Iteration_counts (idx : nat) (u : Z) (l : Locals) (w : World T)
    (l' : Locals) (w' : World T) (tr : list Event) :
  Iteration transport total delay content idx u l w l' w' tr ->
  total_errors (errors l') + failed l = total_errors (errors l) + failed l' /\
  sent l' = sent l + delivered tr /\
  length (calls tr) <= 2.
Proof.
  destruct 1; cbn [errors failed sent count_skipped count_failed count_sent];
    rewrite ?total_errors_update; unfold delivered;
    repeat (rewrite ?calls_call, ?calls_log, ?calls_sleep, ?calls_app,
              ?calls_progress, ?calls_pace);
    cbn; repeat split; lia.
Qed.

Lemma for_each_counts (recipients : list Z) :
  forall (idx : nat) (l : Locals) (w : World T) (l' : Locals) (w' : World T) (tr : list Event),
  for_each transport total delay content idx recipients l w = (Ok l', w', tr) ->
  total_errors (errors l') + failed l = total_errors (errors l) + failed l' /\
  sent l' = sent l + delivered tr.
Proof.
  induction recipients as [|u rest IH]; intros idx l w l' w' tr E.
  - cbn in E. injection E as <- <- <-. split; [lia|cbn; lia].
  - apply for_each_Ok_inv in E as (l1 & w1 & tr1 & tr2 & It & E2 & ->).
    apply Iteration_counts in It as (H1 & H2 & _).
    apply IH in E2 as (H3 & H4). rewrite delivered_app. lia.
Qed.

End Counting.

(** ** How a whole run ends *)

Section Run_ends.

Context {T : Type}.
Variable transport : T -> Call -> Outcome * T.

Lemma send_mass_message_Ok_inv (recipients : list Z) (content : MessageContent)
    (rps : Z) (w : World T) (res : MailingResult) (w' : World T) (tr : list Event) :
  send_mass_message transport recipients content rps w = (Ok res, w', tr) ->
  rps <> 0%Z /\
  exists l tr0,
    for_each transport (length recipients) (1 / inject_Z rps)%Q content 1 recipients
      no_counts w = (Ok l, w', tr0) /\
    res = result_of recipients l (clock w' - clock w)%Q /\
    tr = EvLog (log_start (length recipients) rps) :: tr0 ++
         [EvLog (log_finished (sent l) (failed l) (skipped l) (clock w' - clock w)%Q)].
Proof.
  destruct (Z.eq_dec rps 0) as [->|Hrps]; [discriminate|].
  rewrite send_mass_message_run by exact Hrps.
  destruct (for_each _ _ _ _ _ _ _ _) as [[[l|e] w1] tr0]; [|discriminate].
  intros [= <- <- <-]. split; [exact Hrps|]. exists l, tr0. auto.
Qed.

Lemma send_mass_message_Raise_inv (recipients : list Z) (content : MessageContent)
    (rps : Z) (w : World T) (e : Exn) (w' : World T) (tr : list Event) :
  send_mass_message transport recipients content rps w = (Raise e, w', tr) ->
  (rps = 0%Z /\ e = ZeroDivisionError /\ w' = w /\ tr = []) \/
  (rps <> 0%Z /\
   exists tr0,
     for_each transport (length recipients) (1 / inject_Z rps)%Q content 1 recipients
       no_counts w = (Raise e, w', tr0) /\
     tr = EvLog (log_start (length recipients) rps) :: tr0).
Proof.
  destruct (Z.eq_dec rps 0) as [->|Hrps].
  - rewrite send_mass_message_zero_rps. intros [= <- <- <-]. left. auto.
  - rewrite send_mass_message_run by exact Hrps.
    destruct (for_each _ _ _ _ _ _ _ _) as [[[l|e0] w1] tr0]; [discriminate|].
    intros [= <- <- <-]. right. split; [exact Hrps|]. exists tr0. auto.
Qed.

Variables (total : nat) (delay : Q) (content : MessageContent).

Lemma Abort_ends (u : Z) (w : World T) (e : Exn) (w' : World T) (tr : list Event) :
  Abort transport content u w e w' tr ->
  is_Exception e = false /\
  (exists t c, last tr = Some (EvCall t c (Failed e)) /\ chat_of c = u) /\
  length (calls tr) <= 2.
Proof.
  assert (Hchat : forall c, dispatch_rule u content = DCall c -> chat_of c = u).
  { intros c D. unfold dispatch_rule in D.
    destruct (has_media content && has_kind content).
    - unfold media_call in D.
      repeat (destruct (String.eqb _ _); [injection D as <-; reflexivity|]).
      discriminate.
    - destruct (has_text content); [injection D as <-; reflexivity|discriminate]. }
  destruct 1 as [c e b D E He|c s e2 b1 b2 D E1 E2 He].
  - split; [exact He|]. split; [|cbn; lia]. do 2 eexists. split; [reflexivity|auto].
  - split; [exact He|]. split; [|cbn; lia]. do 2 eexists. split; [reflexivity|auto].
Qed.

Lemma for_each_raises (recipients : list Z) :
  forall (idx : nat) (l : Locals) (w : World T) (e : Exn) (w' : World T) (tr : list Event),
  for_each transport total delay content idx recipients l w = (Raise e, w', tr) ->
  is_Exception e = false /\
  exists t c, last tr = Some (EvCall t c (Failed e)) /\ chat_of c ∈ recipients.
Proof.
  induction recipients as [|u rest IH]; intros idx l w e w' tr E; [discriminate|].
  apply for_each_Raise_inv in E as [Ab|(l1 & w1 & tr1 & tr2 & It & E2 & ->)].
  - apply Abort_ends in Ab as (He & (t & c & Hlast & Hc) & _).
    split; [exact He|]. exists t, c. split; [exact Hlast|]. rewrite Hc. left.
  - apply IH in E2 as (He & t & c & Hlast & Hc). split; [exact He|].
    exists t, c. split; [|right; exact Hc].
    rewrite last_app, Hlast. reflexivity.
Qed.

Lemma for_each_calls_bound (recipients : list Z) :
  forall (idx : nat) (l : Locals) (w : World T),
  length (calls (snd (for_each transport total delay content idx recipients l w))) <=
  2 * length recipients.
Proof.
  induction recipients as [|u rest IH]; intros idx l w; [cbn; lia|].
  destruct (for_each transport total delay content idx (u :: rest) l w)
    as [[[l'|e] w'] tr] eqn:E; cbn [snd].
  - apply for_each_Ok_inv in E as (l1 & w1 & tr1 & tr2 & It & E2 & ->).
    apply Iteration_counts in It as (_ & _ & H1).
    specialize (IH (S idx) l1 w1). rewrite E2 in IH. cbn [snd] in IH.
    rewrite calls_app, length_app. cbn [length]. lia.
  - apply for_each_Raise_inv in E as [Ab|(l1 & w1 & tr1 & tr2 & It & E2 & ->)].
    + apply Abort_ends in Ab as (_ & _ & H1). cbn [length]. lia.
    + apply Iteration_counts in It as (_ & _ & H1).
      specialize (IH (S idx) l1 w1). rewrite E2 in IH. cbn [snd] in IH.
      rewrite calls_app, length_app. cbn [length]. lia.
Qed.

End Run_ends.

(** ** Order, pauses and progress records *)

Lemma dispatch_rule_chat (user_id : Z) (content : MessageContent) (c : Call) :
  dispatch_rule user_id content = DCall c -> chat_of c = user_id.
Proof.
  unfold dispatch_rule. destruct (has_media content && has_kind content).
  - unfold media_call.
    repeat (destruct (String.eqb _ _); [intros [= <-]; reflexivity|]). discriminate.
  - destruct (has_text content); [intros [= <-]; reflexivity|discriminate].
Qed.

Lemma dispatch_rule_skip (user_id : Z) (content : MessageContent) :
  dispatch_rule user_id content = DSkip <-> nothing_to_send content = true.
Proof.
  unfold dispatch_rule, nothing_to_send.
  destruct (has_media content && has_kind content).
  - destruct (media_call_cases user_id content) as [[c ->]|[m ->]]; cbn; split; discriminate.
  - destruct (has_text content); cbn; split; (reflexivity || discriminate).
Qed.

Lemma attempts_progress_nil (idx total : nat) (l : Locals) (b : bool) :
  attempts b (progress idx total l) = [].
Proof. unfold progress. destruct (idx mod 100 =? 0)%nat; reflexivity. Qed.

Lemma progress_marks_app (tr1 tr2 : list Event) :
  progress_marks (tr1 ++ tr2) = progress_marks tr1 ++ progress_marks tr2.
Proof. apply omap_app. Qed.

Lemma progress_marks_progress (idx total : nat) (l : Locals) :
  progress_marks (progress idx total l) = if (idx mod 100 =? 0)%nat then [idx] else [].
Proof. unfold progress. destruct (idx mod 100 =? 0)%nat; reflexivity. Qed.

Lemma progress_marks_pace (total : nat) (delay : Q) (idx : nat) :
  progress_marks (pace total delay idx) = [].
Proof. unfold pace. destruct (idx <? total)%nat; reflexivity. Qed.

Section Order_and_progress.

Context {T : Type}.
Variable transport : T -> Call -> Outcome * T.
Variables (total : nat) (delay : Q) (content : MessageContent).

Lemma Iteration_attempts (idx : nat) (u : Z) (l : Locals) (w : World T)
    (l' : Locals) (w' : World T) (tr1 : list Event) :
  Iteration transport total delay content idx u l w l' w' tr1 ->
  forall tr2,
    first_attempt_chats (tr1 ++ tr2) =
    (if nothing_to_send content || negb (sends content) then [] else [u]) ++
    first_attempt_chats tr2.
Proof.
  assert (Hsends : forall c, dispatch_rule u content = DCall c ->
            nothing_to_send content || negb (sends content) = false).
  { intros c D. unfold dispatch_rule in D. unfold nothing_to_send, sends.
    destruct (has_media content && has_kind content); cbn.
    - unfold media_call, supported_kind in *.
      repeat (destruct (String.eqb _ _); [reflexivity|]). discriminate.
    - destruct (has_text content); [reflexivity|discriminate]. }
  unfold first_attempt_chats.
  destruct 1 as [D|e D|c b D E|c e b D E He Hr|c s b1 b2 D E Er|c s e2 b1 b2 D E Er He];
    intros tr2.
  - apply dispatch_rule_skip in D. rewrite D. reflexivity.
  - assert (Hno : nothing_to_send content || negb (sends content) = true).
    { unfold dispatch_rule in D. unfold nothing_to_send, sends.
      destruct (has_media content && has_kind content); cbn.
      - unfold media_call, supported_kind in *.
        repeat (destruct (String.eqb _ _); [discriminate|]). reflexivity.
      - destruct (has_text content); discriminate. }
    rewrite Hno. cbn [app attempts]. rewrite attempts_progress. reflexivity.
  - rewrite (Hsends c D). cbn [app attempts].
    rewrite <- app_assoc, attempts_pace, attempts_progress. cbn.
    rewrite (dispatch_rule_chat u content c D). reflexivity.
  - rewrite (Hsends c D).
    destruct e; try discriminate; cbn [app attempts failure_log];
      rewrite attempts_progress; cbn;
      rewrite (dispatch_rule_chat u content c D); reflexivity.
  - rewrite (Hsends c D). cbn [app attempts]. rewrite attempts_progress. cbn.
    rewrite (dispatch_rule_chat u content c D). reflexivity.
  - rewrite (Hsends c D). cbn [app attempts]. rewrite attempts_progress. cbn.
    rewrite (dispatch_rule_chat u content c D). reflexivity.
Qed.

Lemma for_each_order (recipients : list Z) :
  forall (idx : nat) (l : Locals) (w : World T) (l' : Locals) (w' : World T) (tr : list Event),
  for_each transport total delay content idx recipients l w = (Ok l', w', tr) ->
  first_attempt_chats tr =
  if nothing_to_send content || negb (sends content) then [] else recipients.
Proof.
  induction recipients as [|u rest IH]; intros idx l w l' w' tr E.
  - cbn in E. injection E as <- <- <-.
    destruct (nothing_to_send content || negb (sends content)); reflexivity.
  - apply for_each_Ok_inv in E as (l1 & w1 & tr1 & tr2 & It & E2 & ->).
    rewrite (Iteration_attempts _ _ _ _ _ _ _ It), (IH _ _ _ _ _ _ E2).
    destruct (nothing_to_send content || negb (sends content)); reflexivity.
Qed.

Lemma Iteration_marks (idx : nat) (u : Z) (l : Locals) (w : World T)
    (l' : Locals) (w' : World T) (tr : list Event) :
  Iteration transport total delay content idx u l w l' w' tr ->
  progress_marks tr =
  if nothing_to_send content then []
  else if (idx mod 100 =? 0)%nat then [idx] else [].
Proof.
  assert (Hsome : forall d, dispatch_rule u content = d -> d <> DSkip ->
            nothing_to_send content = false).
  { intros d D Hd. destruct (nothing_to_send content) eqn:N; [|reflexivity].
    apply dispatch_rule_skip with (user_id := u) in N. congruence. }
  destruct 1 as [D|e D|c b D E|c e b D E He Hr|c s b1 b2 D E Er|c s e2 b1 b2 D E Er He].
  - apply dispatch_rule_skip in D. rewrite D. reflexivity.
  - rewrite (Hsome _ D) by discriminate.
    change (EvLog ?r :: ?t) with ([EvLog r] ++ t).
    rewrite progress_marks_app, progress_marks_progress. reflexivity.
  - rewrite (Hsome _ D) by discriminate.
    change (EvCall ?t ?c ?o :: ?p ++ ?q) with ([EvCall t c o] ++ p ++ q).
    rewrite !progress_marks_app, progress_marks_pace, progress_marks_progress. reflexivity.
  - rewrite (Hsome _ D) by discriminate.
    rewrite progress_marks_app, progress_marks_progress.
    destruct e; try discriminate; reflexivity.
  - rewrite (Hsome _ D) by discriminate.
    rewrite progress_marks_app, progress_marks_progress. reflexivity.
  - rewrite (Hsome _ D) by discriminate.
    rewrite progress_marks_app, progress_marks_progress. reflexivity.
Qed.

Lemma for_each_marks (recipients : list Z) :
  forall (idx : nat) (l : Locals) (w : World T) (l' : Locals) (w' : World T) (tr : list Event),
  for_each transport total delay content idx recipients l w = (Ok l', w', tr) ->
  progress_marks tr =
  if nothing_to_send content then []
  else List.filter (fun i => (i mod 100 =? 0)%nat) (seq idx (length recipients)).
Proof.
  induction recipients as [|u rest IH]; intros idx l w l' w' tr E.
  - cbn in E. injection E as <- <- <-. destruct (nothing_to_send content); reflexivity.
  - apply for_each_Ok_inv in E as (l1 & w1 & tr1 & tr2 & It & E2 & ->).
    rewrite progress_marks_app, (Iteration_marks _ _ _ _ _ _ _ It), (IH _ _ _ _ _ _ E2).
    destruct (nothing_to_send content); [reflexivity|].
    cbn [length seq List.filter]. destruct (idx mod 100 =? 0)%nat; reflexivity.
Qed.

End Order_and_progress.

Lemma sleeps_pace (total : nat) (delay : Q) (idx : nat) :
  sleeps (pace total delay idx) = if (idx <? total)%nat then [delay] else [].
Proof. unfold pace. destruct (idx <? total)%nat; reflexivity. Qed.

Lemma for_each_pauses {T : Type} (transport : T -> Call -> Outcome * T)
    (total : nat) (delay : Q) (content : MessageContent) (recipients : list Z) :
  sends content = true ->
  (forall s c, fst (transport s c) = Sent) ->
  forall (idx : nat) (l : Locals) (w : World T),
  idx + length recipients = S total ->
  exists l' w' tr,
    for_each transport total delay content idx recipients l w = (Ok l', w', tr) /\
    sleeps tr = replicate (length recipients - 1) delay.
Proof.
  intros Hs Hsent. induction recipients as [|u rest IH]; intros idx l w Hidx.
  - exists l, w, []. split; reflexivity.
  - destruct (dispatch_rule_sends u content Hs) as (c & D & _).
    destruct (transport (bot w) c) as [o b] eqn:E.
    pose proof (Hsent (bot w) c) as Ho. rewrite E in Ho. cbn in Ho. subst o.
    rewrite for_each_cons, (loop_body_sent transport _ _ _ _ _ _ _ c b D E).
    destruct (IH (S idx) (count_sent l)
                {| bot := b; clock := paced_clock total delay idx (clock w) |})
      as (l' & w' & tr & -> & Hsl); [cbn in Hidx; lia|].
    do 3 eexists. split; [reflexivity|].
    change (EvCall ?t ?c0 ?o :: ?p ++ ?q) with ([EvCall t c0 o] ++ p ++ q).
    rewrite !sleeps_app, sleeps_pace, sleeps_progress, Hsl. cbn [length] in *.
    destruct rest as [|v rest'].
    + cbn [length] in *. replace (idx <? total)%nat with false
        by (symmetry; apply Nat.ltb_ge; lia). reflexivity.
    + cbn [length] in *. replace (idx <? total)%nat with true
        by (symmetry; apply Nat.ltb_lt; lia).
      cbn. rewrite Nat.sub_0_r. reflexivity.
Qed.

(** ** What the calls carry *)

Lemma media_call_carries (user_id : Z) (content : MessageContent) (c : Call) :
  has_media content && has_kind content = true ->
  media_call user_id content = DCall c ->
  kind_of c = media_type content /\
  file_of c = media_file_id content /\
  caption_of c = or_None (text content) /\
  markup_of c = reply_markup content.
Proof.
  unfold has_media, has_kind, truthy. intros G.
  destruct (media_file_id content) as [f|] eqn:F; [|discriminate].
  destruct (media_type content) as [k|] eqn:K; [|rewrite andb_false_r in G; discriminate].
  unfold media_call. rewrite K, F. simpl default.
  destruct (String.eqb k "photo") eqn:E1;
    [apply String.eqb_eq in E1; rewrite E1; intros [= <-]; repeat split|].
  destruct (String.eqb k "video") eqn:E2;
    [apply String.eqb_eq in E2; rewrite E2; intros [= <-]; repeat split|].
  destruct (String.eqb k "animation") eqn:E3;
    [apply String.eqb_eq in E3; rewrite E3; intros [= <-]; repeat split|].
  destruct (String.eqb k "document") eqn:E4;
    [apply String.eqb_eq in E4; rewrite E4; intros [= <-]; repeat split|].
  discriminate.
Qed.

(** ** Splitting and joining *)

Lemma split_nonempty (sep : Ascii.ascii) (s : string) : split sep s <> [].
Proof.
  destruct s as [|a s]; cbn [split]; [discriminate|].
  destruct (Ascii.eqb a sep); [discriminate|]. destruct (split sep s); discriminate.
Qed.

Lemma split_app (sep : Ascii.ascii) (a b : string) :
  split sep (a +:+ String sep b) = split sep a ++ split sep b.
Proof.
  induction a as [|x a IH].
  - change ("" +:+ String sep b) with (String sep b). cbn [split].
    rewrite Ascii.eqb_refl. reflexivity.
  - change (String x a +:+ String sep b) with (String x (a +:+ String sep b)).
    cbn [split]. destruct (Ascii.eqb x sep); [rewrite IH; reflexivity|].
    rewrite IH. pose proof (split_nonempty sep a) as Hne.
    destruct (split sep a) as [|f fs]; [contradiction|]. reflexivity.
Qed.

Lemma split_no_sep (sep : Ascii.ascii) (s : string) :
  has_char sep s = false -> split sep s = [s].
Proof.
  induction s as [|x s IH]; cbn [split has_char]; [reflexivity|].
  intros H. apply orb_false_iff in H as [Hx Hs]. rewrite Hx, (IH Hs). reflexivity.
Qed.

Lemma split_concat (sep : Ascii.ascii) (fields : list string) :
  fields <> [] ->
  Forall (fun f => has_char sep f = false) fields ->
  split sep (String.concat (String sep "") fields) = fields.
Proof.
  induction fields as [|f rest IH]; intros Hne Hall; [contradiction|].
  apply Forall_cons in Hall as [Hf Hrest].
  destruct rest as [|g rest].
  - cbn. apply split_no_sep, Hf.
  - change (String.concat (String sep "") (f :: g :: rest))
      with (f +:+ String sep (String.concat (String sep "") (g :: rest))).
    rewrite split_app, (split_no_sep sep f Hf), IH by (discriminate || assumption).
    reflexivity.
Qed.

Lemma has_char_app (a : Ascii.ascii) (s1 s2 : string) :
  has_char a (s1 +:+ s2) = has_char a s1 || has_char a s2.
Proof.
  induction s1 as [|x s1 IH]; [reflexivity|].
  change (String x s1 +:+ s2) with (String x (s1 +:+ s2)). cbn [has_char].
  rewrite IH. apply orb_assoc.
Qed.

Lemma pretty_N_go_no_newline (x : N) :
  forall s, has_char newline s = false -> has_char newline (pretty_N_go x s) = false.
Proof.
  induction (N.lt_wf_0 x) as [x _ IH]; intros s Hs.
  destruct (decide (0 < x)%N) as [Hx|Hx].
  - rewrite pretty_N_go_step by exact Hx. apply IH.
    + apply N.div_lt; [exact Hx|reflexivity].
    + cbn [has_char]. rewrite Hs, orb_false_r. unfold pretty_N_char.
      repeat case_match; reflexivity.
  - replace x with 0%N by lia. rewrite pretty_N_go_0. exact Hs.
Qed.

Lemma pretty_N_no_newline (x : N) : has_char newline (pretty x) = false.
Proof.
  unfold pretty, pretty_N. destruct (decide (x = 0%N)); [reflexivity|].
  apply pretty_N_go_no_newline. reflexivity.
Qed.

Lemma pretty_nat_no_newline (n : nat) : has_char newline (pretty n) = false.
Proof. apply pretty_N_no_newline. Qed.

Lemma pretty_Z_no_newline (z : Z) : has_char newline (pretty z) = false.
Proof.
  destruct z as [|p|p]; [reflexivity|apply pretty_N_no_newline|].
  change (pretty (Z.neg p)) with ("-" +:+ pretty (N.pos p)).
  rewrite has_char_app, pretty_N_no_newline. reflexivity.
Qed.

Lemma winner_line_no_newline (idx : nat) (winner : Winner) :
  has_char newline (default "" (username_snapshot winner)) = false ->
  has_char newline (winner_line idx winner) = false.
Proof.
  intros H. unfold winner_line.
  rewrite !has_char_app, pretty_nat_no_newline.
  destruct (truthy (username_snapshot winner)).
  - rewrite has_char_app, H. reflexivity.
  - rewrite has_char_app, pretty_Z_no_newline. reflexivity.
Qed.

Lemma winner_lines_length (winners : list Winner) :
  forall idx, length (winner_lines idx winners) = length winners.
Proof. induction winners as [|x rest IH]; intros idx; cbn; [|rewrite IH]; reflexivity. Qed.

Lemma winner_lines_no_newline (winners : list Winner) :
  Forall (fun x => has_char newline (default "" (username_snapshot x)) = false) winners ->
  forall idx, Forall (fun f => has_char newline f = false) (winner_lines idx winners).
Proof.
  induction 1 as [|x rest Hx Hrest IH]; intros idx; cbn; constructor.
  - apply winner_line_no_newline, Hx.
  - apply IH.
Qed.

Section Settings_facts.

Variable strip : string -> string.
Variable int : string -> Res Z.


End Settings_facts.

(** ** The handlers' delivery blocks *)

Section Handlers_facts.

Context {T : Type}.
Variable transport : T -> Call -> Outcome * T.

Hypothesis transport_signals :
  forall (s : T) (c : Call), success_or_signal (fst (transport s c)) = true.

Lemma send_to_channel_delivered (channel_id : Z) (content : MessageContent) (w : World T) :
  exists ok w1 tr1,
    send_to_channel transport channel_id content w = (Ok ok, w1, tr1) /\
    delivered tr1 = (if ok : bool then 1 else 0) /\
    channel_delivered transport channel_id content w = ok.
Proof.
  unfold channel_delivered. rewrite send_to_channel_run.
  destruct (dispatch_rule channel_id content) as [c|e|].
  - pose proof (transport_signals (bot w) c) as Ho.
    destruct (transport (bot w) c) as [[|e] b]; cbn in Ho.
    + do 3 eexists. repeat split.
    + rewrite Ho. do 3 eexists. repeat split.
  - do 3 eexists. repeat split.
  - do 3 eexists. repeat split.
Qed.

Lemma send_mass_message_delivered (recipients : list Z) (content : MessageContent)
    (rps : Z) (w : World T) :
  rps <> 0%Z ->
  exists res w' tr,
    send_mass_message transport recipients content rps w = (Ok res, w', tr) /\
    sent_count res = delivered tr.
Proof.
  intros Hrps. rewrite send_mass_message_run by exact Hrps.
  destruct (for_each_returns transport transport_signals (length recipients)
              (1 / inject_Z rps)%Q content recipients 1 no_counts w)
    as (l & w' & tr & E & _).
  rewrite E. do 3 eexists. split; [reflexivity|].
  apply for_each_counts in E as (_ & H).
  cbn [result_of sent_count no_counts sent] in *.
  change (EvLog ?r :: ?t) with ([EvLog r] ++ t). rewrite !delivered_app. cbn. lia.
Qed.

End Handlers_facts.

(** ** Skipping and the keys of the error summary *)

Section Skips_and_keys.

Context {T : Type}.
Variable transport : T -> Call -> Outcome * T.
Variables (total : nat) (delay : Q) (content : MessageContent).

Lemma known_key_failure (e : Exn) : known_key (failure_key e).
Proof.
  unfold known_key. destruct e; cbn; auto.
  right. right. right. eexists. reflexivity.
Qed.

Lemma known_keys_update (summary : gmap string nat) (error_type : string) :
  known_key error_type ->
  (forall k, is_Some (summary !! k) -> known_key k) ->
  forall k, is_Some (_update_error_summary summary error_type !! k) -> known_key k.
Proof.
  intros Hkey Hall k. unfold _update_error_summary.
  destruct (decide (error_type = k)) as [<-|Hne]; [intros _; exact Hkey|].
  rewrite lookup_insert_ne by exact Hne. apply Hall.
Qed.

Lemma Iteration_skips (idx : nat) (u : Z) (l : Locals) (w : World T)
    (l' : Locals) (w' : World T) (tr : list Event) :
  Iteration transport total delay content idx u l w l' w' tr ->
  skipped l' = skipped l + (if nothing_to_send content then 1 else 0) /\
  ((forall k, is_Some (errors l !! k) -> known_key k) ->
   forall k, is_Some (errors l' !! k) -> known_key k).
Proof.
  assert (Hsome : forall d, dispatch_rule u content = d -> d <> DSkip ->
            nothing_to_send content = false).
  { intros d D Hd. destruct (nothing_to_send content) eqn:N; [|reflexivity].
    apply dispatch_rule_skip with (user_id := u) in N. congruence. }
  destruct 1 as [D|e D|c b D E|c e b D E He Hr|c s b1 b2 D E Er|c s e2 b1 b2 D E Er He];
    cbn [skipped errors count_skipped count_sent count_failed];
    try (rewrite (Hsome _ D) by discriminate).
  - apply dispatch_rule_skip in D. rewrite D. split; [lia|auto].
  - split; [lia|]. apply known_keys_update. unfold known_key. auto.
  - split; [lia|auto].
  - split; [lia|]. apply known_keys_update, known_key_failure.
  - split; [lia|auto].
  - split; [lia|]. apply known_keys_update. unfold known_key. auto.
Qed.

Lemma for_each_skips (recipients : list Z) :
  forall (idx : nat) (l : Locals) (w : World T) (l' : Locals) (w' : World T) (tr : list Event),
  for_each transport total delay content idx recipients l w = (Ok l', w', tr) ->
  skipped l' = skipped l + (if nothing_to_send content then length recipients else 0) /\
  ((forall k, is_Some (errors l !! k) -> known_key k) ->
   forall k, is_Some (errors l' !! k) -> known_key k).
Proof.
  induction recipients as [|u rest IH]; intros idx l w l' w' tr E.
  - cbn in E. injection E as <- <- <-.
    split; [destruct (nothing_to_send content); cbn; lia|auto].
  - apply for_each_Ok_inv in E as (l1 & w1 & tr1 & tr2 & It & E2 & ->).
    apply Iteration_skips in It as (H1 & K1). apply IH in E2 as (H2 & K2).
    split; [|auto]. cbn [length]. destruct (nothing_to_send content); lia.
Qed.

End Skips_and_keys.

(** ** The loop as a sequence of iterations *)

Lemma dispatch_rule_call_sends (user_id : Z) (content : MessageContent) (c : Call) :
  dispatch_rule user_id content = DCall c ->
  nothing_to_send content || negb (sends content) = false.
Proof.
  intros D. unfold dispatch_rule in D. unfold nothing_to_send, sends.
  destruct (has_media content && has_kind content); cbn.
  - unfold media_call, supported_kind in *.
    repeat (destruct (String.eqb _ _); [reflexivity|]). discriminate.
  - destruct (has_text content); [reflexivity|discriminate].
Qed.

Lemma sends_something (content : MessageContent) :
  sends content = true ->
  nothing_to_send content || negb (sends content) = false.
Proof.
  intros Hs. rewrite Hs, orb_false_r. unfold nothing_to_send, sends in *.
  destruct (has_media content && has_kind content); [reflexivity|].
  rewrite Hs. reflexivity.
Qed.

Lemma sends_or_not (content : MessageContent) :
  sends content = false ->
  (forall u, dispatch_rule u content = DSkip) \/ unsupported_media content = true.
Proof.
  unfold sends, dispatch_rule, unsupported_media.
  destruct (has_media content && has_kind content).
  - intros ->. right. reflexivity.
  - intros ->. left. reflexivity.
Qed.

Lemma sleeps_skips (recipients : list Z) :
  sleeps (map (fun u => EvLog (log_empty_content u)) recipients) = [].
Proof. induction recipients as [|u rest IH]; [reflexivity|exact IH]. Qed.

Lemma last_event_unique (P : Event -> Prop) (tr0 tr1 tr2 : list Event) (x y : Event) :
  Forall P tr0 -> ~ P y ->
  tr0 ++ [x] = tr1 ++ y :: tr2 ->
  tr1 = tr0 /\ y = x /\ tr2 = [].
Proof.
  intros Hall Hy. revert tr1. induction Hall as [|a tr0 Ha Hall IH]; intros tr1 E.
  - destruct tr1 as [|b tr1]; cbn in E.
    + injection E as <- <-. auto.
    + injection E as _ E. destruct tr1; discriminate.
  - destruct tr1 as [|b tr1]; cbn in E.
    + injection E as E _. subst y. contradiction.
    + injection E as <- E. destruct (IH tr1 E) as (-> & -> & ->). auto.
Qed.

Section Loop_facts.

Context {T : Type}.
Variable transport : T -> Call -> Outcome * T.
Variables (total : nat) (delay : Q) (content : MessageContent).

Lemma for_each_Iterations (recipients : list Z) :
  forall (idx : nat) (l : Locals) (w : World T) (l' : Locals) (w' : World T) (tr : list Event),
  for_each transport total delay content idx recipients l w = (Ok l', w', tr) ->
  Iterations transport total delay content idx recipients l w l' w' tr.
Proof.
  induction recipients as [|u rest IH]; intros idx l w l' w' tr E.
  - cbn in E. injection E as <- <- <-. constructor.
  - apply for_each_Ok_inv in E as (l1 & w1 & tr1 & tr2 & It & E2 & ->).
    econstructor; [exact It|]. apply IH, E2.
Qed.

Lemma Iteration_first_calls (idx : nat) (u : Z) (l : Locals) (w : World T)
    (l' : Locals) (w' : World T) (tr1 : list Event) (c : Call) :
  Iteration transport total delay content idx u l w l' w' tr1 ->
  dispatch_rule u content = DCall c ->
  forall tr2, first_attempt_calls (tr1 ++ tr2) = c :: first_attempt_calls tr2.
Proof.
  unfold first_attempt_calls.
  destruct 1 as [D|e D|c0 b D E|c0 e b D E He Hr|c0 s b1 b2 D E Er|c0 s e2 b1 b2 D E Er He];
    intros D' tr2; rewrite D in D'; try discriminate; injection D' as ->.
  - cbn [app attempts]. rewrite <- app_assoc, attempts_pace, attempts_progress. reflexivity.
  - destruct e; try discriminate; cbn [app attempts failure_log];
      rewrite attempts_progress; reflexivity.
  - cbn [app attempts]. rewrite attempts_progress. reflexivity.
  - cbn [app attempts]. rewrite attempts_progress. reflexivity.
Qed.

Lemma for_each_first_calls (f : Z -> Call) (recipients : list Z) :
  (forall u, dispatch_rule u content = DCall (f u)) ->
  forall (idx : nat) (l : Locals) (w : World T) (l' : Locals) (w' : World T) (tr : list Event),
  for_each transport total delay content idx recipients l w = (Ok l', w', tr) ->
  first_attempt_calls tr = map f recipients.
Proof.
  intros D. induction recipients as [|u rest IH]; intros idx l w l' w' tr E.
  - cbn in E. injection E as <- <- <-. reflexivity.
  - apply for_each_Ok_inv in E as (l1 & w1 & tr1 & tr2 & It & E2 & ->).
    rewrite (Iteration_first_calls _ _ _ _ _ _ _ _ It (D u)), (IH _ _ _ _ _ _ E2).
    reflexivity.
Qed.

Lemma for_each_all_delivered (recipients : list Z) :
  sends content = true ->
  (forall s c, fst (transport s c) = Sent) ->
  forall (idx : nat) (l : Locals) (w : World T) (l' : Locals) (w' : World T) (tr : list Event),
  for_each transport total delay content idx recipients l w = (Ok l', w', tr) ->
  recipients_called tr = recipients.
Proof.
  intros Hs Hsent. unfold recipients_called.
  induction recipients as [|u rest IH]; intros idx l w l' w' tr E.
  - cbn in E. injection E as <- <- <-. reflexivity.
  - apply for_each_Ok_inv in E as (l1 & w1 & tr1 & tr2 & It & E2 & ->).
    destruct (dispatch_rule_sends u content Hs) as (c & D & Hc).
    pose proof (Hsent (bot w) c) as Ho.
    rewrite calls_app, map_app, (IH _ _ _ _ _ _ E2).
    destruct It as [D'|e D'|c0 b D' E|c0 e b D' E He Hr|c0 s b1 b2 D' E Er
                   |c0 s e2 b1 b2 D' E Er He];
      rewrite D in D'; try discriminate; injection D' as <-;
      rewrite E in Ho; try discriminate.
    rewrite calls_call, calls_app, calls_pace, calls_progress. cbn.
    rewrite Hc. reflexivity.
Qed.

Lemma Iteration_not_cancelled (idx : nat) (u : Z) (l : Locals) (w : World T)
    (l' : Locals) (w' : World T) (tr : list Event) :
  Iteration transport total delay content idx u l w l' w' tr ->
  Forall (fun ev => is_cancelled_call ev = false) tr.
Proof.
  assert (Hp : forall l0, Forall (fun ev => is_cancelled_call ev = false)
                            (progress idx total l0)).
  { intros l0. unfold progress. destruct (idx mod 100 =? 0)%nat; repeat constructor. }
  assert (Hs : Forall (fun ev => is_cancelled_call ev = false) (pace total delay idx)).
  { unfold pace. destruct (idx <? total)%nat; repeat constructor. }
  destruct 1 as [D|e D|c b D E|c e b D E He Hr|c s b1 b2 D E Er|c s e2 b1 b2 D E Er He].
  - repeat constructor.
  - constructor; [reflexivity|apply Hp].
  - constructor; [reflexivity|]. apply Forall_app. split; [exact Hs|apply Hp].
  - apply Forall_app. split; [|apply Hp].
    constructor; [cbn; rewrite He; reflexivity|]. repeat constructor.
  - apply Forall_app. split; [|apply Hp]. repeat constructor.
  - apply Forall_app. split; [|apply Hp].
    constructor; [reflexivity|]. constructor; [reflexivity|]. constructor; [reflexivity|].
    constructor; [cbn; rewrite He; reflexivity|]. repeat constructor.
Qed.

Lemma for_each_not_cancelled (recipients : list Z) :
  forall (idx : nat) (l : Locals) (w : World T) (l' : Locals) (w' : World T) (tr : list Event),
  for_each transport total delay content idx recipients l w = (Ok l', w', tr) ->
  Forall (fun ev => is_cancelled_call ev = false) tr.
Proof.
  induction recipients as [|u rest IH]; intros idx l w l' w' tr E.
  - cbn in E. injection E as <- <- <-. constructor.
  - apply for_each_Ok_inv in E as (l1 & w1 & tr1 & tr2 & It & E2 & ->).
    apply Forall_app. split; [eapply Iteration_not_cancelled, It|eapply IH, E2].
Qed.

Lemma Abort_stops (u : Z) (w : World T) (e : Exn) (w' : World T) (tr : list Event) :
  Abort transport content u w e w' tr ->
  is_Exception e = false /\
  nothing_to_send content || negb (sends content) = false /\
  first_attempt_chats tr = [u] /\
  exists tr0 t c,
    tr = tr0 ++ [EvCall t c (Failed e)] /\ chat_of c = u /\
    Forall (fun ev => is_cancelled_call ev = false) tr0.
Proof.
  destruct 1 as [c e b D E He|c s e2 b1 b2 D E1 E2 He].
  - split; [exact He|]. split; [exact (dispatch_rule_call_sends _ _ _ D)|].
    split; [cbn; rewrite (dispatch_rule_chat _ _ _ D); reflexivity|].
    exists [], (clock w), c. split; [reflexivity|].
    split; [exact (dispatch_rule_chat _ _ _ D)|constructor].
  - split; [exact He|]. split; [exact (dispatch_rule_call_sends _ _ _ D)|].
    split; [cbn; rewrite (dispatch_rule_chat _ _ _ D); reflexivity|].
    exists [EvCall (clock w) c (Failed (TelegramRetryAfter s));
            EvLog (log_retry_after u s); EvSleep s], (clock w + sleep_time s)%Q, c.
    split; [reflexivity|]. split; [exact (dispatch_rule_chat _ _ _ D)|].
    repeat constructor.
Qed.

Lemma for_each_stops (recipients : list Z) :
  forall (idx : nat) (l : Locals) (w : World T) (e : Exn) (w' : World T) (tr : list Event),
  for_each transport total delay content idx recipients l w = (Raise e, w', tr) ->
  is_Exception e = false /\
  nothing_to_send content || negb (sends content) = false /\
  exists pre post tr0 t c,
    recipients = pre ++ chat_of c :: post /\
    first_attempt_chats tr = pre ++ [chat_of c] /\
    tr = tr0 ++ [EvCall t c (Failed e)] /\
    Forall (fun ev => is_cancelled_call ev = false) tr0.
Proof.
  induction recipients as [|u rest IH]; intros idx l w e w' tr E; [discriminate|].
  apply for_each_Raise_inv in E as [Ab|(l1 & w1 & tr1 & tr2 & It & E2 & ->)].
  - apply Abort_stops in Ab as (He & Hs & Hf & tr0 & t & c & -> & <- & Hall).
    split; [exact He|]. split; [exact Hs|].
    exists [], rest, tr0, t, c. repeat split; assumption.
  - apply IH in E2 as (He & Hs & pre & post & tr0 & t & c & -> & Hf & -> & Hall).
    split; [exact He|]. split; [exact Hs|].
    exists (u :: pre), post, (tr1 ++ tr0), t, c. split; [reflexivity|].
    split; [|split].
    + rewrite (Iteration_attempts _ _ _ _ _ _ _ _ _ _ _ It), Hs, Hf. reflexivity.
    + apply app_assoc.
    + apply Forall_app. split; [eapply Iteration_not_cancelled, It|exact Hall].
Qed.

End Loop_facts.

(** * The model at work *)

(** Three recipients, a text, every call delivered: a pause of 1/20 s after
    the first and the second send, none after the last. *)
Example run_all_sent :
  send_mass_message always_sent [1; 2; 3]%Z (text_only "hi") 20 (midnight tt) =
  (Ok {| total_recipients := 3; sent_count := 3; failed_count := 0; skipped_count := 0;
         duration_seconds := (0 + sleep_time (1 # 20) + sleep_time (1 # 20) - 0)%Q;
         error_summary := ∅ |},
   {| bot := tt; clock := (0 + sleep_time (1 # 20) + sleep_time (1 # 20))%Q |},
   [EvLog (log_start 3 20);
    EvCall 0%Q (send_message 1 "hi" None) Sent;
    EvSleep (1 # 20)%Q;
    EvCall (0 + sleep_time (1 # 20))%Q (send_message 2 "hi" None) Sent;
    EvSleep (1 # 20)%Q;
    EvCall (0 + sleep_time (1 # 20) + sleep_time (1 # 20))%Q (send_message 3 "hi" None) Sent;
    EvLog (log_finished 3 0 0 (0 + sleep_time (1 # 20) + sleep_time (1 # 20) - 0)%Q)]).
Proof. vm_compute. reflexivity. Qed.

(** The first call is throttled and delivered at the second attempt, with
    no pause after it; recipient 2 has blocked the bot, and nothing pauses
    before recipient 3 is called. *)
Example run_flaky :
  send_mass_message flaky [1; 2; 3]%Z (text_only "hi") 20 (midnight 0) =
  (Ok {| total_recipients := 3; sent_count := 2; failed_count := 1; skipped_count := 0;
         duration_seconds := (0 + sleep_time 3 - 0)%Q;
         error_summary := {["blocked" := 1]} |},
   {| bot := 4; clock := (0 + sleep_time 3)%Q |},
   [EvLog (log_start 3 20);
    EvCall 0%Q (send_message 1 "hi" None) (Failed (TelegramRetryAfter 3%Q));
    EvLog (log_retry_after 1 3%Q);
    EvSleep 3%Q;
    EvCall (0 + sleep_time 3)%Q (send_message 1 "hi" None) Sent;
    EvCall (0 + sleep_time 3)%Q (send_message 2 "hi" None) (Failed TelegramForbiddenError);
    EvLog (log_blocked 2);
    EvCall (0 + sleep_time 3)%Q (send_message 3 "hi" None) Sent;
    EvLog (log_finished 2 1 0 (0 + sleep_time 3 - 0)%Q)]).
Proof. vm_compute. reflexivity. Qed.

(** Recipient 2 has blocked the bot: the call to 2 comes 1/20 s after the
    delivery to 1, the call to 3 right after the refusal. *)
Example run_blocked_times :
  map (fun a => (at_time a, chat_of (call a), outcome a, is_retry a))
    (attempts false
       (snd (send_mass_message (blocked_by 2) [1; 2; 3]%Z (text_only "hi") 20
               (midnight tt)))) =
  [(0%Q, 1%Z, Sent, false);
   ((1 # 20)%Q, 2%Z, Failed TelegramForbiddenError, false);
   ((1 # 20)%Q, 3%Z, Sent, false)].
Proof. vm_compute. reflexivity. Qed.

(** A photo goes out through [send_photo], the text as its caption. *)
Example run_photo :
  snd (send_to_channel always_sent (-1001234567890)
         {| text := Some "hi"; media_file_id := Some "AgACAgIAAxkBAAIC";
            media_type := Some "photo"; reply_markup := None |} (midnight tt)) =
  [EvCall 0%Q (send_photo (-1001234567890) "AgACAgIAAxkBAAIC" (Some "hi") None) Sent;
   EvLog (log_channel_sent (-1001234567890))].
Proof. reflexivity. Qed.

(** Empty entries of [ADMIN_IDS] are passed over. *)
Example admin_ids_with_gaps :
  get_admin_ids no_strip small_int "1,,2,3," = Ok [1; 2; 3]%Z /\
  get_admin_ids no_strip small_int "" = Ok [] /\
  is_admin no_strip small_int "1,,2,3," 2 = Ok true /\
  is_admin no_strip small_int "1,,2,3," 4 = Ok false.
Proof. repeat split. Qed.

(** One entry that is no number, and no admin check answers any more. *)
Example admin_ids_with_a_typo :
  is_admin no_strip small_int "1,x,2" 1 =
  Raise (ValueError "invalid literal for int() with base 10: x").
Proof. reflexivity. Qed.

Example two_winners :
  format_winner_list [ {| user_id := 42; username_snapshot := Some "alice" |};
                       {| user_id := 77; username_snapshot := None |};
                       {| user_id := 78; username_snapshot := Some "" |} ] =
  "1. @alice" +:+ String newline "2. ID: 77" +:+ String newline "3. ID: 78".
Proof. vm_compute. reflexivity. Qed.

(** Nothing gets through, and [publish_results] still counts one for the
    target [everywhere]; the announce block counts none. *)
Example nothing_delivered :
  fst (fst (publish_results_deliver offline "everywhere" (-1001234567890) [10]%Z
              [1; 2; 3]%Z "results" (midnight tt))) = Ok 1 /\
  fst (fst (announce_deliver offline "everywhere" (-1001234567890) [1; 2; 3]%Z
              (text_only "announce") (midnight tt))) = Ok 0.
Proof. split; vm_compute; reflexivity. Qed.

(** The second call is cancelled: the run stops there, recipient 3 is never
    called and no result comes back. *)
Example run_cancelled :
  send_mass_message (cancelled_at 1) [1; 2; 3]%Z (text_only "hi") 20 (midnight 0) =
  (Raise CancelledError,
   {| bot := 2; clock := (0 + sleep_time (1 # 20))%Q |},
   [EvLog (log_start 3 20);
    EvCall 0%Q (send_message 1 "hi" None) Sent;
    EvSleep (1 # 20)%Q;
    EvCall (0 + sleep_time (1 # 20))%Q (send_message 2 "hi" None) (Failed CancelledError)]).
Proof. vm_compute. reflexivity. Qed.

(** * Verified properties *)

(** C1. Whatever the recipients, when every call of the transport ends in
    success or in one of the signals RetryAfter, Forbidden, ApiError,
    Unexpected (and [rps] is not zero, as the rate configuration requires),
    [send_mass_message] returns a result, no exception leaves the loop, and
    [total_recipients = sent_count + failed_count + skipped_count =
    len(recipients)].  Every recipient is processed: between the record of
    the start and the record of the end, the trace is that of one iteration
    for each entry of the list, in list order and numbered from 1, each
    ending in one of the six ways of [Iteration] (skipped, refused as
    invalid, sent, failed, sent at the retry, failed at the retry) and
    handing its counters and its world to the next, whatever the outcome of
    the ones before it; the result holds the counters of the last one.  In
    particular, for a content the dispatch rule sends, the first attempts in
    the trace are to the recipients in list order, one per entry. *)
Theorem broadcast_accounting {T : Type} (transport : T -> Call -> Outcome * T)
    (recipients : list Z) (content : MessageContent) (rps : Z) (w : World T) :
  (forall s c, success_or_signal (fst (transport s c)) = true) ->
  rps <> 0%Z ->
  exists res w' tr,
    send_mass_message transport recipients content rps w = (Ok res, w', tr) /\
    total_recipients res = sent_count res + failed_count res + skipped_count res /\
    total_recipients res = length recipients /\
    exists l its,
      Iterations transport (length recipients) (1 / inject_Z rps)%Q content
        1 recipients no_counts w l w' its /\
      tr = EvLog (log_start (length recipients) rps) :: its ++
           [EvLog (log_finished (sent l) (failed l) (skipped l) (clock w' - clock w)%Q)] /\
      res = result_of recipients l (clock w' - clock w)%Q /\
      (sends content = true -> first_attempt_chats tr = recipients).
Proof.
  intros Hsig Hrps. rewrite send_mass_message_run by exact Hrps.
  destruct (for_each_returns transport Hsig (length recipients) (1 / inject_Z rps)%Q
              content recipients 1 no_counts w) as (l & w' & tr & E & Hl).
  rewrite E. do 3 eexists. split; [reflexivity|].
  split; [unfold processed in Hl; cbn in *; lia|]. split; [reflexivity|].
  exists l, tr. split; [apply for_each_Iterations, E|].
  split; [reflexivity|]. split; [reflexivity|].
  intros Hs. apply for_each_order in E. rewrite (sends_something content Hs) in E.
  unfold first_attempt_chats in *. cbn [attempts]. rewrite attempts_finished. exact E.
Qed.

Lemma broadcast_accounting_witness :
  (forall s c, success_or_signal (fst (flaky s c)) = true) /\
  20%Z <> 0%Z /\
  exists res w' tr,
    send_mass_message flaky [1; 2; 3]%Z (text_only "hi") 20 (midnight 0) = (Ok res, w', tr) /\
    total_recipients res = sent_count res + failed_count res + skipped_count res /\
    total_recipients res = 3 /\
    exists l its,
      Iterations flaky 3 (1 / inject_Z 20)%Q (text_only "hi")
        1 [1; 2; 3]%Z no_counts (midnight 0) l w' its /\
      tr = EvLog (log_start 3 20) :: its ++
           [EvLog (log_finished (sent l) (failed l) (skipped l)
                     (clock w' - clock (midnight 0))%Q)] /\
      res = result_of [1; 2; 3]%Z l (clock w' - clock (midnight 0))%Q /\
      (sends (text_only "hi") = true -> first_attempt_chats tr = [1; 2; 3]%Z).
Proof.
  assert (H : forall s c, success_or_signal (fst (flaky s c)) = true).
  { intros s c. unfold flaky. cbn.
    destruct (s =? 0)%nat; [reflexivity|]. destruct (chat_of c =? 2)%Z; reflexivity. }
  split; [exact H|]. split; [discriminate|].
  apply (broadcast_accounting flaky [1; 2; 3]%Z (text_only "hi") 20 (midnight 0) H).
  discriminate.
Defined.

(** C2, as stated, fails: a content with text present and a transport that
    delivers every call, and yet none of the three recipients is counted as
    sent.  The media attached to the text has a kind that is not supported:
    [_send_media_message] raises [ValueError] before any call, and every
    recipient is counted as failed. *)
Lemma all_sent_counterexample :
  has_text sticker = true /\
  (forall s c, fst (always_sent s c) = Sent) /\
  exists res w' tr,
    send_mass_message always_sent [1; 2; 3]%Z sticker 20 (midnight tt) = (Ok res, w', tr) /\
    total_recipients res = 3 /\
    sent_count res = 0 /\
    failed_count res = 3 /\
    skipped_count res = 0.
Proof.
  split; [reflexivity|]. split; [reflexivity|].
  do 3 eexists. vm_compute. repeat split.
Qed.

(** C2, amended. With a transport that delivers every call, a content with
    text present (a non-empty string) whose media, if it is attached with a
    kind, has one of the four supported kinds, and [rps] not zero: all [N]
    recipients are counted as sent, none as failed or skipped, and the error
    summary stays empty; the bot was called exactly once for every
    recipient, in list order.  The witness is the scenario recipients
    [1, 2, 3], content [text="hi"]. *)
Theorem broadcast_all_sent {T : Type} (transport : T -> Call -> Outcome * T)
    (recipients : list Z) (content : MessageContent) (rps : Z) (w : World T) :
  has_text content = true ->
  unsupported_media content = false ->
  (forall s c, fst (transport s c) = Sent) ->
  rps <> 0%Z ->
  exists res w' tr,
    send_mass_message transport recipients content rps w = (Ok res, w', tr) /\
    total_recipients res = length recipients /\
    sent_count res = length recipients /\
    failed_count res = 0 /\
    skipped_count res = 0 /\
    error_summary res = ∅ /\
    recipients_called tr = recipients.
Proof.
  intros Ht Hm Hsent Hrps. rewrite send_mass_message_run by exact Hrps.
  assert (Hsends : sends content = true).
  { unfold sends, unsupported_media in *.
    destruct (has_media content && has_kind content); [|exact Ht].
    cbn in Hm. apply negb_false_iff in Hm. exact Hm. }
  destruct (for_each_all_sent transport (length recipients) (1 / inject_Z rps)%Q
              content recipients) with (idx := 1) (l := no_counts) (w := w)
    as (l & w' & tr & E & Hs & Hf & Hk & He).
  - intros u. destruct (dispatch_rule_text u content Ht Hm) as (c & Hc & _). eauto.
  - exact Hsent.
  - rewrite E. do 3 eexists. split; [reflexivity|].
    cbn [result_of total_recipients sent_count failed_count skipped_count error_summary
         no_counts sent failed skipped errors] in *.
    repeat split; try assumption.
    unfold recipients_called. rewrite calls_log, calls_app. cbn. rewrite app_nil_r.
    exact (for_each_all_delivered transport _ _ _ recipients Hsends Hsent _ _ _ _ _ _ E).
Qed.

Lemma broadcast_all_sent_witness :
  has_text (text_only "hi") = true /\
  unsupported_media (text_only "hi") = false /\
  (forall s c, fst (always_sent s c) = Sent) /\
  20%Z <> 0%Z /\
  exists res w' tr,
    send_mass_message always_sent [1; 2; 3]%Z (text_only "hi") 20 (midnight tt)
      = (Ok res, w', tr) /\
    total_recipients res = 3 /\ sent_count res = 3 /\ failed_count res = 0 /\
    skipped_count res = 0 /\ error_summary res = ∅ /\
    recipients_called tr = [1; 2; 3]%Z.
Proof.
  split; [reflexivity|]. split; [reflexivity|]. split; [reflexivity|].
  split; [discriminate|].
  apply (broadcast_all_sent always_sent [1; 2; 3]%Z (text_only "hi") 20 (midnight tt));
    [reflexivity | reflexivity | reflexivity | discriminate].
Defined.

(** C3. A content with neither text nor media: every one of the [N]
    recipients is counted as skipped, none as sent or failed; the trace holds
    no call of the bot and no sleep, and the bot and the clock are as they
    were. *)
Theorem broadcast_empty_content {T : Type} (transport : T -> Call -> Outcome * T)
    (recipients : list Z) (content : MessageContent) (rps : Z) (w : World T) :
  has_text content = false ->
  has_media content = false ->
  rps <> 0%Z ->
  exists res tr,
    send_mass_message transport recipients content rps w = (Ok res, w, tr) /\
    total_recipients res = length recipients /\
    skipped_count res = length recipients /\
    sent_count res = 0 /\
    failed_count res = 0 /\
    calls tr = [] /\
    sleeps tr = [].
Proof.
  intros Ht Hm Hrps. rewrite send_mass_message_run by exact Hrps.
  destruct (for_each_all_skipped transport (length recipients) (1 / inject_Z rps)%Q
              content recipients) with (idx := 1) (l := no_counts) (w := w)
    as (l & -> & Hs & Hf & Hk & He).
  - intros u. apply dispatch_rule_empty; assumption.
  - do 2 eexists. split; [reflexivity|]. cbn in *.
    repeat split; try assumption.
    + unfold calls. rewrite omap_app. cbn. rewrite app_nil_r.
      clear. induction recipients as [|u rest IH]; [reflexivity|exact IH].
    + unfold sleeps. rewrite omap_app. cbn. rewrite app_nil_r.
      clear. induction recipients as [|u rest IH]; [reflexivity|exact IH].
Qed.

Lemma broadcast_empty_content_witness :
  has_text no_content = false /\
  has_media no_content = false /\
  20%Z <> 0%Z /\
  exists res tr,
    send_mass_message always_sent [1; 2]%Z no_content 20 (midnight tt)
      = (Ok res, midnight tt, tr) /\
    total_recipients res = 2 /\ skipped_count res = 2 /\ sent_count res = 0 /\
    failed_count res = 0 /\ calls tr = [] /\ sleeps tr = [].
Proof.
  split; [reflexivity|]. split; [reflexivity|]. split; [discriminate|].
  apply (broadcast_empty_content always_sent [1; 2]%Z no_content 20 (midnight tt));
    [reflexivity | reflexivity | discriminate].
Defined.

(** C4. In any iteration of the loop (any index, counters and world) whose
    first send attempt is answered with RetryAfter([s]): the engine logs,
    sleeps [s] seconds, and makes the same call once more at clock
    [clock w + sleep_time s], with no other sleep before it and none after;
    when that second call is delivered the recipient is counted as sent, when
    it ends in any signal the recipient is counted as failed under the key
    [retry_failed]; no third call is made. *)
Theorem retry_after_retries_once {T : Type} (transport : T -> Call -> Outcome * T)
    (total : nat) (delay : Q) (content : MessageContent) (idx : nat) (user_id : Z)
    (l : Locals) (w : World T) (c : Call) (s : Q) (b1 : T) (o2 : Outcome) (b2 : T) :
  dispatch_rule user_id content = DCall c ->
  transport (bot w) c = (Failed (TelegramRetryAfter s), b1) ->
  transport b1 c = (o2, b2) ->
  success_or_signal o2 = true ->
  exists l',
    loop_body transport total delay content idx user_id l w =
      (Ok l', {| bot := b2; clock := (clock w + sleep_time s)%Q |},
       [EvCall (clock w) c (Failed (TelegramRetryAfter s));
        EvLog (log_retry_after user_id s);
        EvSleep s;
        EvCall (clock w + sleep_time s)%Q c o2] ++
       match o2 with
       | Sent => []
       | Failed e2 => [EvLog (log_retry_error user_id e2)]
       end ++
       progress idx total l') /\
    skipped l' = skipped l /\
    match o2 with
    | Sent => sent l' = sent l + 1 /\ failed l' = failed l /\ errors l' = errors l
    | Failed _ =>
        sent l' = sent l /\ failed l' = failed l + 1 /\
        errors l' = <["retry_failed" := default 0 (errors l !! "retry_failed") + 1]> (errors l)
    end.
Proof.
  intros D E1 E2 Hsig. destruct o2 as [|e2].
  - exists (count_sent l). split; [|cbn; auto].
    apply (loop_body_retry_sent transport _ _ _ _ _ _ _ c s b1 b2); assumption.
  - exists (count_failed "retry_failed" l). split; [|cbn; auto].
    apply (loop_body_retry_failed transport _ _ _ _ _ _ _ c s e2 b1 b2); assumption.
Qed.

Lemma retry_after_retries_once_witness :
  dispatch_rule 1 (text_only "hi") = DCall (send_message 1 "hi" None) /\
  flaky 0 (send_message 1 "hi" None) = (Failed (TelegramRetryAfter 3%Q), 1) /\
  flaky 1 (send_message 1 "hi" None) = (Sent, 2) /\
  success_or_signal Sent = true /\
  exists l',
    loop_body flaky 3 (1 / inject_Z 20)%Q (text_only "hi") 1 1 no_counts (midnight 0) =
      (Ok l', {| bot := 2; clock := (0 + sleep_time 3)%Q |},
       [EvCall 0%Q (send_message 1 "hi" None) (Failed (TelegramRetryAfter 3%Q));
        EvLog (log_retry_after 1 3%Q);
        EvSleep 3%Q;
        EvCall (0 + sleep_time 3)%Q (send_message 1 "hi" None) Sent] ++
       [] ++ progress 1 3 l') /\
    skipped l' = 0 /\
    (sent l' = 0 + 1 /\ failed l' = 0 /\ errors l' = ∅).
Proof.
  split; [reflexivity|]. split; [reflexivity|]. split; [reflexivity|].
  split; [reflexivity|].
  apply (retry_after_retries_once flaky 3 (1 / inject_Z 20)%Q (text_only "hi") 1 1
           no_counts (midnight 0) (send_message 1 "hi" None) 3%Q 1 Sent 2);
    reflexivity.
Defined.

(** C5, as stated, fails for contents that are not empty and that the
    dispatch rule does not send.  The transport refuses recipient 2 and
    delivers to everybody else.  For a text with media of an unsupported
    kind all three recipients are counted as failed, under [unexpected], and
    none as sent; for media without a kind and without text all three are
    counted as skipped, none as failed.  The bot is not called in either
    run. *)
Lemma blocked_recipient_counterexample :
  (has_text sticker = true /\ has_media sticker = true) /\
  (has_text untyped_document = false /\ has_media untyped_document = true) /\
  (forall s c, chat_of c = 2%Z ->
     fst (blocked_by 2 s c) = Failed TelegramForbiddenError) /\
  (forall s c, chat_of c <> 2%Z -> fst (blocked_by 2 s c) = Sent) /\
  count_occ Z.eq_dec [1; 2; 3]%Z 2%Z = 1 /\
  (exists res w' tr,
     send_mass_message (blocked_by 2) [1; 2; 3]%Z sticker 20 (midnight tt)
       = (Ok res, w', tr) /\
     failed_count res = 3 /\ sent_count res = 0 /\
     error_summary res !! "blocked" = None /\ calls tr = []) /\
  (exists res w' tr,
     send_mass_message (blocked_by 2) [1; 2; 3]%Z untyped_document 20 (midnight tt)
       = (Ok res, w', tr) /\
     failed_count res = 0 /\ sent_count res = 0 /\ skipped_count res = 3 /\
     error_summary res !! "blocked" = None /\ calls tr = []).
Proof.
  split; [split; reflexivity|]. split; [split; reflexivity|].
  split; [intros s c H; unfold blocked_by; cbn; rewrite H; reflexivity|].
  split; [intros s c H; unfold blocked_by; cbn; apply Z.eqb_neq in H; rewrite H;
          reflexivity|].
  split; [reflexivity|].
  split; do 3 eexists; vm_compute; repeat split.
Qed.

(** C5, amended. A content the dispatch rule sends (media with one of the
    four supported kinds, or text when no media is attached with a kind), a
    transport that answers Forbidden for recipient [x] and delivers to
    everybody else, [x] once in the list of [N] recipients, [rps] not zero:
    the bot is called exactly once for every recipient, in list order, so
    the refused call is not repeated; one recipient is counted as failed,
    [N - 1] as sent, none as skipped, and the error summary is
    [{"blocked": 1}]. *)
Theorem one_blocked_recipient {T : Type} (transport : T -> Call -> Outcome * T)
    (recipients : list Z) (content : MessageContent) (rps : Z) (w : World T) (x : Z) :
  sends content = true ->
  (forall s c, chat_of c = x -> fst (transport s c) = Failed TelegramForbiddenError) ->
  (forall s c, chat_of c <> x -> fst (transport s c) = Sent) ->
  count_occ Z.eq_dec recipients x = 1 ->
  rps <> 0%Z ->
  exists res w' tr,
    send_mass_message transport recipients content rps w = (Ok res, w', tr) /\
    failed_count res = 1 /\
    error_summary res !! "blocked" = Some 1 /\
    error_summary res = {["blocked" := 1]} /\
    sent_count res = length recipients - 1 /\
    skipped_count res = 0 /\
    recipients_called tr = recipients.
Proof.
  intros Hc Hx Ho Hone Hrps. rewrite send_mass_message_run by exact Hrps.
  destruct (for_each_one_blocked transport (length recipients) (1 / inject_Z rps)%Q
              content x Hc Hx Ho recipients 1 no_counts w)
    as (l & w' & tr & -> & Hs & Hf & Hk & Hb & Hothers & Hcalls).
  rewrite Hone in *. cbn [sent failed skipped errors no_counts] in *.
  rewrite lookup_empty in Hb.
  assert (Hblocked : errors l !! "blocked" = Some 1).
  { destruct (errors l !! "blocked") as [n|]; simpl in Hb; [f_equal; lia|lia]. }
  do 3 eexists. split; [reflexivity|]. cbn [result_of failed_count sent_count
    skipped_count error_summary].
  repeat split; try lia; try assumption.
  - apply map_eq. intros k. destruct (decide (k = "blocked")) as [->|Hk'].
    + rewrite lookup_singleton_eq. exact Hblocked.
    + rewrite lookup_singleton_ne by congruence. rewrite Hothers by exact Hk'.
      apply lookup_empty.
  - unfold recipients_called in *. rewrite calls_log, calls_app. cbn.
    rewrite app_nil_r. exact Hcalls.
Qed.

Lemma one_blocked_recipient_witness :
  sends (text_only "hi") = true /\
  (forall s c, chat_of c = 2%Z ->
     fst (blocked_by 2 s c) = Failed TelegramForbiddenError) /\
  (forall s c, chat_of c <> 2%Z -> fst (blocked_by 2 s c) = Sent) /\
  count_occ Z.eq_dec [1; 2; 3]%Z 2%Z = 1 /\
  20%Z <> 0%Z /\
  exists res w' tr,
    send_mass_message (blocked_by 2) [1; 2; 3]%Z (text_only "hi") 20 (midnight tt)
      = (Ok res, w', tr) /\
    failed_count res = 1 /\
    error_summary res !! "blocked" = Some 1 /\
    error_summary res = {["blocked" := 1]} /\
    sent_count res = 3 - 1 /\
    skipped_count res = 0 /\
    recipients_called tr = [1; 2; 3]%Z.
Proof.
  assert (Hx : forall s c, chat_of c = 2%Z ->
                 fst (blocked_by 2 s c) = Failed TelegramForbiddenError).
  { intros s c H. unfold blocked_by. cbn. rewrite H. reflexivity. }
  assert (Ho : forall s c, chat_of c <> 2%Z -> fst (blocked_by 2 s c) = Sent).
  { intros s c H. unfold blocked_by. cbn. apply Z.eqb_neq in H. rewrite H. reflexivity. }
  split; [reflexivity|]. split; [exact Hx|]. split; [exact Ho|].
  split; [reflexivity|]. split; [discriminate|].
  apply (one_blocked_recipient (blocked_by 2) [1; 2; 3]%Z (text_only "hi") 20
           (midnight tt) 2%Z);
    [reflexivity | exact Hx | exact Ho | reflexivity | discriminate].
Defined.

(** C6, as stated, fails: with a media kind that is not supported the
    broadcast raises nothing to its caller; it returns a result in which both
    recipients are counted as failed under the key [unexpected]. *)
Lemma unsupported_kind_counterexample :
  unsupported_media sticker = true /\
  (forall e w' tr,
     send_mass_message always_sent [1; 2]%Z sticker 20 (midnight tt) <> (Raise e, w', tr)) /\
  exists res w' tr,
    send_mass_message always_sent [1; 2]%Z sticker 20 (midnight tt) = (Ok res, w', tr) /\
    failed_count res = 2 /\
    error_summary res !! "unexpected" = Some 2.
Proof.
  split; [reflexivity|]. split.
  - intros e w' tr. vm_compute. discriminate.
  - do 3 eexists. vm_compute. repeat split.
Qed.

(** C6, amended. For a content whose media is attached with a kind that is
    none of photo, video, animation, document (and [rps] not zero):
    [_send_media_message] raises [ValueError] for every recipient before any
    call of the bot, the loop catches it as an unexpected error, and the
    broadcast returns a result with all [N] recipients counted as failed
    under the key [unexpected], none sent, none skipped; the bot is never
    called, nothing sleeps, and the world is unchanged. *)
Theorem unsupported_kind_counted_as_failed {T : Type}
    (transport : T -> Call -> Outcome * T)
    (recipients : list Z) (content : MessageContent) (rps : Z) (w : World T) :
  unsupported_media content = true ->
  rps <> 0%Z ->
  exists res tr,
    send_mass_message transport recipients content rps w = (Ok res, w, tr) /\
    total_recipients res = length recipients /\
    failed_count res = length recipients /\
    sent_count res = 0 /\
    skipped_count res = 0 /\
    default 0 (error_summary res !! "unexpected") = length recipients /\
    (forall k, k <> "unexpected" -> error_summary res !! k = None) /\
    calls tr = [] /\
    sleeps tr = [] /\
    (forall u, u ∈ recipients ->
       EvLog (log_unexpected u (ValueError (unsupported_message content))) ∈ tr).
Proof.
  intros Hun Hrps. rewrite send_mass_message_run by exact Hrps.
  destruct (for_each_unsupported transport (length recipients) (1 / inject_Z rps)%Q
              content Hun recipients 1 no_counts w)
    as (l & tr & -> & Hs & Hf & Hk & Hu & Ho & Hcalls & Hsleeps & Hlog).
  do 2 eexists. split; [reflexivity|].
  cbn [result_of total_recipients failed_count sent_count skipped_count error_summary
       sent failed skipped errors no_counts] in *.
  rewrite lookup_empty in Hu. simpl in Hu.
  repeat split; try assumption.
  - rewrite calls_log, calls_app, Hcalls. reflexivity.
  - change (sleeps (EvLog ?r :: ?t)) with (sleeps t).
    rewrite sleeps_app, Hsleeps. reflexivity.
  - intros u Hu'. apply elem_of_cons. right. apply elem_of_app. left.
    apply Hlog, Hu'.
Qed.

Lemma unsupported_kind_counted_as_failed_witness :
  unsupported_media sticker = true /\
  20%Z <> 0%Z /\
  exists res tr,
    send_mass_message always_sent [1; 2]%Z sticker 20 (midnight tt)
      = (Ok res, midnight tt, tr) /\
    total_recipients res = 2 /\
    failed_count res = 2 /\
    sent_count res = 0 /\
    skipped_count res = 0 /\
    default 0 (error_summary res !! "unexpected") = 2 /\
    (forall k, k <> "unexpected" -> error_summary res !! k = None) /\
    calls tr = [] /\
    sleeps tr = [] /\
    (forall u, u ∈ [1; 2]%Z ->
       EvLog (log_unexpected u (ValueError (unsupported_message sticker))) ∈ tr).
Proof.
  split; [reflexivity|]. split; [discriminate|].
  apply (unsupported_kind_counted_as_failed always_sent [1; 2]%Z sticker 20 (midnight tt));
    [reflexivity | discriminate].
Defined.

(** C7, as stated, fails: with the default limits (20 per second, burst 5)
    and a sixth recipient who has blocked the bot, the seventh dispatch is
    made at the very clock reading of the sixth: no wait separates them. *)
Lemma rate_limit_counterexample :
  let R := broadcast_rps default_rate_limits in
  let B := Z.to_nat (burst default_rate_limits) in
  let tr := snd (send_mass_message (blocked_by 6) [1; 2; 3; 4; 5; 6; 7]%Z
                   (text_only "hi") R (midnight tt)) in
  (forall s c, success_or_signal (fst (blocked_by 6 s c)) = true) /\
  (exists a6 a7,
     attempts false tr !! 5 = Some a6 /\ attempts false tr !! 6 = Some a7 /\
     outcome a6 = Failed TelegramForbiddenError /\
     at_time a7 = at_time a6) /\
  ~ rate_limited R B (attempts false tr).
Proof.
  intros R B tr. split; [|split].
  - intros s c. unfold blocked_by. cbn. destruct (chat_of c =? 6)%Z; reflexivity.
  - do 2 eexists. vm_compute. repeat split.
  - intros H.
    destruct (attempts false tr !! 5) as [a6|] eqn:E6; [|vm_compute in E6; discriminate].
    destruct (attempts false tr !! 6) as [a7|] eqn:E7; [|vm_compute in E7; discriminate].
    assert (HB : B <= 6) by (vm_compute; lia).
    specialize (H 5 a6 a7 HB E6 E7).
    vm_compute in E6, E7. injection E6 as <-. injection E7 as <-.
    apply Qle_bool_iff in H. vm_compute in H. discriminate.
Qed.

(** C7, amended. For a transport of successes and signals and [rps > 0]: the
    first dispatch of a run is made at the clock reading the run started
    with, so no wait comes before it; and whenever a dispatch that is not a
    retry is delivered, the dispatch after it is at least [1 / rps] later.
    This holds from the first dispatch on: no burst is let through. *)
Theorem pacing_after_delivery {T : Type} (transport : T -> Call -> Outcome * T)
    (recipients : list Z) (content : MessageContent) (rps : Z) (w : World T) :
  (forall s c, success_or_signal (fst (transport s c)) = true) ->
  (0 < rps)%Z ->
  exists res w' tr,
    send_mass_message transport recipients content rps w = (Ok res, w', tr) /\
    (forall a, head (attempts false tr) = Some a -> at_time a = clock w) /\
    (forall (i : nat) (a1 a2 : Attempt),
       attempts false tr !! i = Some a1 -> attempts false tr !! S i = Some a2 ->
       is_retry a1 = false -> outcome a1 = Sent ->
       (at_time a1 + 1 / inject_Z rps <= at_time a2)%Q).
Proof.
  intros Hsig Hrps. rewrite send_mass_message_run by lia.
  destruct (for_each_paced transport (length recipients) (1 / inject_Z rps)%Q content
              Hsig (delay_pos rps Hrps) recipients 1 no_counts w eq_refl)
    as (l & w' & tr & -> & Hsp & _ & Hhd).
  do 3 eexists. split; [reflexivity|].
  cbn [attempts]. rewrite attempts_finished.
  split; [exact Hhd|]. apply spaced_lookup, Hsp.
Qed.

Lemma pacing_after_delivery_witness :
  (forall s c, success_or_signal (fst (blocked_by 2 s c)) = true) /\
  (0 < 20)%Z /\
  exists res w' tr,
    send_mass_message (blocked_by 2) [1; 2; 3]%Z (text_only "hi") 20 (midnight tt)
      = (Ok res, w', tr) /\
    (forall a, head (attempts false tr) = Some a -> at_time a = clock (midnight tt)) /\
    (forall (i : nat) (a1 a2 : Attempt),
       attempts false tr !! i = Some a1 -> attempts false tr !! S i = Some a2 ->
       is_retry a1 = false -> outcome a1 = Sent ->
       (at_time a1 + 1 / inject_Z 20 <= at_time a2)%Q).
Proof.
  assert (H : forall s c, success_or_signal (fst (blocked_by 2 s c)) = true).
  { intros s c. unfold blocked_by. cbn. destruct (chat_of c =? 2)%Z; reflexivity. }
  split; [exact H|]. split; [reflexivity|].
  apply (pacing_after_delivery (blocked_by 2) [1; 2; 3]%Z (text_only "hi") 20
           (midnight tt) H).
  reflexivity.
Defined.

(** C8, as stated, fails on the retry: an API error raised by the second
    attempt is recorded under [retry_failed], not under [api_error_400]. *)
Lemma api_error_on_retry_counterexample :
  exists res w' tr,
    send_mass_message throttled_then_400 [7]%Z (text_only "hi") 20 (midnight 0)
      = (Ok res, w', tr) /\
    map snd (calls tr) =
      [Failed (TelegramRetryAfter 1%Q); Failed (TelegramAPIError (Some 400%Z))] /\
    failed_count res = 1 /\
    error_summary res !! api_error_key (Some 400%Z) = None /\
    error_summary res !! "retry_failed" = Some 1.
Proof. do 3 eexists. vm_compute. repeat split. Qed.

(** C8, amended. In any iteration whose first send attempt is answered with
    an API error: the recipient is counted as failed, no second call is made,
    and the key is [api_error_<code>] when the error carries a code and
    [api_error] when it does not. *)
Theorem api_error_not_retried {T : Type} (transport : T -> Call -> Outcome * T)
    (total : nat) (delay : Q) (content : MessageContent) (idx : nat) (user_id : Z)
    (l : Locals) (w : World T) (c : Call) (error_code : option Z) (b : T) :
  dispatch_rule user_id content = DCall c ->
  transport (bot w) c = (Failed (TelegramAPIError error_code), b) ->
  let key := match error_code with
             | Some code => "api_error_" +:+ pretty code
             | None => "api_error"
             end in
  exists l',
    loop_body transport total delay content idx user_id l w =
      (Ok l', {| bot := b; clock := clock w |},
       [EvCall (clock w) c (Failed (TelegramAPIError error_code));
        EvLog (log_api_error user_id (TelegramAPIError error_code))] ++
       progress idx total l') /\
    sent l' = sent l /\ failed l' = failed l + 1 /\ skipped l' = skipped l /\
    errors l' = <[key := default 0 (errors l !! key) + 1]> (errors l).
Proof.
  intros D E key. exists (count_failed (api_error_key error_code) l).
  split; [|cbn; auto].
  apply (loop_body_failed transport _ _ _ _ _ _ _ c (TelegramAPIError error_code) b);
    auto.
Qed.

Lemma api_error_not_retried_witness :
  dispatch_rule 7 (text_only "hi") = DCall (send_message 7 "hi" None) /\
  throttled_then_400 1 (send_message 7 "hi" None)
    = (Failed (TelegramAPIError (Some 400%Z)), 2) /\
  exists l',
    loop_body throttled_then_400 1 (1 / inject_Z 20)%Q (text_only "hi") 1 7 no_counts
        (midnight 1) =
      (Ok l', {| bot := 2; clock := 0%Q |},
       [EvCall 0%Q (send_message 7 "hi" None) (Failed (TelegramAPIError (Some 400%Z)));
        EvLog (log_api_error 7 (TelegramAPIError (Some 400%Z)))] ++
       progress 1 1 l') /\
    sent l' = 0 /\ failed l' = 0 + 1 /\ skipped l' = 0 /\
    errors l' = <["api_error_" +:+ pretty 400%Z :=
                    default 0 (errors no_counts !! ("api_error_" +:+ pretty 400%Z)) + 1]>
                (errors no_counts).
Proof.
  split; [reflexivity|]. split; [reflexivity|].
  apply (api_error_not_retried throttled_then_400 1 (1 / inject_Z 20)%Q (text_only "hi")
           1 7 no_counts (midnight 1) (send_message 7 "hi" None) (Some 400%Z) 2);
    reflexivity.
Defined.

(** C9. [send_to_channel] with a transport that answers with success or a
    signal: it returns a boolean and raises nothing; it never sleeps and the
    clock stays where it was; the calls it makes are the first call the
    broadcast would make for the same id, content and world, and never a
    second one, so RetryAfter is not retried; it returns [True] exactly when
    that one call was delivered; whenever it returns [False] its last act is
    a log record of level ERROR; for a content with neither text nor media
    it returns [False] with no call and the record of the empty content. *)
Theorem send_to_channel_contract {T : Type} (transport : T -> Call -> Outcome * T)
    (channel_id : Z) (content : MessageContent) (w : World T) :
  (forall s c, success_or_signal (fst (transport s c)) = true) ->
  exists ok w' tr,
    send_to_channel transport channel_id content w = (Ok ok, w', tr) /\
    sleeps tr = [] /\
    clock w' = clock w /\
    (forall total delay idx l,
       calls tr =
       take 1 (calls (snd (loop_body transport total delay content idx channel_id l w)))) /\
    (ok = true <-> map snd (calls tr) = [Sent]) /\
    (ok = false -> exists r, last tr = Some (EvLog r) /\ level r = ERROR) /\
    (has_text content = false -> has_media content = false ->
     ok = false /\ w' = w /\ tr = [EvLog log_channel_empty]).
Proof.
  intros Hsig.
  assert (Hbroadcast : forall total delay idx l,
            calls (snd (loop_body transport total delay content idx channel_id l w)) =
            iteration_calls transport channel_id content w).
  { intros total delay idx l.
    destruct (loop_body_iteration transport Hsig total delay content idx channel_id l w)
      as (l' & w' & tr & -> & It).
    apply (Iteration_calls transport _ _ _ _ _ _ _ _ _ _ It). }
  assert (Hempty : forall d, dispatch_rule channel_id content = d -> d <> DSkip ->
            has_text content = false -> has_media content = false -> False).
  { intros d D Hd Ht Hm. rewrite (dispatch_rule_empty channel_id content Ht Hm) in D.
    congruence. }
  rewrite send_to_channel_run. unfold iteration_calls in Hbroadcast.
  destruct (dispatch_rule channel_id content) as [c|e|] eqn:D.
  - pose proof (Hsig (bot w) c) as Ho.
    destruct (transport (bot w) c) as [[|e] b] eqn:E; cbn in Ho.
    + do 3 eexists. split; [reflexivity|].
      split; [reflexivity|]. split; [reflexivity|].
      split; [intros; rewrite Hbroadcast; reflexivity|].
      split; [split; reflexivity|].
      split; [discriminate|].
      intros Ht Hm. exfalso. apply (Hempty _ eq_refl); [discriminate|assumption..].
    + rewrite Ho. do 3 eexists. split; [reflexivity|].
      split; [reflexivity|]. split; [reflexivity|].
      split; [intros; rewrite Hbroadcast; destruct e; reflexivity|].
      split; [split; discriminate|].
      split; [intros _; eexists; split; reflexivity|].
      intros Ht Hm. exfalso. apply (Hempty _ eq_refl); [discriminate|assumption..].
  - do 3 eexists. split; [reflexivity|].
    split; [reflexivity|]. split; [reflexivity|].
    split; [intros; rewrite Hbroadcast; reflexivity|].
    split; [split; discriminate|].
    split; [intros _; eexists; split; reflexivity|].
    intros Ht Hm. exfalso. apply (Hempty _ eq_refl); [discriminate|assumption..].
  - do 3 eexists. split; [reflexivity|].
    split; [reflexivity|]. split; [reflexivity|].
    split; [intros; rewrite Hbroadcast; reflexivity|].
    split; [split; discriminate|].
    split; [intros _; eexists; split; reflexivity|].
    intros _ _. repeat split.
Qed.

Lemma send_to_channel_contract_witness :
  (forall s c, success_or_signal (fst (flaky s c)) = true) /\
  exists ok w' tr,
    send_to_channel flaky (-1001234567890) (text_only "hi") (midnight 0) = (Ok ok, w', tr) /\
    sleeps tr = [] /\
    clock w' = clock (midnight 0) /\
    (forall total delay idx l,
       calls tr =
       take 1 (calls (snd (loop_body flaky total delay (text_only "hi") idx
                             (-1001234567890) l (midnight 0))))) /\
    (ok = true <-> map snd (calls tr) = [Sent]) /\
    (ok = false -> exists r, last tr = Some (EvLog r) /\ level r = ERROR) /\
    (has_text (text_only "hi") = false -> has_media (text_only "hi") = false ->
     ok = false /\ w' = midnight 0 /\ tr = [EvLog log_channel_empty]).
Proof.
  assert (H : forall s c, success_or_signal (fst (flaky s c)) = true).
  { intros s c. unfold flaky. cbn.
    destruct (s =? 0)%nat; [reflexivity|]. destruct (chat_of c =? 2)%Z; reflexivity. }
  split; [exact H|].
  apply (send_to_channel_contract flaky (-1001234567890) (text_only "hi") (midnight 0) H).
Defined.

(** C10. A content whose media kind is absent ([None] or empty), whatever
    its media file id: the broadcast runs exactly as it does for the same
    content with the media taken away; every call it makes is [send_message]
    of the text to one of the recipients, so no media is ever dispatched;
    when the text is present, every run that returns a result has made its
    first attempts to the recipients in list order, one per entry, each of
    them [send_message] of the text with the markup, and has skipped nobody;
    when the text is absent too, all [N] recipients are counted as skipped
    and the bot is never called; and with a transport of successes and
    signals the broadcast returns a result, no [ValueError] for the missing
    kind reaching the caller, and when the text is present that run has
    sent it to every recipient as said. *)
Theorem media_without_kind_ignored {T : Type} (transport : T -> Call -> Outcome * T)
    (recipients : list Z) (content : MessageContent) (rps : Z) (w : World T) :
  has_kind content = false ->
  rps <> 0%Z ->
  send_mass_message transport recipients content rps w =
    send_mass_message transport recipients (without_media content) rps w /\
  Forall (fun x => exists u, u ∈ recipients /\
            snd (fst x) = send_message u (default "" (text content)) (reply_markup content))
    (calls (snd (send_mass_message transport recipients content rps w))) /\
  (has_text content = true ->
   forall res w' tr,
     send_mass_message transport recipients content rps w = (Ok res, w', tr) ->
     first_attempt_calls tr =
       map (fun u => send_message u (default "" (text content)) (reply_markup content))
         recipients /\
     skipped_count res = 0) /\
  (has_text content = false ->
   exists res tr,
     send_mass_message transport recipients content rps w = (Ok res, w, tr) /\
     skipped_count res = length recipients /\ sent_count res = 0 /\
     failed_count res = 0 /\ calls tr = []) /\
  ((forall s c, success_or_signal (fst (transport s c)) = true) ->
   exists res w' tr,
     send_mass_message transport recipients content rps w = (Ok res, w', tr) /\
     (has_text content = true ->
      first_attempt_calls tr =
        map (fun u => send_message u (default "" (text content)) (reply_markup content))
          recipients)).
Proof.
  intros Hk Hrps.
  assert (Hfirst : has_text content = true ->
            forall res w' tr,
              send_mass_message transport recipients content rps w = (Ok res, w', tr) ->
              first_attempt_calls tr =
                map (fun u => send_message u (default "" (text content))
                                (reply_markup content)) recipients /\
              skipped_count res = 0).
  { intros Ht res w' tr E.
    apply send_mass_message_Ok_inv in E as (_ & l & tr0 & E & -> & ->).
    split.
    - unfold first_attempt_calls. cbn [attempts]. rewrite attempts_finished.
      apply (for_each_first_calls transport (length recipients) (1 / inject_Z rps)%Q
               content
               (fun u => send_message u (default "" (text content)) (reply_markup content))
               recipients) with (idx := 1) (l := no_counts) (w := w) (l' := l) (w' := w').
      + intros u. rewrite (dispatch_rule_no_kind u content Hk), Ht. reflexivity.
      + exact E.
    - apply for_each_skips in E as (Hsk & _).
      cbn [result_of skipped_count no_counts skipped] in *. rewrite Hsk.
      unfold nothing_to_send. rewrite Ht, andb_false_r. reflexivity. }
  split; [apply send_mass_message_no_kind, Hk|]. split; [|split; [exact Hfirst|split]].
  - rewrite send_mass_message_calls by exact Hrps.
    apply (for_each_calls transport (length recipients) (1 / inject_Z rps)%Q content
             (fun u c => c = send_message u (default "" (text content))
                               (reply_markup content))).
    intros u c D. rewrite (dispatch_rule_no_kind u content Hk) in D.
    destruct (has_text content); congruence.
  - intros Ht. rewrite send_mass_message_run by exact Hrps.
    destruct (for_each_all_skipped transport (length recipients) (1 / inject_Z rps)%Q
                content recipients) with (idx := 1) (l := no_counts) (w := w)
      as (l & -> & Hs & Hf & Hsk & He).
    + intros u. rewrite (dispatch_rule_no_kind u content Hk), Ht. reflexivity.
    + do 2 eexists. split; [reflexivity|]. cbn [result_of skipped_count sent_count
        failed_count]. cbn in Hs, Hf, Hsk. repeat split; try assumption.
      rewrite calls_log, calls_app. cbn. rewrite app_nil_r.
      clear. induction recipients as [|u rest IH]; [reflexivity|exact IH].
  - intros Hsig.
    assert (Hret : exists res w' tr,
              send_mass_message transport recipients content rps w = (Ok res, w', tr)).
    { rewrite send_mass_message_run by exact Hrps.
      destruct (for_each_returns transport Hsig (length recipients) (1 / inject_Z rps)%Q
                  content recipients 1 no_counts w) as (l & w' & tr & -> & _).
      do 3 eexists. reflexivity. }
    destruct Hret as (res & w' & tr & E). exists res, w', tr. split; [exact E|].
    intros Ht. exact (proj1 (Hfirst Ht res w' tr E)).
Qed.

Lemma media_without_kind_ignored_witness :
  has_kind untyped_photo = false /\
  20%Z <> 0%Z /\
  send_mass_message flaky [1; 2; 3]%Z untyped_photo 20 (midnight 0) =
    send_mass_message flaky [1; 2; 3]%Z (without_media untyped_photo) 20 (midnight 0) /\
  Forall (fun x => exists u, u ∈ [1; 2; 3]%Z /\
            snd (fst x) =
            send_message u (default "" (text untyped_photo)) (reply_markup untyped_photo))
    (calls (snd (send_mass_message flaky [1; 2; 3]%Z untyped_photo 20 (midnight 0)))) /\
  (has_text untyped_photo = true ->
   forall res w' tr,
     send_mass_message flaky [1; 2; 3]%Z untyped_photo 20 (midnight 0) = (Ok res, w', tr) ->
     first_attempt_calls tr =
       map (fun u => send_message u (default "" (text untyped_photo))
                       (reply_markup untyped_photo)) [1; 2; 3]%Z /\
     skipped_count res = 0) /\
  (has_text untyped_photo = false ->
   exists res tr,
     send_mass_message flaky [1; 2; 3]%Z untyped_photo 20 (midnight 0)
       = (Ok res, midnight 0, tr) /\
     skipped_count res = 3 /\ sent_count res = 0 /\
     failed_count res = 0 /\ calls tr = []) /\
  ((forall s c, success_or_signal (fst (flaky s c)) = true) ->
   exists res w' tr,
     send_mass_message flaky [1; 2; 3]%Z untyped_photo 20 (midnight 0) = (Ok res, w', tr) /\
     (has_text untyped_photo = true ->
      first_attempt_calls tr =
        map (fun u => send_message u (default "" (text untyped_photo))
                        (reply_markup untyped_photo)) [1; 2; 3]%Z)).
Proof.
  split; [reflexivity|]. split; [discriminate|].
  apply (media_without_kind_ignored flaky [1; 2; 3]%Z untyped_photo 20 (midnight 0));
    [reflexivity | discriminate].
Defined.

(** * Further verified properties *)

(** X1. Whenever [send_mass_message] returns a result, whatever the
    transport did, the counts of its error summary add up to
    [failed_count]: every failure is recorded under exactly one key. *)
Theorem error_summary_adds_up {T : Type} (transport : T -> Call -> Outcome * T)
    (recipients : list Z) (content : MessageContent) (rps : Z) (w : World T)
    (res : MailingResult) (w' : World T) (tr : list Event) :
  send_mass_message transport recipients content rps w = (Ok res, w', tr) ->
  total_errors (error_summary res) = failed_count res.
Proof.
  intros E. apply send_mass_message_Ok_inv in E as (_ & l & tr0 & E & -> & _).
  apply for_each_counts in E as (H & _).
  cbn [result_of error_summary failed_count no_counts errors failed] in *.
  rewrite total_errors_empty in H. lia.
Qed.

Lemma error_summary_adds_up_witness :
  exists res w' tr,
    send_mass_message throttled_then_400 [7; 8; 9]%Z (text_only "hi") 20 (midnight 0)
      = (Ok res, w', tr) /\
    total_errors (error_summary res) = failed_count res.
Proof.
  destruct (send_mass_message throttled_then_400 [7; 8; 9]%Z (text_only "hi") 20
              (midnight 0)) as [[[res|e] w'] tr] eqn:E; [|vm_compute in E; discriminate].
  exists res, w', tr. split; [reflexivity|].
  exact (error_summary_adds_up throttled_then_400 [7; 8; 9]%Z (text_only "hi") 20
           (midnight 0) res w' tr E).
Defined.

(** X2. A call of the bot that raises something that is no [Exception]
    (the task is cancelled while it awaits the call) is caught by no
    [except] clause, at the first attempt or at the retry:
    [send_mass_message] raises that exception and returns no result, the
    call is the last event of the trace, so nothing is logged, slept or sent
    after it, no call before it was cancelled, and the first attempts made
    are those to the recipients up to and including that one, in list
    order; whoever is listed after it is never contacted. *)
Theorem cancelled_call_ends_broadcast {T : Type} (transport : T -> Call -> Outcome * T)
    (recipients : list Z) (content : MessageContent) (rps : Z) (w : World T)
    (r : Res MailingResult) (w' : World T) (tr1 tr2 : list Event)
    (t : Q) (c : Call) (e : Exn) :
  send_mass_message transport recipients content rps w =
    (r, w', tr1 ++ EvCall t c (Failed e) :: tr2) ->
  is_Exception e = false ->
  r = Raise e /\
  tr2 = [] /\
  Forall (fun ev => is_cancelled_call ev = false) tr1 /\
  exists pre post,
    recipients = pre ++ chat_of c :: post /\
    first_attempt_chats (tr1 ++ [EvCall t c (Failed e)]) = pre ++ [chat_of c].
Proof.
  intros E He.
  assert (Hc : is_cancelled_call (EvCall t c (Failed e)) <> false).
  { cbn. rewrite He. discriminate. }
  destruct r as [res|e'].
  - exfalso. apply send_mass_message_Ok_inv in E as (_ & l & tr0 & E & _ & Htr).
    apply for_each_not_cancelled in E.
    assert (Hall : Forall (fun ev => is_cancelled_call ev = false)
                     (tr1 ++ EvCall t c (Failed e) :: tr2)).
    { rewrite Htr. constructor; [reflexivity|].
      apply Forall_app. split; [exact E|]. repeat constructor. }
    apply Forall_app in Hall as (_ & Hall).
    apply Forall_cons in Hall as (Hall & _). contradiction.
  - apply send_mass_message_Raise_inv in E as [(_ & _ & _ & Htr)|(_ & tr0 & E & Htr)].
    { destruct tr1; discriminate. }
    apply for_each_stops in E
      as (_ & _ & pre & post & tr3 & t' & c' & Hrec & Hfirst & -> & Hall).
    assert (Hall' : Forall (fun ev => is_cancelled_call ev = false)
                      (EvLog (log_start (length recipients) rps) :: tr3)).
    { constructor; [reflexivity|exact Hall]. }
    symmetry in Htr.
    change (EvLog ?x :: tr3 ++ ?y) with ((EvLog x :: tr3) ++ y) in Htr.
    destruct (last_event_unique _ _ _ _ _ _ Hall' Hc Htr) as (-> & [= -> -> ->] & ->).
    split; [reflexivity|]. split; [reflexivity|]. split; [exact Hall'|].
    exists pre, post. split; [exact Hrec|]. exact Hfirst.
Qed.

Lemma cancelled_call_ends_broadcast_witness :
  exists r w' tr2,
    send_mass_message (cancelled_at 1) [1; 2; 3]%Z (text_only "hi") 20 (midnight 0) =
      (r, w',
       [EvLog (log_start 3 20);
        EvCall 0%Q (send_message 1 "hi" None) Sent;
        EvSleep (1 # 20)%Q] ++
       EvCall (0 + sleep_time (1 # 20))%Q (send_message 2 "hi" None)
         (Failed CancelledError) :: tr2) /\
    is_Exception CancelledError = false /\
    r = Raise CancelledError /\
    tr2 = [] /\
    Forall (fun ev => is_cancelled_call ev = false)
      [EvLog (log_start 3 20);
       EvCall 0%Q (send_message 1 "hi" None) Sent;
       EvSleep (1 # 20)%Q] /\
    exists pre post,
      [1; 2; 3]%Z = pre ++ chat_of (send_message 2 "hi" None) :: post /\
      first_attempt_chats
        ([EvLog (log_start 3 20);
          EvCall 0%Q (send_message 1 "hi" None) Sent;
          EvSleep (1 # 20)%Q] ++
         [EvCall (0 + sleep_time (1 # 20))%Q (send_message 2 "hi" None)
            (Failed CancelledError)]) =
      pre ++ [chat_of (send_message 2 "hi" None)].
Proof.
  exists (Raise CancelledError), {| bot := 2; clock := (0 + sleep_time (1 # 20))%Q |}, [].
  split; [exact run_cancelled|]. split; [reflexivity|].
  exact (cancelled_call_ends_broadcast (cancelled_at 1) [1; 2; 3]%Z (text_only "hi") 20
           (midnight 0) (Raise CancelledError)
           {| bot := 2; clock := (0 + sleep_time (1 # 20))%Q |}
           [EvLog (log_start 3 20);
            EvCall 0%Q (send_message 1 "hi" None) Sent;
            EvSleep (1 # 20)%Q]
           []
           (0 + sleep_time (1 # 20))%Q (send_message 2 "hi" None) CancelledError
           run_cancelled eq_refl).
Defined.

(** X3. Whatever the transport answers and however the run ends, the bot is
    called at most twice per recipient: a RetryAfter is retried once and
    never again, and [max_retries] plays no part. *)
Theorem at_most_two_calls_per_recipient {T : Type} (transport : T -> Call -> Outcome * T)
    (recipients : list Z) (content : MessageContent) (rps : Z) (w : World T) :
  length (calls (snd (send_mass_message transport recipients content rps w))) <=
  2 * length recipients.
Proof.
  destruct (Z.eq_dec rps 0) as [->|Hrps].
  - rewrite send_mass_message_zero_rps. cbn. lia.
  - rewrite send_mass_message_calls by exact Hrps. apply for_each_calls_bound.
Qed.

(** X4. Whenever [send_mass_message] returns a result, [sent_count] is the
    number of calls of the bot that were delivered: a recipient is counted
    as sent exactly when its first call, or its retry, went through. *)
Theorem sent_count_is_deliveries {T : Type} (transport : T -> Call -> Outcome * T)
    (recipients : list Z) (content : MessageContent) (rps : Z) (w : World T)
    (res : MailingResult) (w' : World T) (tr : list Event) :
  send_mass_message transport recipients content rps w = (Ok res, w', tr) ->
  sent_count res = delivered tr.
Proof.
  intros E. apply send_mass_message_Ok_inv in E as (_ & l & tr0 & E & -> & ->).
  apply for_each_counts in E as (_ & H).
  cbn [result_of sent_count no_counts sent] in *.
  change (EvLog ?r :: ?t) with ([EvLog r] ++ t). rewrite !delivered_app. cbn. lia.
Qed.

Lemma sent_count_is_deliveries_witness :
  exists res w' tr,
    send_mass_message flaky [1; 2; 3]%Z (text_only "hi") 20 (midnight 0) = (Ok res, w', tr) /\
    sent_count res = delivered tr.
Proof.
  destruct (send_mass_message flaky [1; 2; 3]%Z (text_only "hi") 20 (midnight 0))
    as [[[res|e] w'] tr] eqn:E; [|vm_compute in E; discriminate].
  exists res, w', tr. split; [reflexivity|].
  exact (sent_count_is_deliveries flaky [1; 2; 3]%Z (text_only "hi") 20 (midnight 0)
           res w' tr E).
Defined.

(** X5. Whenever [send_mass_message] returns a result for a content the
    dispatch rule sends, the first attempts it made are to the recipients in
    list order, one for each entry of the list: nobody is left out or
    reordered, and an id listed twice is sent to twice. *)
Theorem recipients_attempted_in_order {T : Type} (transport : T -> Call -> Outcome * T)
    (recipients : list Z) (content : MessageContent) (rps : Z) (w : World T)
    (res : MailingResult) (w' : World T) (tr : list Event) :
  sends content = true ->
  send_mass_message transport recipients content rps w = (Ok res, w', tr) ->
  first_attempt_chats tr = recipients.
Proof.
  intros Hs E. apply send_mass_message_Ok_inv in E as (_ & l & tr0 & E & _ & ->).
  apply for_each_order in E.
  unfold first_attempt_chats in *. cbn [attempts]. rewrite attempts_finished, E.
  unfold nothing_to_send, sends in *. rewrite Hs.
  destruct (has_media content && has_kind content); [reflexivity|].
  rewrite Hs. reflexivity.
Qed.

Lemma recipients_attempted_in_order_witness :
  sends (text_only "hi") = true /\
  exists res w' tr,
    send_mass_message flaky [1; 2; 2; 3]%Z (text_only "hi") 20 (midnight 0)
      = (Ok res, w', tr) /\
    first_attempt_chats tr = [1; 2; 2; 3]%Z.
Proof.
  split; [reflexivity|].
  destruct (send_mass_message flaky [1; 2; 2; 3]%Z (text_only "hi") 20 (midnight 0))
    as [[[res|e] w'] tr] eqn:E; [|vm_compute in E; discriminate].
  exists res, w', tr. split; [reflexivity|].
  exact (recipients_attempted_in_order flaky [1; 2; 2; 3]%Z (text_only "hi") 20
           (midnight 0) res w' tr eq_refl E).
Defined.

(** X6. When every call is delivered, a broadcast of a content the dispatch
    rule sends sleeps exactly [N - 1] times for its [N] recipients,
    [1 / rps] seconds each: once after every send but the last
    ([idx < len(recipients)]), never for an empty list.  For any other
    content (nothing to send, or media of a kind that is not supported) it
    never sleeps. *)
Theorem one_pause_between_sends {T : Type} (transport : T -> Call -> Outcome * T)
    (recipients : list Z) (content : MessageContent) (rps : Z) (w : World T) :
  (forall s c, fst (transport s c) = Sent) ->
  rps <> 0%Z ->
  exists res w' tr,
    send_mass_message transport recipients content rps w = (Ok res, w', tr) /\
    sleeps tr =
      if sends content then replicate (length recipients - 1) (1 / inject_Z rps)%Q
      else [].
Proof.
  intros Hsent Hrps. rewrite send_mass_message_run by exact Hrps.
  destruct (sends content) eqn:Hs.
  - destruct (for_each_pauses transport (length recipients) (1 / inject_Z rps)%Q content
                recipients Hs Hsent 1 no_counts w eq_refl) as (l & w' & tr & -> & Hsl).
    do 3 eexists. split; [reflexivity|].
    change (EvLog ?r :: ?t) with ([EvLog r] ++ t).
    rewrite !sleeps_app, Hsl. cbn. apply app_nil_r.
  - destruct (sends_or_not content Hs) as [D|Hun].
    + destruct (for_each_all_skipped transport (length recipients) (1 / inject_Z rps)%Q
                  content recipients D 1 no_counts w) as (l & -> & _).
      do 3 eexists. split; [reflexivity|].
      change (EvLog ?r :: ?t) with ([EvLog r] ++ t).
      rewrite !sleeps_app, sleeps_skips. reflexivity.
    + destruct (for_each_unsupported transport (length recipients) (1 / inject_Z rps)%Q
                  content Hun recipients 1 no_counts w)
        as (l & tr & -> & _ & _ & _ & _ & _ & _ & Hsl & _).
      do 3 eexists. split; [reflexivity|].
      change (EvLog ?r :: ?t) with ([EvLog r] ++ t).
      rewrite !sleeps_app, Hsl. reflexivity.
Qed.

Lemma one_pause_between_sends_witness :
  (forall s c, fst (always_sent s c) = Sent) /\
  20%Z <> 0%Z /\
  exists res w' tr,
    send_mass_message always_sent [1; 2; 3]%Z (text_only "hi") 20 (midnight tt)
      = (Ok res, w', tr) /\
    sleeps tr =
      if sends (text_only "hi") then replicate (3 - 1) (1 / inject_Z 20)%Q else [].
Proof.
  split; [reflexivity|]. split; [discriminate|].
  apply (one_pause_between_sends always_sent [1; 2; 3]%Z (text_only "hi") 20 (midnight tt));
    [reflexivity | discriminate].
Defined.

(** X7. Whenever [send_mass_message] returns a result, a progress record
    was logged at exactly the indices from 1 to [N] that are multiples of
    100, in order; unless the content is empty, in which case [continue]
    skips the progress record and none is logged at all. *)
Theorem progress_every_hundred {T : Type} (transport : T -> Call -> Outcome * T)
    (recipients : list Z) (content : MessageContent) (rps : Z) (w : World T)
    (res : MailingResult) (w' : World T) (tr : list Event) :
  send_mass_message transport recipients content rps w = (Ok res, w', tr) ->
  progress_marks tr =
  if nothing_to_send content then []
  else List.filter (fun i => (i mod 100 =? 0)%nat) (seq 1 (length recipients)).
Proof.
  intros E. apply send_mass_message_Ok_inv in E as (_ & l & tr0 & E & _ & ->).
  apply for_each_marks in E.
  change (EvLog ?r :: ?t) with ([EvLog r] ++ t).
  rewrite !progress_marks_app, E. cbn. apply app_nil_r.
Qed.

Lemma progress_every_hundred_witness :
  exists res w' tr,
    send_mass_message always_sent (map Z.of_nat (seq 1 250)) (text_only "hi") 20
      (midnight tt) = (Ok res, w', tr) /\
    progress_marks tr =
    if nothing_to_send (text_only "hi") then []
    else List.filter (fun i => (i mod 100 =? 0)%nat)
           (seq 1 (length (map Z.of_nat (seq 1 250)))).
Proof.
  destruct (send_mass_message always_sent (map Z.of_nat (seq 1 250)) (text_only "hi") 20
              (midnight tt)) as [[[res|e] w'] tr] eqn:E; [|vm_compute in E; discriminate].
  exists res, w', tr. split; [reflexivity|].
  exact (progress_every_hundred always_sent (map Z.of_nat (seq 1 250)) (text_only "hi")
           20 (midnight tt) res w' tr E).
Defined.

(** X8. For a content with media and a kind, every call a broadcast makes
    is the media method of that kind, to one of the recipients, with the
    content's file id and markup, and with the text as caption, or no
    caption when the text is empty: the text is never sent as a message of
    its own. *)
Theorem media_carries_text_as_caption {T : Type} (transport : T -> Call -> Outcome * T)
    (recipients : list Z) (content : MessageContent) (rps : Z) (w : World T) :
  has_media content && has_kind content = true ->
  Forall (fun x =>
            exists u, u ∈ recipients /\
              chat_of (snd (fst x)) = u /\
              kind_of (snd (fst x)) = media_type content /\
              file_of (snd (fst x)) = media_file_id content /\
              caption_of (snd (fst x)) = or_None (text content) /\
              markup_of (snd (fst x)) = reply_markup content)
    (calls (snd (send_mass_message transport recipients content rps w))).
Proof.
  intros G. destruct (Z.eq_dec rps 0) as [->|Hrps].
  - rewrite send_mass_message_zero_rps. constructor.
  - rewrite send_mass_message_calls by exact Hrps.
    apply (for_each_calls transport (length recipients) (1 / inject_Z rps)%Q content
             (fun u c => chat_of c = u /\
                         kind_of c = media_type content /\
                         file_of c = media_file_id content /\
                         caption_of c = or_None (text content) /\
                         markup_of c = reply_markup content)).
    intros u c D. split; [exact (dispatch_rule_chat u content c D)|].
    unfold dispatch_rule in D. rewrite G in D.
    exact (media_call_carries u content c G D).
Qed.

Lemma media_carries_text_as_caption_witness :
  has_media (video (Some "")) && has_kind (video (Some "")) = true /\
  Forall (fun x =>
            exists u, u ∈ [1; 2]%Z /\
              chat_of (snd (fst x)) = u /\
              kind_of (snd (fst x)) = media_type (video (Some "")) /\
              file_of (snd (fst x)) = media_file_id (video (Some "")) /\
              caption_of (snd (fst x)) = or_None (text (video (Some ""))) /\
              markup_of (snd (fst x)) = reply_markup (video (Some "")))
    (calls (snd (send_mass_message flaky [1; 2]%Z (video (Some "")) 20 (midnight 0)))).
Proof.
  split; [reflexivity|].
  apply (media_carries_text_as_caption flaky [1; 2]%Z (video (Some "")) 20 (midnight 0)).
  reflexivity.
Defined.

(** X9. In any iteration whose first send attempt raises an [Exception]
    that is none of aiogram's RetryAfter, Forbidden or API errors (a network
    fault, a [ValueError]): the recipient is counted as failed under the key
    [unexpected], the error is logged at level ERROR, and no second call is
    made. *)
Theorem unexpected_error_not_retried {T : Type} (transport : T -> Call -> Outcome * T)
    (total : nat) (delay : Q) (content : MessageContent) (idx : nat) (user_id : Z)
    (l : Locals) (w : World T) (c : Call) (e : Exn) (b : T) :
  dispatch_rule user_id content = DCall c ->
  transport (bot w) c = (Failed e, b) ->
  is_Exception e = true ->
  is_telegram_error e = false ->
  exists l',
    loop_body transport total delay content idx user_id l w =
      (Ok l', {| bot := b; clock := clock w |},
       [EvCall (clock w) c (Failed e); EvLog (log_unexpected user_id e)] ++
       progress idx total l') /\
    level (log_unexpected user_id e) = ERROR /\
    sent l' = sent l /\ failed l' = failed l + 1 /\ skipped l' = skipped l /\
    errors l' = <["unexpected" := default 0 (errors l !! "unexpected") + 1]> (errors l).
Proof.
  intros D E He Ht. exists (count_failed "unexpected" l).
  split; [|cbn; auto].
  rewrite (loop_body_failed transport _ _ _ _ _ _ _ c e b D E He)
    by (destruct e; try discriminate; reflexivity).
  destruct e; try discriminate; reflexivity.
Qed.

Lemma unexpected_error_not_retried_witness :
  dispatch_rule 5 (text_only "hi") = DCall (send_message 5 "hi" None) /\
  offline tt (send_message 5 "hi" None) = (Failed (OtherException "ClientConnectorError"), tt) /\
  is_Exception (OtherException "ClientConnectorError") = true /\
  is_telegram_error (OtherException "ClientConnectorError") = false /\
  exists l',
    loop_body offline 9 (1 / inject_Z 20)%Q (text_only "hi") 1 5 no_counts (midnight tt) =
      (Ok l', {| bot := tt; clock := 0%Q |},
       [EvCall 0%Q (send_message 5 "hi" None) (Failed (OtherException "ClientConnectorError"));
        EvLog (log_unexpected 5 (OtherException "ClientConnectorError"))] ++
       progress 1 9 l') /\
    level (log_unexpected 5 (OtherException "ClientConnectorError")) = ERROR /\
    sent l' = 0 /\ failed l' = 0 + 1 /\ skipped l' = 0 /\
    errors l' = <["unexpected" := default 0 (errors no_counts !! "unexpected") + 1]>
                (errors no_counts).
Proof.
  split; [reflexivity|]. split; [reflexivity|]. split; [reflexivity|].
  split; [reflexivity|].
  apply (unexpected_error_not_retried offline 9 (1 / inject_Z 20)%Q (text_only "hi") 1 5
           no_counts (midnight tt) (send_message 5 "hi" None)
           (OtherException "ClientConnectorError") tt); reflexivity.
Defined.

(** X10. [send_to_channel] raises only what the transport raised that is no
    [Exception]: then the trace is the one call that was cancelled, with no
    log record after it. *)
Theorem channel_send_raises_only_on_cancellation {T : Type}
    (transport : T -> Call -> Outcome * T)
    (channel_id : Z) (content : MessageContent) (w : World T)
    (e : Exn) (w' : World T) (tr : list Event) :
  send_to_channel transport channel_id content w = (Raise e, w', tr) ->
  is_Exception e = false /\
  exists c b,
    dispatch_rule channel_id content = DCall c /\
    transport (bot w) c = (Failed e, b) /\
    w' = {| bot := b; clock := clock w |} /\
    tr = [EvCall (clock w) c (Failed e)].
Proof.
  rewrite send_to_channel_run.
  destruct (dispatch_rule channel_id content) as [c|e0|]; try discriminate.
  destruct (transport (bot w) c) as [[|e1] b] eqn:E; [discriminate|].
  destruct (is_Exception e1) eqn:He; [discriminate|].
  intros [= <- <- <-]. split; [exact He|]. exists c, b. auto.
Qed.

Lemma channel_send_raises_only_on_cancellation_witness :
  exists e w' tr,
    send_to_channel (cancelled_at 0) (-1001234567890) (text_only "hi") (midnight 0)
      = (Raise e, w', tr) /\
    is_Exception e = false /\
    exists c b,
      dispatch_rule (-1001234567890) (text_only "hi") = DCall c /\
      cancelled_at 0 (bot (midnight 0)) c = (Failed e, b) /\
      w' = {| bot := b; clock := clock (midnight 0) |} /\
      tr = [EvCall (clock (midnight 0)) c (Failed e)].
Proof.
  do 3 eexists. split; [reflexivity|].
  apply (channel_send_raises_only_on_cancellation (cancelled_at 0) (-1001234567890)
           (text_only "hi") (midnight 0)).
  reflexivity.
Defined.

(** X11. Skipping is all or nothing: whenever [send_mass_message] returns a
    result, [skipped_count] is the number of recipients when the content has
    neither text nor media with a kind, and 0 for every other content,
    whatever the transport did. *)
Theorem skipped_all_or_nothing {T : Type} (transport : T -> Call -> Outcome * T)
    (recipients : list Z) (content : MessageContent) (rps : Z) (w : World T)
    (res : MailingResult) (w' : World T) (tr : list Event) :
  send_mass_message transport recipients content rps w = (Ok res, w', tr) ->
  skipped_count res = if nothing_to_send content then length recipients else 0.
Proof.
  intros E. apply send_mass_message_Ok_inv in E as (_ & l & tr0 & E & -> & _).
  apply for_each_skips in E as (H & _). exact H.
Qed.

Lemma skipped_all_or_nothing_witness :
  exists res w' tr,
    send_mass_message flaky [1; 2; 3]%Z untyped_photo 20 (midnight 0) = (Ok res, w', tr) /\
    skipped_count res = if nothing_to_send untyped_photo then length [1; 2; 3]%Z else 0.
Proof.
  destruct (send_mass_message flaky [1; 2; 3]%Z untyped_photo 20 (midnight 0))
    as [[[res|e] w'] tr] eqn:E; [|vm_compute in E; discriminate].
  exists res, w', tr. split; [reflexivity|].
  exact (skipped_all_or_nothing flaky [1; 2; 3]%Z untyped_photo 20 (midnight 0)
           res w' tr E).
Defined.

(** X12. Whenever [send_mass_message] returns a result, every key of its
    error summary is [blocked], [retry_failed], [unexpected], [api_error] or
    [api_error_<code>]: the loop writes no other key. *)
Theorem error_summary_keys {T : Type} (transport : T -> Call -> Outcome * T)
    (recipients : list Z) (content : MessageContent) (rps : Z) (w : World T)
    (res : MailingResult) (w' : World T) (tr : list Event) :
  send_mass_message transport recipients content rps w = (Ok res, w', tr) ->
  forall k, is_Some (error_summary res !! k) -> known_key k.
Proof.
  intros E. apply send_mass_message_Ok_inv in E as (_ & l & tr0 & E & -> & _).
  apply for_each_skips in E as (_ & H). apply H.
  intros k [n Hn]. cbn in Hn. rewrite lookup_empty in Hn. discriminate.
Qed.

Lemma error_summary_keys_witness :
  exists res w' tr,
    send_mass_message throttled_then_400 [7; 8; 9]%Z (text_only "hi") 20 (midnight 1)
      = (Ok res, w', tr) /\
    forall k, is_Some (error_summary res !! k) -> known_key k.
Proof.
  destruct (send_mass_message throttled_then_400 [7; 8; 9]%Z (text_only "hi") 20
              (midnight 1)) as [[[res|e] w'] tr] eqn:E; [|vm_compute in E; discriminate].
  exists res, w', tr. split; [reflexivity|].
  exact (error_summary_keys throttled_then_400 [7; 8; 9]%Z (text_only "hi") 20
           (midnight 1) res w' tr E).
Defined.



(** X15. For winners whose usernames hold no line break, the text of
    [format_winner_list] has exactly one line per winner: split at the line
    breaks it gives back the lines the loop built, numbered from 1 in the
    order of the list. *)
Theorem winner_list_one_line_each (winners : list Winner) :
  winners <> [] ->
  Forall (fun x => has_char newline (default "" (username_snapshot x)) = false) winners ->
  split newline (format_winner_list winners) = winner_lines 1 winners /\
  length (split newline (format_winner_list winners)) = length winners.
Proof.
  intros Hne Hall.
  assert (E : split newline (format_winner_list winners) = winner_lines 1 winners).
  { unfold format_winner_list. destruct winners as [|x rest]; [contradiction|].
    apply split_concat; [discriminate|]. apply winner_lines_no_newline, Hall. }
  split; [exact E|]. rewrite E. apply winner_lines_length.
Qed.

Lemma winner_list_one_line_each_witness :
  [ {| user_id := 42; username_snapshot := Some "alice" |};
    {| user_id := 77; username_snapshot := None |} ] <> [] /\
  Forall (fun x => has_char newline (default "" (username_snapshot x)) = false)
    [ {| user_id := 42; username_snapshot := Some "alice" |};
      {| user_id := 77; username_snapshot := None |} ] /\
  split newline
    (format_winner_list [ {| user_id := 42; username_snapshot := Some "alice" |};
                          {| user_id := 77; username_snapshot := None |} ]) =
  winner_lines 1 [ {| user_id := 42; username_snapshot := Some "alice" |};
                   {| user_id := 77; username_snapshot := None |} ] /\
  length (split newline
            (format_winner_list [ {| user_id := 42; username_snapshot := Some "alice" |};
                                  {| user_id := 77; username_snapshot := None |} ])) =
  length [ {| user_id := 42; username_snapshot := Some "alice" |};
           {| user_id := 77; username_snapshot := None |} ].
Proof.
  assert (Hall : Forall (fun x => has_char newline (default "" (username_snapshot x)) = false)
                   [ {| user_id := 42; username_snapshot := Some "alice" |};
                     {| user_id := 77; username_snapshot := None |} ]).
  { repeat constructor. }
  split; [discriminate|]. split; [exact Hall|].
  apply winner_list_one_line_each; [discriminate|exact Hall].
Defined.

(** X16. The count the announce handlers report: with a transport of
    successes and signals, for every target, the block returns and its
    [sent_count] is the number of calls that were delivered, the channel
    post counted only when it went through; a target that is none of
    [channel], [users], [everywhere] calls nothing and counts 0. *)
Theorem announce_count_is_deliveries {T : Type} (transport : T -> Call -> Outcome * T)
    (target : string) (channel_id : Z) (user_ids : list Z) (content : MessageContent)
    (w : World T) :
  (forall s c, success_or_signal (fst (transport s c)) = true) ->
  exists n w' tr,
    announce_deliver transport target channel_id user_ids content w = (Ok n, w', tr) /\
    n = delivered tr /\
    (String.eqb target "channel" || String.eqb target "users" ||
     String.eqb target "everywhere" = false ->
     n = 0 /\ w' = w /\ tr = []).
Proof.
  intros Hsig. unfold announce_deliver, bind.
  destruct (String.eqb target "channel"), (String.eqb target "everywhere"),
    (String.eqb target "users"); cbn [orb ret];
    try (destruct (send_to_channel_delivered transport Hsig channel_id content w)
           as (ok & w1 & tr1 & -> & Hd & _));
    try (destruct (send_mass_message_delivered transport Hsig user_ids content 20 w1)
           as (res & w2 & tr2 & -> & Hs); [discriminate|]);
    try (destruct (send_mass_message_delivered transport Hsig user_ids content 20 w)
           as (res & w2 & tr2 & -> & Hs); [discriminate|]);
    do 3 eexists; (split; [reflexivity|]); (split; [|try discriminate; auto]);
    rewrite ?app_nil_r, ?delivered_app, ?Hd, ?Hs; try (destruct ok); reflexivity.
Qed.

Lemma announce_count_is_deliveries_witness :
  (forall s c, success_or_signal (fst (flaky s c)) = true) /\
  exists n w' tr,
    announce_deliver flaky "everywhere" (-1001234567890) [1; 2; 3]%Z (video (Some "hi"))
      (midnight 0) = (Ok n, w', tr) /\
    n = delivered tr /\
    (String.eqb "everywhere" "channel" || String.eqb "everywhere" "users" ||
     String.eqb "everywhere" "everywhere" = false ->
     n = 0 /\ w' = midnight 0 /\ tr = []).
Proof.
  assert (H : forall s c, success_or_signal (fst (flaky s c)) = true).
  { intros s c. unfold flaky. cbn.
    destruct (s =? 0)%nat; [reflexivity|]. destruct (chat_of c =? 2)%Z; reflexivity. }
  split; [exact H|].
  apply (announce_count_is_deliveries flaky "everywhere" (-1001234567890) [1; 2; 3]%Z
           (video (Some "hi")) (midnight 0) H).
Defined.

(** X17. The count [publish_results] reports: with a transport of successes
    and signals the block returns, and for the targets [channel], [admins]
    and [users] its [sent_count] is the number of calls that were
    delivered; for [everywhere] it adds one for the channel whether or not
    the channel post went through, so it is one more than the deliveries
    exactly when that post failed. *)
Theorem publish_count_and_deliveries {T : Type} (transport : T -> Call -> Outcome * T)
    (target : string) (channel_id : Z) (admin_ids user_ids : list Z)
    (result_text : string) (w : World T) :
  (forall s c, success_or_signal (fst (transport s c)) = true) ->
  exists n w' tr,
    publish_results_deliver transport target channel_id admin_ids user_ids result_text w
      = (Ok n, w', tr) /\
    n = delivered tr +
        (if String.eqb target "everywhere" &&
            negb (channel_delivered transport channel_id (text_only result_text) w)
         then 1 else 0).
Proof.
  intros Hsig. unfold publish_results_deliver, bind.
  destruct (String.eqb target "channel") eqn:Ec.
  { apply String.eqb_eq in Ec. subst target. cbn [String.eqb andb].
    destruct (send_to_channel_delivered transport Hsig channel_id (text_only result_text) w)
      as (ok & w1 & tr1 & -> & Hd & _).
    do 3 eexists. split; [reflexivity|]. rewrite app_nil_r, Hd.
    change ("channel" =? "everywhere")%string with false. cbn. destruct ok; reflexivity. }
  destruct (String.eqb target "admins") eqn:Ea.
  { apply String.eqb_eq in Ea. subst target.
    destruct (send_mass_message_delivered transport Hsig admin_ids (text_only result_text)
                10 w) as (res & w2 & tr2 & -> & Hs); [discriminate|].
    do 3 eexists. split; [reflexivity|]. rewrite app_nil_r, Hs.
    change ("admins" =? "everywhere")%string with false. cbn. lia. }
  destruct (String.eqb target "users") eqn:Eu.
  { apply String.eqb_eq in Eu. subst target.
    destruct (send_mass_message_delivered transport Hsig user_ids (text_only result_text)
                20 w) as (res & w2 & tr2 & -> & Hs); [discriminate|].
    do 3 eexists. split; [reflexivity|]. rewrite app_nil_r, Hs.
    change ("users" =? "everywhere")%string with false. cbn. lia. }
  destruct (String.eqb target "everywhere") eqn:Ee.
  - destruct (send_to_channel_delivered transport Hsig channel_id (text_only result_text) w)
      as (ok & w1 & tr1 & -> & Hd & ->).
    destruct (send_mass_message_delivered transport Hsig user_ids (text_only result_text)
                20 w1) as (res & w2 & tr2 & -> & Hs); [discriminate|].
    do 3 eexists. split; [reflexivity|].
    rewrite app_nil_r, delivered_app, Hd, Hs. destruct ok; cbn; lia.
  - do 3 eexists. split; reflexivity.
Qed.

Lemma publish_count_and_deliveries_witness :
  (forall s c, success_or_signal (fst (offline s c)) = true) /\
  exists n w' tr,
    publish_results_deliver offline "everywhere" (-1001234567890) [10]%Z [1; 2; 3]%Z
      "results" (midnight tt) = (Ok n, w', tr) /\
    n = delivered tr +
        (if String.eqb "everywhere" "everywhere" &&
            negb (channel_delivered offline (-1001234567890) (text_only "results")
                    (midnight tt))
         then 1 else 0).
Proof.
  split; [reflexivity|].
  apply (publish_count_and_deliveries offline "everywhere" (-1001234567890) [10]%Z
           [1; 2; 3]%Z "results" (midnight tt)).
  reflexivity.
Defined.
